(** * Chef assistant: inventory, onboarding gate and the cook transaction

    A shallow embedding of the screens' handlers (React Native, TypeScript)
    and of the remote store they talk to, followed by the properties of the
    cook transaction, the onboarding flag, ingredient uniqueness, error
    reporting, the diet round trip and the prep/cook time split.

    Conventions.
    - A JavaScript string is a [string]: a sequence of code units below 256.
    - A JavaScript number is a binary64 value ([spec_float], precision 53).
    - A handler is a computation in the monad [App]: it threads the remote
      store, the session, the scripted remote failures and an ordered trace
      of what the user and the backend observe.
    - [console.log] calls and React state setters other than the ones named
      in the trace are not recorded; they do not reach the store. *)

From Stdlib Require Import ZArith QArith Qcanon List String Ascii Bool Lia.
From Stdlib Require Import Floats.SpecFloat.
Import ListNotations.

Set Implicit Arguments.
Local Open Scope string_scope.
Local Open Scope Z_scope.

(* ================================================================== *)
(** ** JavaScript built-ins used by the screens *)

Module Js.

(** *** Strings *)

(** [s.startsWith(p)] *)
Definition startsWith (s p : string) : bool := String.prefix p s.

(** Truthiness of a string: only the empty string is falsy. *)
Definition truthy (s : string) : bool :=
  match s with EmptyString => false | String _ _ => true end.

(** [a.join(sep)] *)
Fixpoint join (sep : string) (a : list string) : string :=
  match a with
  | [] => EmptyString
  | [x] => x
  | x :: rest => x ++ sep ++ join sep rest
  end.

(** [s.split(sep)] for a one-character separator. *)
Fixpoint split (sep : ascii) (s : string) : list string :=
  match s with
  | EmptyString => [EmptyString]
  | String c s' =>
      if Ascii.eqb c sep then EmptyString :: split sep s'
      else match split sep s' with
           | [] => [String c EmptyString]
           | piece :: pieces => String c piece :: pieces
           end
  end.

(** [a.filter(Boolean)] on an array of strings. *)
Definition filterBoolean (a : list string) : list string :=
  filter truthy a.

(** [a.includes(x)] *)
Definition includes (a : list string) (x : string) : bool :=
  existsb (String.eqb x) a.

(** White space of [trim] and of the numeric parsers, below 256. *)
Definition isWhiteSpace (c : ascii) : bool :=
  match nat_of_ascii c with
  | 9%nat | 10%nat | 11%nat | 12%nat | 13%nat | 32%nat | 160%nat => true
  | _ => false
  end.

Fixpoint trimStart (s : string) : string :=
  match s with
  | EmptyString => EmptyString
  | String c s' => if isWhiteSpace c then trimStart s' else s
  end.

Fixpoint trimEnd (s : string) : string :=
  match s with
  | EmptyString => EmptyString
  | String c s' =>
      match trimEnd s' with
      | EmptyString => if isWhiteSpace c then EmptyString
                       else String c EmptyString
      | rest => String c rest
      end
  end.

(** [s.trim()] *)
Definition trim (s : string) : string := trimEnd (trimStart s).

(** *** Numbers *)

Definition Number := spec_float.
Definition prec : Z := 53.
Definition emax : Z := 1024.
Definition NaN : Number := S754_nan.

(** The number nearest to an integer (round to nearest, ties to even). *)
Definition of_Z (n : Z) : Number := binary_normalize prec emax n 0 false.

(** The literals [0.3] and [0.7]: the binary64 values nearest to 3/10 and
    7/10, that is [0x1.3333333333333p-2] and [0x1.6666666666666p-1]. *)
Definition lit_0_3 : Number := S754_finite false 5404319552844595 (-54).
Definition lit_0_7 : Number := S754_finite false 6305039478318694 (-53).

(** [x * y] *)
Definition mul (x y : Number) : Number := SFmul prec emax x y.

(** Truthiness of a number: [NaN], [0] and [-0] are falsy. *)
Definition truthyNumber (x : Number) : bool :=
  match x with
  | S754_nan | S754_zero _ => false
  | _ => true
  end.

(** [x || d] on numbers. *)
Definition orElse (x d : Number) : Number :=
  if truthyNumber x then x else d.

(** [isNaN(x)] *)
Definition isNaN (x : Number) : bool :=
  match x with S754_nan => true | _ => false end.

(** [x <= 0] *)
Definition leZero (x : Number) : bool :=
  match x with
  | S754_zero _ => true
  | S754_finite s _ _ | S754_infinity s => s
  | S754_nan => false
  end.

(** [Math.floor(x)] *)
Definition Math_floor (x : Number) : Number :=
  match x with
  | S754_finite s m e =>
      if 0 <=? e then x
      else binary_normalize prec emax
             ((if s then Z.neg m else Z.pos m) / 2 ^ (- e)) 0 false
  | _ => x
  end.

(** The exact rational value of a finite number. *)
Definition toQ (x : Number) : option Q :=
  match x with
  | S754_zero _ => Some 0%Q
  | S754_finite s m e =>
      let v := if s then Z.neg m else Z.pos m in
      Some (if 0 <=? e then inject_Z (v * 2 ^ e)
            else (v # Z.to_pos (2 ^ (- e)))%Q)
  | S754_infinity _ | S754_nan => None
  end.

(** The integer a number denotes, when it denotes one. *)
Definition toInteger (x : Number) : option Z :=
  match x with
  | S754_zero _ => Some 0
  | S754_finite s m e =>
      let v := if s then Z.neg m else Z.pos m in
      if 0 <=? e then Some (v * 2 ^ e)
      else if v mod 2 ^ (- e) =? 0 then Some (v / 2 ^ (- e)) else None
  | S754_infinity _ | S754_nan => None
  end.

(** *** parseInt *)

Definition digitValue (c : ascii) : option Z :=
  let n := Z.of_nat (nat_of_ascii c) in
  if (48 <=? n) && (n <=? 57) then Some (n - 48)
  else if (97 <=? n) && (n <=? 122) then Some (n - 87)
  else if (65 <=? n) && (n <=? 90) then Some (n - 55)
  else None.

(** The longest prefix of radix-[r] digits, as an integer; [acc] is the
    value read so far, [None] before the first digit. *)
Fixpoint digits (r : Z) (s : string) (acc : option Z) : option Z :=
  match s with
  | EmptyString => acc
  | String c s' =>
      match digitValue c with
      | Some d =>
          if d <? r
          then digits r s' (Some (r * match acc with Some a => a | None => 0 end + d))
          else acc
      | None => acc
      end
  end.

(** The mathematical integer [parseInt(s)] reads, [None] for [NaN]:
    leading white space, an optional sign, an optional [0x]/[0X] prefix
    selecting radix 16, then the longest run of digits. *)
Definition parseInt_Z (s : string) : option Z :=
  let s1 := trimStart s in
  let '(neg, s2) :=
    match s1 with
    | String "-" r => (true, r)
    | String "+" r => (false, r)
    | _ => (false, s1)
    end in
  let '(radix, s3) :=
    match s2 with
    | String "0" (String "x" r) => (16, r)
    | String "0" (String "X" r) => (16, r)
    | _ => (10, s2)
    end in
  match digits radix s3 None with
  | Some v => Some (if neg then - v else v)
  | None => None
  end.

(** [parseInt(s)] *)
Definition parseInt (s : string) : Number :=
  match parseInt_Z s with
  | Some v => of_Z v
  | None => NaN
  end.

End Js.

(* ================================================================== *)
(** ** The remote store

    Tables and constraints as documented in [docs/databse.md]: rows are
    owned by a user, a caller sees and writes only its own rows, and
    [(user_id, name)] is unique for ingredients and for utensils. *)

Module Store.

Definition UserId := Z.

(** The error object of a failed request. *)
Record PgError := { code : string; message : string }.

Record AuthUser :=
  { au_id : UserId; au_email : string; au_password : string }.

Record Profile :=
  { profile_id : UserId; full_name : string; onboarding_complete : bool }.

Record Ingredient :=
  { ingredient_id : Z;
    ingredient_user : UserId;
    ingredient_name : string;
    ingredient_quantity : Qc;
    ingredient_unit : string }.

Record Utensil :=
  { utensil_id : Z; utensil_user : UserId; utensil_name : string }.

Record UserPreferences :=
  { pref_id : UserId;
    diet : option string;
    tastes : list string;
    preferred_difficulty : option string;
    preferred_time_minutes : option Z;
    preferred_portions : option Z }.

(** A quantity inside a recipe's JSON ingredient list: a number, as the
    documentation prescribes, or a text such as ['2 cups'], as the recipe
    generator produces. *)
Inductive Quantity :=
| QNumber (q : Qc)
| QText (s : string).

Record RecipeIngredient := { ri_name : string; ri_quantity : Quantity }.

Record Recipe :=
  { recipe_id : Z;
    recipe_user : UserId;
    title : string;
    description : string;
    recipe_ingredients : list RecipeIngredient;
    instructions : list string;
    prep_time_minutes : option Z;
    cook_time_minutes : option Z;
    servings : option Z;
    is_used : bool }.

Record DB :=
  { auth_users : list AuthUser;
    profiles : list Profile;
    ingredients : list Ingredient;
    utensils : list Utensil;
    user_preferences : list UserPreferences;
    recipes : list Recipe;
    next_id : Z }.

Definition empty : DB :=
  {| auth_users := []; profiles := []; ingredients := []; utensils := [];
     user_preferences := []; recipes := []; next_id := 1 |}.

(** *** Payloads of the write requests, as the screens build them *)

Record IngredientData :=
  { d_name : string; d_quantity : Js.Number; d_unit : string;
    d_user_id : UserId }.

Record UtensilData := { ud_name : string; ud_user_id : UserId }.

Record RecipeData :=
  { rd_user_id : UserId;
    rd_title : string;
    rd_description : string;
    rd_ingredients : list RecipeIngredient;
    rd_instructions : list string;
    rd_prep_time_minutes : Js.Number;
    rd_cook_time_minutes : Js.Number;
    rd_servings : Js.Number;
    rd_is_used : bool }.

(** *** Field updates *)

Definition with_auth_users (l : list AuthUser) (db : DB) : DB :=
  {| auth_users := l; profiles := profiles db;
     ingredients := ingredients db; utensils := utensils db;
     user_preferences := user_preferences db; recipes := recipes db;
     next_id := next_id db |}.

Definition with_profiles (l : list Profile) (db : DB) : DB :=
  {| auth_users := auth_users db; profiles := l;
     ingredients := ingredients db; utensils := utensils db;
     user_preferences := user_preferences db; recipes := recipes db;
     next_id := next_id db |}.

Definition with_ingredients (l : list Ingredient) (db : DB) : DB :=
  {| auth_users := auth_users db; profiles := profiles db;
     ingredients := l; utensils := utensils db;
     user_preferences := user_preferences db; recipes := recipes db;
     next_id := next_id db |}.

Definition with_utensils (l : list Utensil) (db : DB) : DB :=
  {| auth_users := auth_users db; profiles := profiles db;
     ingredients := ingredients db; utensils := l;
     user_preferences := user_preferences db; recipes := recipes db;
     next_id := next_id db |}.

Definition with_user_preferences (l : list UserPreferences) (db : DB) : DB :=
  {| auth_users := auth_users db; profiles := profiles db;
     ingredients := ingredients db; utensils := utensils db;
     user_preferences := l; recipes := recipes db;
     next_id := next_id db |}.

Definition with_recipes (l : list Recipe) (db : DB) : DB :=
  {| auth_users := auth_users db; profiles := profiles db;
     ingredients := ingredients db; utensils := utensils db;
     user_preferences := user_preferences db; recipes := l;
     next_id := next_id db |}.

Definition bump (db : DB) : DB :=
  {| auth_users := auth_users db; profiles := profiles db;
     ingredients := ingredients db; utensils := utensils db;
     user_preferences := user_preferences db; recipes := recipes db;
     next_id := next_id db + 1 |}.

Definition set_quantity (q : Qc) (row : Ingredient) : Ingredient :=
  {| ingredient_id := ingredient_id row;
     ingredient_user := ingredient_user row;
     ingredient_name := ingredient_name row;
     ingredient_quantity := q;
     ingredient_unit := ingredient_unit row |}.

Definition set_is_used (b : bool) (r : Recipe) : Recipe :=
  {| recipe_id := recipe_id r; recipe_user := recipe_user r;
     title := title r; description := description r;
     recipe_ingredients := recipe_ingredients r;
     instructions := instructions r;
     prep_time_minutes := prep_time_minutes r;
     cook_time_minutes := cook_time_minutes r;
     servings := servings r; is_used := b |}.

Definition set_onboarding_complete (b : bool) (p : Profile) : Profile :=
  {| profile_id := profile_id p; full_name := full_name p;
     onboarding_complete := b |}.

(** *** Errors the store reports *)

(** unique_violation: the code the screens special-case. *)
Definition unique_violation : PgError :=
  {| code := "23505";
     message := "duplicate key value violates unique constraint" |}.

Definition rls_violation : PgError :=
  {| code := "42501";
     message := "new row violates row-level security policy" |}.

Definition invalid_input : PgError :=
  {| code := "22P02"; message := "invalid input syntax" |}.

Definition no_rows : PgError :=
  {| code := "PGRST116";
     message := "JSON object requested, multiple (or no) rows returned" |}.

Definition invalid_credentials : PgError :=
  {| code := "invalid_credentials";
     message := "Invalid login credentials" |}.

Definition user_already_exists : PgError :=
  {| code := "user_already_exists"; message := "User already registered" |}.

(** *** Row-level isolation and column types *)

(** Modelled from the spec: the access-control layer of the hosted
    database, which is not part of the client code. A caller acts on a
    row only when it owns it; without a session it owns nothing. *)
Definition owns (caller : option UserId) (u : UserId) : bool :=
  match caller with
  | Some c => c =? u
  | None => false
  end.

(** Modelled from the spec: a [numeric] column holds the exact value of
    the finite number sent; a value that is not finite is refused. *)
Definition numeric_column (x : Js.Number) : option Qc :=
  option_map Q2Qc (Js.toQ x).

(** Modelled from the spec: an [integer] column. [Some None] is SQL NULL
    (a number that is not finite travels as JSON [null]); [None] means the
    value is refused because it is not an integer. *)
Definition integer_column (x : Js.Number) : option (option Z) :=
  match x with
  | S754_infinity _ | S754_nan => Some None
  | _ => option_map Some (Js.toInteger x)
  end.

(** Modelled from the spec: [difficulty_enum] is ['Easy'], ['Medium'] or
    ['Hard']; the column is nullable. *)
Definition difficulty_column (d : option string) : bool :=
  match d with
  | None => true
  | Some s => String.eqb s "Easy" || String.eqb s "Medium"
              || String.eqb s "Hard"
  end.

(** *** ingredients *)

(** Does another row of user [u] already carry the name [n]?  [except] is
    the id of the row being updated, if any. *)
Definition ingredient_name_taken (u : UserId) (n : string)
    (except : option Z) (l : list Ingredient) : bool :=
  existsb (fun row =>
             (ingredient_user row =? u)
             && String.eqb (ingredient_name row) n
             && negb (match except with
                      | Some i => ingredient_id row =? i
                      | None => false
                      end)) l.

(** Modelled from the spec: [from('ingredients').insert(d)] under the
    constraint [unique_ingredient_for_user] on [(user_id, name)]; a
    collision is reported with code 23505 and nothing is written. The
    newest row comes first. *)
Definition insert_ingredient (caller : option UserId) (d : IngredientData)
    (db : DB) : option PgError * DB :=
  if negb (owns caller (d_user_id d)) then (Some rls_violation, db)
  else match numeric_column (d_quantity d) with
       | None => (Some invalid_input, db)
       | Some q =>
           if ingredient_name_taken (d_user_id d) (d_name d) None
                (ingredients db)
           then (Some unique_violation, db)
           else (None,
                 bump (with_ingredients
                         ({| ingredient_id := next_id db;
                             ingredient_user := d_user_id d;
                             ingredient_name := d_name d;
                             ingredient_quantity := q;
                             ingredient_unit := d_unit d |}
                          :: ingredients db) db))
       end.

(** Modelled from the spec: [from('ingredients').update(d).eq('id', id)].
    It touches the caller's row with that id, if there is one, and is
    refused with 23505 when another row of the user has the new name. *)
Definition update_ingredient (caller : option UserId) (id : Z)
    (d : IngredientData) (db : DB) : option PgError * DB :=
  if existsb (fun row => (ingredient_id row =? id)
                         && owns caller (ingredient_user row))
       (ingredients db)
  then
    if negb (owns caller (d_user_id d)) then (Some rls_violation, db)
    else match numeric_column (d_quantity d) with
         | None => (Some invalid_input, db)
         | Some q =>
             if ingredient_name_taken (d_user_id d) (d_name d) (Some id)
                  (ingredients db)
             then (Some unique_violation, db)
             else (None,
                   with_ingredients
                     (map (fun row =>
                             if (ingredient_id row =? id)
                                && owns caller (ingredient_user row)
                             then {| ingredient_id := ingredient_id row;
                                     ingredient_user := d_user_id d;
                                     ingredient_name := d_name d;
                                     ingredient_quantity := q;
                                     ingredient_unit := d_unit d |}
                             else row) (ingredients db)) db)
         end
  else (None, db).

(** Modelled from the spec: [from('ingredients').delete().eq('id', id)]. *)
Definition delete_ingredient (caller : option UserId) (id : Z) (db : DB)
    : option PgError * DB :=
  (None,
   with_ingredients
     (filter (fun row => negb ((ingredient_id row =? id)
                               && owns caller (ingredient_user row)))
        (ingredients db)) db).

(** Modelled from the spec: [from('ingredients').upsert(ingredient)] as
    [docs/databse.md] describes it for [addOrUpdateIngredient]: a new row
    when the caller has no ingredient of that name, otherwise the existing
    row gets the new quantity and unit. *)
Definition upsert_ingredient (caller : option UserId) (n : string)
    (quantity : Js.Number) (unit : string) (db : DB)
    : option PgError * DB :=
  match caller with
  | None => (Some rls_violation, db)
  | Some u =>
      match numeric_column quantity with
      | None => (Some invalid_input, db)
      | Some q =>
          if ingredient_name_taken u n None (ingredients db)
          then (None,
                with_ingredients
                  (map (fun row =>
                          if (ingredient_user row =? u)
                             && String.eqb (ingredient_name row) n
                          then {| ingredient_id := ingredient_id row;
                                  ingredient_user := ingredient_user row;
                                  ingredient_name := ingredient_name row;
                                  ingredient_quantity := q;
                                  ingredient_unit := unit |}
                          else row) (ingredients db)) db)
          else (None,
                bump (with_ingredients
                        ({| ingredient_id := next_id db;
                            ingredient_user := u;
                            ingredient_name := n;
                            ingredient_quantity := q;
                            ingredient_unit := unit |}
                         :: ingredients db) db))
      end
  end.

(** *** utensils *)

Definition utensil_name_taken (u : UserId) (n : string)
    (except : option Z) (l : list Utensil) : bool :=
  existsb (fun row =>
             (utensil_user row =? u)
             && String.eqb (utensil_name row) n
             && negb (match except with
                      | Some i => utensil_id row =? i
                      | None => false
                      end)) l.

(** Modelled from the spec: [from('utensils').insert(d)] under the
    constraint [unique_utensil_for_user]. *)
Definition insert_utensil (caller : option UserId) (d : UtensilData)
    (db : DB) : option PgError * DB :=
  if negb (owns caller (ud_user_id d)) then (Some rls_violation, db)
  else if utensil_name_taken (ud_user_id d) (ud_name d) None (utensils db)
  then (Some unique_violation, db)
  else (None,
        bump (with_utensils
                ({| utensil_id := next_id db;
                    utensil_user := ud_user_id d;
                    utensil_name := ud_name d |} :: utensils db) db)).

(** Modelled from the spec: [from('utensils').update(d).eq('id', id)]. *)
Definition update_utensil (caller : option UserId) (id : Z)
    (d : UtensilData) (db : DB) : option PgError * DB :=
  if existsb (fun row => (utensil_id row =? id)
                         && owns caller (utensil_user row)) (utensils db)
  then
    if negb (owns caller (ud_user_id d)) then (Some rls_violation, db)
    else if utensil_name_taken (ud_user_id d) (ud_name d) (Some id)
              (utensils db)
    then (Some unique_violation, db)
    else (None,
          with_utensils
            (map (fun row =>
                    if (utensil_id row =? id)
                       && owns caller (utensil_user row)
                    then {| utensil_id := utensil_id row;
                            utensil_user := ud_user_id d;
                            utensil_name := ud_name d |}
                    else row) (utensils db)) db)
  else (None, db).

(** Modelled from the spec: [from('utensils').delete().eq('id', id)]. *)
Definition delete_utensil (caller : option UserId) (id : Z) (db : DB)
    : option PgError * DB :=
  (None,
   with_utensils
     (filter (fun row => negb ((utensil_id row =? id)
                               && owns caller (utensil_user row)))
        (utensils db)) db).

(** *** user_preferences *)

(** Modelled from the spec: [from('user_preferences').upsert(row)], keyed
    by the user id; the whole record is replaced. *)
Definition upsert_preferences (caller : option UserId)
    (row : UserPreferences) (db : DB) : option PgError * DB :=
  if negb (owns caller (pref_id row)) then (Some rls_violation, db)
  else if negb (difficulty_column (preferred_difficulty row))
  then (Some invalid_input, db)
  else (None,
        with_user_preferences
          (row :: filter (fun r => negb (pref_id r =? pref_id row))
                    (user_preferences db)) db).

(** Modelled from the spec:
    [from('user_preferences').select('*').eq('id', id).single()]. *)
Definition select_preferences (caller : option UserId) (id : UserId)
    (db : DB) : option UserPreferences :=
  find (fun r => (pref_id r =? id) && owns caller (pref_id r))
    (user_preferences db).

(** *** recipes *)

(** Modelled from the spec: [from('recipes').insert(d)]. *)
Definition insert_recipe (caller : option UserId) (d : RecipeData)
    (db : DB) : option PgError * DB :=
  if negb (owns caller (rd_user_id d)) then (Some rls_violation, db)
  else match integer_column (rd_prep_time_minutes d),
             integer_column (rd_cook_time_minutes d),
             integer_column (rd_servings d) with
       | Some prep, Some cook, Some serv =>
           (None,
            bump (with_recipes
                    ({| recipe_id := next_id db;
                        recipe_user := rd_user_id d;
                        title := rd_title d;
                        description := rd_description d;
                        recipe_ingredients := rd_ingredients d;
                        instructions := rd_instructions d;
                        prep_time_minutes := prep;
                        cook_time_minutes := cook;
                        servings := serv;
                        is_used := rd_is_used d |} :: recipes db) db))
       | _, _, _ => (Some invalid_input, db)
       end.

(** Modelled from the spec: [from('recipes').delete().eq('id', id)]. *)
Definition delete_recipe (caller : option UserId) (id : Z) (db : DB)
    : option PgError * DB :=
  (None,
   with_recipes
     (filter (fun r => negb ((recipe_id r =? id)
                             && owns caller (recipe_user r)))
        (recipes db)) db).

(** *** profiles *)

(** Modelled from the spec:
    [from('profiles').select('onboarding_complete').eq('id', id).single()]. *)
Definition select_profile (caller : option UserId) (id : UserId) (db : DB)
    : option Profile :=
  find (fun p => (profile_id p =? id) && owns caller (profile_id p))
    (profiles db).

(** Modelled from the spec:
    [from('profiles').update({ onboarding_complete: b }).eq('id', id)]. *)
Definition update_profile (caller : option UserId) (id : UserId) (b : bool)
    (db : DB) : option PgError * DB :=
  (None,
   with_profiles
     (map (fun p => if (profile_id p =? id) && owns caller (profile_id p)
                    then set_onboarding_complete b p else p)
        (profiles db)) db).

(** *** Accounts *)

(** Modelled from the spec: [auth.signUp]. A new account gets a fresh id,
    and the registration trigger creates its profile with
    [onboarding_complete = false]. *)
Definition sign_up (email password name : string) (db : DB)
    : option PgError * DB :=
  if existsb (fun a => String.eqb (au_email a) email) (auth_users db)
  then (Some user_already_exists, db)
  else (None,
        bump (with_profiles
                ({| profile_id := next_id db; full_name := name;
                    onboarding_complete := false |} :: profiles db)
                (with_auth_users
                   ({| au_id := next_id db; au_email := email;
                       au_password := password |} :: auth_users db) db))).

(** Modelled from the spec: [auth.signInWithPassword]. *)
Definition sign_in (email password : string) (db : DB) : option UserId :=
  option_map au_id
    (find (fun a => String.eqb (au_email a) email
                    && String.eqb (au_password a) password)
       (auth_users db)).

(** *** The cook transaction *)

Inductive CookOutcome :=
| CookSuccess
| InsufficientIngredient (name : string)
| AlreadyUsed
| NotFound.

(** An inventory row of user [u] named [n]: exact, case-sensitive name
    equality. *)
Definition stock_row (u : UserId) (n : string) (row : Ingredient) : bool :=
  (ingredient_user row =? u) && String.eqb (ingredient_name row) n.

(** Modelled from the spec: the precondition of the cook transaction for
    one recipe ingredient: a same-named ingredient exists in the user's
    inventory with quantity at least the required quantity. A quantity
    that is not a number cannot be met. *)
Definition in_stock (u : UserId) (inv : list Ingredient)
    (item : RecipeIngredient) : bool :=
  match ri_quantity item with
  | QNumber q =>
      existsb (fun row => stock_row u (ri_name item) row
                          && Qle_bool q (ingredient_quantity row)) inv
  | QText _ => false
  end.

(** Modelled from the spec: the first shortfall, in the order the recipe
    lists its ingredients. *)
Definition first_shortfall (u : UserId) (inv : list Ingredient)
    (items : list RecipeIngredient) : option RecipeIngredient :=
  find (fun item => negb (in_stock u inv item)) items.

Definition required_quantity (item : RecipeIngredient) : Qc :=
  match ri_quantity item with
  | QNumber q => q
  | QText _ => Q2Qc 0
  end.

(** Modelled from the spec: the matched inventory ingredient is
    decremented by the required amount. *)
Definition subtract_item (u : UserId) (item : RecipeIngredient)
    (inv : list Ingredient) : list Ingredient :=
  map (fun row =>
         if stock_row u (ri_name item) row
         then set_quantity
                (ingredient_quantity row - required_quantity item)%Qc row
         else row) inv.

Definition subtract_all (u : UserId) (items : list RecipeIngredient)
    (inv : list Ingredient) : list Ingredient :=
  fold_left (fun acc item => subtract_item u item acc) items inv.

Definition mark_used (u : UserId) (id : Z) (l : list Recipe)
    : list Recipe :=
  map (fun r => if (recipe_id r =? id) && (recipe_user r =? u)
                then set_is_used true r else r) l.

(** Modelled from the spec: the database function
    [select_recipe_and_subtract_ingredients], whose body is not in the
    client repository. The recipe must exist and belong to the caller
    ([NotFound] otherwise) and must not be used yet ([AlreadyUsed]); every
    listed ingredient must be in stock, the first shortfall being reported
    ([InsufficientIngredient]); then every matched ingredient is
    decremented and the recipe is marked used. A failure leaves the
    database as it was. *)
Definition select_recipe_and_subtract_ingredients
    (caller : option UserId) (recipe_id_to_use : Z) (db : DB)
    : CookOutcome * DB :=
  match caller with
  | None => (NotFound, db)
  | Some u =>
      match find (fun r => (recipe_id r =? recipe_id_to_use)
                           && (recipe_user r =? u)) (recipes db) with
      | None => (NotFound, db)
      | Some r =>
          if is_used r then (AlreadyUsed, db)
          else
            match first_shortfall u (ingredients db)
                    (recipe_ingredients r) with
            | Some item => (InsufficientIngredient (ri_name item), db)
            | None =>
                (CookSuccess,
                 with_recipes (mark_used u recipe_id_to_use (recipes db))
                   (with_ingredients
                      (subtract_all u (recipe_ingredients r)
                         (ingredients db)) db))
            end
      end
  end.

(** Modelled from the spec: the text the function returns. The first two
    texts are the ones [docs/databse.md] shows; the texts for a used or a
    missing recipe are not documented, beyond not starting with
    ['Success']. *)
Definition cook_message (o : CookOutcome) : string :=
  match o with
  | CookSuccess => "Success: Ingredients have been subtracted."
  | InsufficientIngredient n => "Error: Insufficient ingredient - " ++ n
  | AlreadyUsed => "Error: Recipe has already been used"
  | NotFound => "Error: Recipe not found"
  end.

(** *** Requests and responses *)

Inductive Request :=
| ProfilesSelect (id : UserId)
| ProfilesUpdate (id : UserId) (flag : bool)
| IngredientsInsert (d : IngredientData)
| IngredientsUpdate (id : Z) (d : IngredientData)
| IngredientsDelete (id : Z)
| IngredientsUpsert (name : string) (quantity : Js.Number) (unit : string)
| UtensilsInsert (d : UtensilData)
| UtensilsUpdate (id : Z) (d : UtensilData)
| UtensilsDelete (id : Z)
| PreferencesUpsert (row : UserPreferences)
| PreferencesSelect (id : UserId)
| RecipesInsert (d : RecipeData)
| RecipesDelete (id : Z)
| Rpc_select_recipe_and_subtract_ingredients (recipe_id_to_use : Z).

Inductive Data :=
| NoData
| Text (s : string)
| ProfileRow (p : Profile)
| PreferencesRow (p : UserPreferences).

(** The [{ data, error }] object every request resolves to. *)
Record Response := { data : Data; error : option PgError }.

Definition write_response (r : option PgError * DB) : Response * DB :=
  ({| data := NoData; error := fst r |}, snd r).

(** What the store does with a request that reaches it. *)
Definition exec (caller : option UserId) (r : Request) (db : DB)
    : Response * DB :=
  match r with
  | ProfilesSelect id =>
      match select_profile caller id db with
      | Some p => ({| data := ProfileRow p; error := None |}, db)
      | None => ({| data := NoData; error := Some no_rows |}, db)
      end
  | ProfilesUpdate id b => write_response (update_profile caller id b db)
  | IngredientsInsert d => write_response (insert_ingredient caller d db)
  | IngredientsUpdate id d =>
      write_response (update_ingredient caller id d db)
  | IngredientsDelete id => write_response (delete_ingredient caller id db)
  | IngredientsUpsert n q u =>
      write_response (upsert_ingredient caller n q u db)
  | UtensilsInsert d => write_response (insert_utensil caller d db)
  | UtensilsUpdate id d => write_response (update_utensil caller id d db)
  | UtensilsDelete id => write_response (delete_utensil caller id db)
  | PreferencesUpsert row =>
      write_response (upsert_preferences caller row db)
  | PreferencesSelect id =>
      match select_preferences caller id db with
      | Some p => ({| data := PreferencesRow p; error := None |}, db)
      | None => ({| data := NoData; error := Some no_rows |}, db)
      end
  | RecipesInsert d => write_response (insert_recipe caller d db)
  | RecipesDelete id => write_response (delete_recipe caller id db)
  | Rpc_select_recipe_and_subtract_ingredients id =>
      let '(o, db') := select_recipe_and_subtract_ingredients caller id db in
      ({| data := Text (cook_message o); error := None |}, db')
  end.

End Store.

(* ================================================================== *)
(** ** Handlers as computations *)

Module App.
Import Store.

(** What a handler can throw. *)
Inductive Exn :=
| JsError (msg : string)
| Rejected (e : PgError).

(** How a remote call can go wrong for reasons outside the store's rules:
    it resolves to an error object, or the awaited promise is rejected. *)
Inductive Fault :=
| Fails (e : PgError)
| Throws (msg : string).

Inductive Event :=
| Alert (title message : string)
| ConsoleError (label : string)
| RouterPush (route : string)
| RouterReplace (route : string)
| SetState (name value : string)
| Called (r : Request) (err : option PgError)
| AuthCalled (method : string) (err : option PgError).

Record World :=
  { db : DB;
    session : option UserId;
    faults : list (option Fault);
    trace : list Event }.

Inductive Result (A : Type) :=
| Ok (a : A)
| Throw (e : Exn).
Arguments Throw {A} e.

Definition App (A : Type) := World -> Result A * World.

Definition ret {A} (a : A) : App A := fun w => (Ok a, w).

Definition bind {A B} (m : App A) (k : A -> App B) : App B :=
  fun w => match m w with
           | (Ok a, w') => k a w'
           | (Throw e, w') => (Throw e, w')
           end.

Definition throw {A} (e : Exn) : App A := fun w => (Throw e, w).

(** [try { body } catch (e) { handler e } finally { fin }] *)
Definition try_catch_finally {A} (body : App A) (handler : Exn -> App A)
    (fin : App unit) : App A :=
  fun w =>
    let '(r1, w1) := body w in
    let '(r2, w2) := match r1 with
                     | Ok a => (Ok a, w1)
                     | Throw e => handler e w1
                     end in
    (r2, snd (fin w2)).

Definition with_trace (t : list Event) (w : World) : World :=
  {| db := db w; session := session w; faults := faults w; trace := t |}.

Definition log (e : Event) : App unit :=
  fun w => (Ok tt, with_trace (trace w ++ [e]) w).

(** The next scripted fault, if any, and the script that remains. *)
Definition next_fault (w : World) : option Fault := hd None (faults w).
Definition later_faults (w : World) : list (option Fault) := tl (faults w).

(** [await supabase.from(...)...] and [await supabase.rpc(...)]. *)
Definition call (r : Request) : App Response :=
  fun w =>
    match next_fault w with
    | Some (Throws msg) =>
        (Throw (JsError msg),
         {| db := db w; session := session w; faults := later_faults w;
            trace := trace w |})
    | Some (Fails e) =>
        (Ok {| data := NoData; error := Some e |},
         {| db := db w; session := session w; faults := later_faults w;
            trace := trace w ++ [Called r (Some e)] |})
    | None =>
        let '(resp, db') := exec (session w) r (db w) in
        (Ok resp,
         {| db := db'; session := session w; faults := later_faults w;
            trace := trace w ++ [Called r (error resp)] |})
    end.

(** [await supabase.auth.getUser()] *)
Definition getUser : App (option UserId) := fun w => (Ok (session w), w).

(** [await supabase.auth.signInWithPassword({ email, password })] *)
Definition signInWithPassword (email password : string)
    : App (option PgError) :=
  fun w =>
    match next_fault w with
    | Some (Throws msg) =>
        (Throw (JsError msg),
         {| db := db w; session := session w; faults := later_faults w;
            trace := trace w |})
    | Some (Fails e) =>
        (Ok (Some e),
         {| db := db w; session := session w; faults := later_faults w;
            trace := trace w ++ [AuthCalled "signInWithPassword" (Some e)] |})
    | None =>
        match sign_in email password (db w) with
        | Some u =>
            (Ok None,
             {| db := db w; session := Some u; faults := later_faults w;
                trace := trace w ++ [AuthCalled "signInWithPassword" None] |})
        | None =>
            (Ok (Some invalid_credentials),
             {| db := db w; session := session w; faults := later_faults w;
                trace := trace w ++ [AuthCalled "signInWithPassword"
                                       (Some invalid_credentials)] |})
        end
    end.

(** [await supabase.auth.signUp({ email, password, options })] *)
Definition signUp (email password name : string) : App (option PgError) :=
  fun w =>
    match next_fault w with
    | Some (Throws msg) =>
        (Throw (JsError msg),
         {| db := db w; session := session w; faults := later_faults w;
            trace := trace w |})
    | Some (Fails e) =>
        (Ok (Some e),
         {| db := db w; session := session w; faults := later_faults w;
            trace := trace w ++ [AuthCalled "signUp" (Some e)] |})
    | None =>
        let '(err, db') := sign_up email password name (db w) in
        (Ok err,
         {| db := db'; session := session w; faults := later_faults w;
            trace := trace w ++ [AuthCalled "signUp" err] |})
    end.

(** [supabase.auth.signOut()] *)
Definition signOut : App (option PgError) :=
  fun w =>
    match next_fault w with
    | Some (Throws msg) =>
        (Throw (JsError msg),
         {| db := db w; session := session w; faults := later_faults w;
            trace := trace w |})
    | Some (Fails e) =>
        (Ok (Some e),
         {| db := db w; session := session w; faults := later_faults w;
            trace := trace w ++ [AuthCalled "signOut" (Some e)] |})
    | None =>
        (Ok None,
         {| db := db w; session := None; faults := later_faults w;
            trace := trace w ++ [AuthCalled "signOut" None] |})
    end.

Declare Scope app_scope.
Delimit Scope app_scope with app.
Notation "x <- m ;; k" := (bind m (fun x => k))
  (at level 61, m at next level, right associativity) : app_scope.
Notation "m ;; k" := (bind m (fun _ => k))
  (at level 61, right associativity) : app_scope.
Local Open Scope app_scope.

Definition alert (title message : string) : App unit :=
  log (Alert title message).
Definition console_error (label : string) : App unit :=
  log (ConsoleError label).
Definition router_push (route : string) : App unit := log (RouterPush route).
Definition router_replace (route : string) : App unit :=
  log (RouterReplace route).
Definition set_state (name value : string) : App unit :=
  log (SetState name value).

(** The exception a [throw error] of a response's error object raises. *)
Definition throw_error {A} (e : PgError) : App A := throw (Rejected e).

End App.

(* ================================================================== *)
(** ** The screens *)

(** *** [app/login.tsx] *)
Module Login.
Import Store App.
Local Open Scope app_scope.

Definition handleLogin (username password : string) : App unit :=
  if negb (Js.truthy username) || negb (Js.truthy password) then
    alert "Error" "Please fill in all fields"
  else
    set_state "loading" "true" ;;
    try_catch_finally
      (error <- signInWithPassword username password ;;
       match error with
       | Some e => alert "Login Failed" (message e)
       | None =>
           (* Check onboarding status after successful login *)
           user <- getUser ;;
           match user with
           | Some id =>
               resp <- call (ProfilesSelect id) ;;
               match data resp with
               | ProfileRow p =>
                   if onboarding_complete p
                   then router_push "/dashboard"
                   else router_push "/onboarding/ingredients"
               | _ => router_push "/onboarding/ingredients"
               end
           | None => ret tt
           end
       end)
      (fun _ => alert "Error" "An unexpected error occurred")
      (set_state "loading" "false").

End Login.

(** *** The register screen *)
Module Register.
Import Store App.
Local Open Scope app_scope.

Definition handleRegister (name email password confirmPassword : string)
    : App unit :=
  if negb (Js.truthy name) || negb (Js.truthy email)
     || negb (Js.truthy password) || negb (Js.truthy confirmPassword) then
    alert "Error" "Please fill in all fields"
  else if negb (String.eqb password confirmPassword) then
    alert "Error" "Passwords do not match"
  else if (String.length password <? 6)%nat then
    alert "Error" "Password must be at least 6 characters"
  else
    set_state "loading" "true" ;;
    try_catch_finally
      (error <- signUp email password name ;;
       match error with
       | Some e => alert "Registration Failed" (message e)
       | None =>
           alert "Registration Successful"
             "Your account has been created! Please check your email to confirm your account, then login to get started."
       end)
      (fun _ => alert "Error" "An unexpected error occurred")
      (set_state "loading" "false").

(** The alert's button 'Go to Login'. *)
Definition onPressGoToLogin : App unit :=
  (* Clear any existing session to prevent seeing previous user's data *)
  _ <- signOut ;;
  router_push "/login".

End Register.

(** *** The debug screen *)
Module Debug.
Import Store App.
Local Open Scope app_scope.

Definition handleLogout : App unit :=
  error <- signOut ;;
  match error with
  | Some e => alert "Error" (message e)
  | None => router_push "/"
  end.

End Debug.

(** *** [app/onboarding/ingredients.tsx] *)
Module OnboardingIngredients.
Import Store App.
Local Open Scope app_scope.

Record FormData :=
  { form_name : string; form_quantity : string; form_unit : string }.

Section WithParseFloat.

(** The built-in [parseFloat]. *)
Variable parseFloat : string -> Js.Number.

Definition handleSaveIngredient (formData : FormData)
    (editingIngredient : option Ingredient) : App unit :=
  if negb (Js.truthy (form_name formData))
     || negb (Js.truthy (form_quantity formData))
     || negb (Js.truthy (form_unit formData)) then
    alert "Error" "Please fill in all fields"
  else
    let quantity := parseFloat (form_quantity formData) in
    if Js.isNaN quantity || Js.leZero quantity then
      alert "Error" "Please enter a valid quantity"
    else
      set_state "loading" "true" ;;
      try_catch_finally
        (user <- getUser ;;
         match user with
         | None => throw (JsError "No authenticated user found")
         | Some id =>
             let ingredientData :=
               {| d_name := Js.trim (form_name formData);
                  d_quantity := quantity;
                  d_unit := Js.trim (form_unit formData);
                  d_user_id := id |} in
             result <-
               match editingIngredient with
               | Some editing =>
                   call (IngredientsUpdate (ingredient_id editing)
                           ingredientData)
               | None => call (IngredientsInsert ingredientData)
               end ;;
             match error result with
             | Some e =>
                 console_error "Supabase error:" ;;
                 (* Handle specific error codes *)
                 if String.eqb (code e) "23505" then
                   alert "Duplicate Ingredient"
                     "You already have this ingredient in your inventory. Please use a different name or edit the existing one."
                 else throw_error e
             | None =>
                 set_state "modalVisible" "false" ;;
                 set_state "loading" "false"
             end
         end)
        (fun _ =>
           console_error "Failed to save ingredient:" ;;
           alert "Error" "Failed to save ingredient")
        (set_state "loading" "false").

End WithParseFloat.

Definition handleDeleteIngredient (ingredientId : Z) : App unit :=
  alert "Delete Ingredient"
    "Are you sure you want to delete this ingredient?".

(** The alert's button 'Delete'. *)
Definition onPressDelete (ingredientId : Z) : App unit :=
  resp <- call (IngredientsDelete ingredientId) ;;
  match error resp with
  | None => ret tt
  | Some _ => console_error "Delete error:"
  end.

End OnboardingIngredients.

(** *** The utensils screen of the onboarding *)
Module OnboardingUtensils.
Import Store App.
Local Open Scope app_scope.

Record FormData := { form_name : string }.

Definition handleSaveUtensil (formData : FormData)
    (editingUtensil : option Utensil) : App unit :=
  if negb (Js.truthy (Js.trim (form_name formData))) then
    alert "Error" "Please enter a utensil name"
  else
    set_state "loading" "true" ;;
    try_catch_finally
      (user <- getUser ;;
       match user with
       | None => throw (JsError "No authenticated user found")
       | Some id =>
           let utensilData :=
             {| ud_name := Js.trim (form_name formData);
                ud_user_id := id |} in
           result <-
             match editingUtensil with
             | Some editing =>
                 call (UtensilsUpdate (utensil_id editing) utensilData)
             | None => call (UtensilsInsert utensilData)
             end ;;
           match error result with
           | Some e =>
               console_error "Supabase error:" ;;
               throw_error e
           | None =>
               set_state "modalVisible" "false" ;;
               set_state "loading" "false"
           end
       end)
      (fun _ =>
         console_error "Failed to save utensil:" ;;
         alert "Error" "Failed to save utensil")
      (set_state "loading" "false").

Definition handleDeleteUtensil (utensilId : Z) : App unit :=
  alert "Delete Utensil" "Are you sure you want to delete this utensil?".

(** The alert's button 'Delete'. *)
Definition onPressDelete (utensilId : Z) : App unit :=
  resp <- call (UtensilsDelete utensilId) ;;
  match error resp with
  | None => ret tt
  | Some _ => console_error "Delete error:"
  end.

End OnboardingUtensils.

(** *** [app/onboarding/tastes.tsx] *)
Module OnboardingTastes.
Import Store App.
Local Open Scope app_scope.

(** The screen's [UserPreferences] state. *)
Record Preferences :=
  { diets : list string;
    st_tastes : list string;
    st_preferred_difficulty : string;
    st_preferred_time_minutes : Z;
    st_preferred_portions : Z }.

Definition initialPreferences : Preferences :=
  {| diets := []; st_tastes := []; st_preferred_difficulty := EmptyString;
     st_preferred_time_minutes := 30; st_preferred_portions := 2 |}.

Definition with_diets (l : list string) (p : Preferences) : Preferences :=
  {| diets := l; st_tastes := st_tastes p;
     st_preferred_difficulty := st_preferred_difficulty p;
     st_preferred_time_minutes := st_preferred_time_minutes p;
     st_preferred_portions := st_preferred_portions p |}.

Definition DIET_OPTIONS : list string :=
  ["Vegan"; "Vegetarian"; "Pescatarian"; "Gluten-Free"; "Dairy-Free";
   "Keto"; "Paleo"].

(** [data.diet ? data.diet.split(',').filter(Boolean) : []] *)
Definition dietsOfColumn (diet : option string) : list string :=
  match diet with
  | Some d => if Js.truthy d
              then Js.filterBoolean (Js.split "," d) else []
  | None => []
  end.

(** [x || d] for a nullable integer column. *)
Definition integerOr (x : option Z) (d : Z) : Z :=
  match x with
  | Some 0 | None => d
  | Some v => v
  end.

(** Load preferences from database on component mount. The result is the
    object handed to [setPreferences], if the handler gets that far. *)
Definition loadPreferences : App (option Preferences) :=
  try_catch_finally
    (user <- getUser ;;
     match user with
     | None => ret None
     | Some id =>
         resp <- call (PreferencesSelect id) ;;
         match data resp, error resp with
         | PreferencesRow row, None =>
             ret (Some
                    {| diets := dietsOfColumn (diet row);
                       st_tastes := tastes row;
                       st_preferred_difficulty :=
                         match preferred_difficulty row with
                         | Some d => d
                         | None => EmptyString
                         end;
                       st_preferred_time_minutes :=
                         integerOr (preferred_time_minutes row) 30;
                       st_preferred_portions :=
                         integerOr (preferred_portions row) 2 |})
         | _, _ => ret None
         end
     end)
    (fun _ => console_error "Failed to load preferences:" ;; ret None)
    (ret tt).

Definition toggleDiet (diet : string) (prev : Preferences) : Preferences :=
  with_diets
    (if Js.includes (diets prev) diet
     then filter (fun d => negb (String.eqb d diet)) (diets prev)
     else diets prev ++ [diet]) prev.

Definition addCustomDiet (customDiet : string) (prev : Preferences)
    : Preferences :=
  if Js.truthy (Js.trim customDiet)
     && negb (Js.includes (diets prev) (Js.trim customDiet))
  then with_diets (diets prev ++ [Js.trim customDiet]) prev
  else prev.

Definition removeCustomDiet (diet : string) (prev : Preferences)
    : Preferences :=
  with_diets (filter (fun d => negb (String.eqb d diet)) (diets prev)) prev.

Definition isFormValid (preferences : Preferences) : bool :=
  (0 <? List.length (diets preferences))%nat
  && (0 <? List.length (st_tastes preferences))%nat
  && Js.truthy (st_preferred_difficulty preferences).

(** The row [handleComplete] upserts. *)
Definition preferencesRow (id : UserId) (preferences : Preferences)
    : UserPreferences :=
  {| pref_id := id;
     diet := Some (Js.join "," (diets preferences));
     tastes := st_tastes preferences;
     preferred_difficulty := Some (st_preferred_difficulty preferences);
     preferred_time_minutes := Some (st_preferred_time_minutes preferences);
     preferred_portions := Some (st_preferred_portions preferences) |}.

Definition handleComplete (preferences : Preferences) : App unit :=
  if negb (isFormValid preferences) then
    alert "Error" "Please fill in all required fields"
  else
    set_state "loading" "true" ;;
    try_catch_finally
      (user <- getUser ;;
       match user with
       | None => throw (JsError "No user found")
       | Some id =>
           (* Save preferences *)
           resp <- call (PreferencesUpsert (preferencesRow id preferences)) ;;
           match error resp with
           | Some prefError => throw_error prefError
           | None =>
               (* Navigate to recipe generation *)
               router_push "/onboarding/recipes"
           end
       end)
      (fun _ => alert "Error" "Failed to save preferences")
      (set_state "loading" "false").

End OnboardingTastes.


(** *** [utils/ai.ts]: the shape of a generated recipe *)
Module Ai.
Import Store.

Record GeneratedIngredient := { gi_name : string; gi_quantity : string }.

Record GeneratedRecipe :=
  { g_title : string;
    g_description : string;
    g_difficulty : string;
    g_type : string;
    g_time : string;
    g_ingredients : list GeneratedIngredient;
    g_instructions : list string;
    g_servings : Js.Number }.

(** The ingredient list as it is written into the recipe's JSON column. *)
Definition jsonIngredients (l : list GeneratedIngredient)
    : list RecipeIngredient :=
  map (fun i => {| ri_name := gi_name i; ri_quantity := QText (gi_quantity i) |})
    l.

End Ai.

(** *** Saving a generated recipe

    The three screens that save a recipe build the same row. *)
Module SaveRecipe.
Import Store Ai.

(** [parseInt(recipe.time) || 30] *)
Definition timeInMinutes (recipe : GeneratedRecipe) : Js.Number :=
  Js.orElse (Js.parseInt (g_time recipe)) (Js.of_Z 30).

(** [Math.floor(timeInMinutes * 0.3)] *)
Definition prepTime (recipe : GeneratedRecipe) : Js.Number :=
  Js.Math_floor (Js.mul (timeInMinutes recipe) Js.lit_0_3).

(** [Math.floor(timeInMinutes * 0.7)] *)
Definition cookTime (recipe : GeneratedRecipe) : Js.Number :=
  Js.Math_floor (Js.mul (timeInMinutes recipe) Js.lit_0_7).

Definition recipeRow (id : UserId) (recipe : GeneratedRecipe) : RecipeData :=
  {| rd_user_id := id;
     rd_title := g_title recipe;
     rd_description := g_description recipe;
     rd_ingredients := jsonIngredients (g_ingredients recipe);
     rd_instructions := g_instructions recipe;
     rd_prep_time_minutes := prepTime recipe;
     rd_cook_time_minutes := cookTime recipe;
     rd_servings := g_servings recipe;
     rd_is_used := false |}.

End SaveRecipe.

(** *** The create-recipe screen *)
Module CreateRecipeScreen.
Import Store App Ai SaveRecipe.
Local Open Scope app_scope.

(** The screen's [Preferences] state; an absent field is [None]. *)
Record Preferences :=
  { p_diet : option string;
    p_tastes : option (list string);
    p_preferred_difficulty : option string;
    p_preferred_time_minutes : option Z;
    p_preferred_portions : option Z }.

(** [s || null] for an optional string. *)
Definition stringOrNull (s : option string) : option string :=
  match s with
  | Some v => if Js.truthy v then Some v else None
  | None => None
  end.

(** [n || null] for an optional integer. *)
Definition integerOrNull (n : option Z) : option Z :=
  match n with
  | Some 0 | None => None
  | Some v => Some v
  end.

Definition handleSaveRecipe (recipe : GeneratedRecipe) : App unit :=
  try_catch_finally
    (set_state "saving" (g_title recipe) ;;
     user <- getUser ;;
     match user with
     | None => throw (JsError "No user found")
     | Some id =>
         (* Parse time to get prep and cook times (simplified) *)
         resp <- call (RecipesInsert (recipeRow id recipe)) ;;
         match error resp with
         | Some e => throw_error e
         | None => alert "Success" "Recipe saved successfully!"
         end
     end)
    (fun _ =>
       console_error "Error saving recipe:" ;;
       alert "Error" "Failed to save recipe. Please try again.")
    (set_state "saving" "null").

(** The success alert's button 'OK'. *)
Definition onPressOK : App unit := router_replace "/dashboard".

Definition handleSavePreferences (preferences : Preferences) : App unit :=
  try_catch_finally
    (set_state "loading" "true" ;;
     user <- getUser ;;
     match user with
     | None => throw (JsError "No user found")
     | Some id =>
         let preferencesToSave :=
           {| pref_id := id;
              diet := stringOrNull (p_diet preferences);
              tastes := match p_tastes preferences with
                        | Some l => l
                        | None => []
                        end;
              preferred_difficulty :=
                stringOrNull (p_preferred_difficulty preferences);
              preferred_time_minutes :=
                integerOrNull (p_preferred_time_minutes preferences);
              preferred_portions :=
                integerOrNull (p_preferred_portions preferences) |} in
         resp <- call (PreferencesUpsert preferencesToSave) ;;
         match error resp with
         | Some e =>
             console_error "Database error saving preferences:" ;;
             throw_error e
         | None => alert "Success" "Preferences saved successfully!"
         end
     end)
    (fun _ =>
       console_error "Error saving preferences:" ;;
       alert "Error" "Failed to save preferences. Please try again.")
    (set_state "loading" "false").

End CreateRecipeScreen.

(** *** The recipes screen of the onboarding *)
Module RecipesScreen.
Import Store App Ai SaveRecipe.
Local Open Scope app_scope.

Definition handleSaveRecipe (recipe : GeneratedRecipe) : App unit :=
  try_catch_finally
    (set_state "saving" (g_title recipe) ;;
     user <- getUser ;;
     match user with
     | None => throw (JsError "No user found")
     | Some id =>
         (* Parse time to get prep and cook times (simplified) *)
         resp <- call (RecipesInsert (recipeRow id recipe)) ;;
         match error resp with
         | Some e => throw_error e
         | None =>
             (* Mark onboarding as complete *)
             _ <- call (ProfilesUpdate id true) ;;
             alert "Success" "Recipe saved successfully!"
         end
     end)
    (fun _ =>
       console_error "Error saving recipe:" ;;
       alert "Error" "Failed to save recipe. Please try again.")
    (set_state "saving" "null").

(** The success alert's button 'OK'. *)
Definition onPressOK : App unit := router_replace "/dashboard".

End RecipesScreen.

(** *** [app/recipe-detail.tsx] *)
Module RecipeDetailScreen.
Import Store App Ai SaveRecipe.
Local Open Scope app_scope.

Definition handleSaveRecipe (recipe : GeneratedRecipe) : App unit :=
  try_catch_finally
    (set_state "saving" "true" ;;
     user <- getUser ;;
     match user with
     | None => throw (JsError "No user found")
     | Some id =>
         (* Parse time to get prep and cook times (simplified) *)
         resp <- call (RecipesInsert (recipeRow id recipe)) ;;
         match error resp with
         | Some e => throw_error e
         | None =>
             (* Mark onboarding as complete *)
             _ <- call (ProfilesUpdate id true) ;;
             alert "Success" "Recipe saved successfully!"
         end
     end)
    (fun _ =>
       console_error "Error saving recipe:" ;;
       alert "Error" "Failed to save recipe. Please try again.")
    (set_state "saving" "false").

(** The success alert's button 'OK'. *)
Definition onPressOK : App unit := router_replace "/dashboard".

End RecipeDetailScreen.

(** *** The dashboard *)
Module DashboardScreen.
Import Store App.
Local Open Scope app_scope.

Definition handleDeleteRecipe (recipeId : Z) : App unit :=
  alert "Delete Recipe" "Are you sure you want to delete this recipe?".

(** The alert's button 'Delete'. *)
Definition onPressDelete (recipeId : Z) : App unit :=
  try_catch_finally
    (set_state "deleting" "recipeId" ;;
     resp <- call (RecipesDelete recipeId) ;;
     match error resp with
     | Some e => throw_error e
     | None => alert "Success" "Recipe deleted successfully."
     end)
    (fun _ =>
       console_error "Error deleting recipe:" ;;
       alert "Error" "Failed to delete recipe. Please try again.")
    (set_state "deleting" "null").

End DashboardScreen.

(** *** The saved-recipe screen ([SavedRecipeDetailScreen]) *)
Module SavedRecipeDetailScreen.
Import Store App.
Local Open Scope app_scope.

(** What the handler does with the text the function returned
    ([None] is a [null] data). *)
Definition onCookResponse (data : option string) : App unit :=
  match data with
  | Some text =>
      if Js.truthy text && Js.startsWith text "Success" then
        alert "Success"
          "Ingredients have been subtracted from your inventory. Enjoy your meal!" ;;
        (* Refresh the recipe data *)
        router_replace "/dashboard"
      else
        alert "Error"
          (if Js.truthy text then text
           else "Failed to cook recipe. Please check your ingredients.")
  | None =>
      alert "Error" "Failed to cook recipe. Please check your ingredients."
  end.

Definition handleCookRecipe (recipe : Recipe) : App unit :=
  alert "Cook Recipe"
    "This will subtract the ingredients from your inventory. Are you sure you want to continue?".

(** The alert's button 'Cook'. *)
Definition onPressCook (recipe : Recipe) : App unit :=
  try_catch_finally
    (set_state "cooking" "true" ;;
     resp <- call (Rpc_select_recipe_and_subtract_ingredients
                     (recipe_id recipe)) ;;
     match error resp with
     | Some e => throw_error e
     | None =>
         onCookResponse (match data resp with
                         | Text s => Some s
                         | _ => None
                         end)
     end)
    (fun _ =>
       console_error "Error cooking recipe:" ;;
       alert "Error" "Failed to cook recipe. Please try again.")
    (set_state "cooking" "false").

(** The button 'Cook This Recipe' is rendered only for an unused recipe. *)
Definition cookButtonShown (recipe : Recipe) : bool :=
  negb (is_used recipe).

End SavedRecipeDetailScreen.


(** *** The client functions shown in [docs/databse.md] *)
Module Docs.
Import Store App.
Local Open Scope app_scope.

(** [addOrUpdateIngredient({ name, quantity, unit })] *)
Definition addOrUpdateIngredient (name : string) (quantity : Js.Number)
    (unit_ : string) : App unit :=
  resp <- call (IngredientsUpsert name quantity unit_) ;;
  match error resp with
  | Some _ => console_error "Error upserting ingredient:"
  | None => ret tt
  end.

(** [cookRecipe(recipeId)]; [alert(text)] shows a message without a title. *)
Definition cookRecipe (recipeId : Z) : App unit :=
  resp <- call (Rpc_select_recipe_and_subtract_ingredients recipeId) ;;
  match error resp with
  | Some _ =>
      (* This could be a database-level error *)
      console_error "RPC Error:" ;;
      alert EmptyString "An unexpected error occurred."
  | None =>
      match data resp with
      | Text text =>
          if Js.startsWith text "Success"
          then alert EmptyString "Enjoy your meal! Ingredients updated."
          else alert EmptyString text (* Show the specific error to the user *)
      | _ => throw (JsError "TypeError")
      end
  end.

End Docs.

(* ================================================================== *)
(** ** The program as a transition system *)

Module Program.
Import Store App Ai.
Local Open Scope app_scope.

(** What the user (or, for [Inject], the network) can do next. A [bool]
    says whether the button of the alert the handler opened is pressed. *)
Inductive Action :=
| Inject (script : list (option Fault))
| DoLogin (username password : string)
| DoRegister (name email password confirmPassword : string) (goToLogin : bool)
| DoLogout
| DoSaveIngredient (formData : OnboardingIngredients.FormData)
    (editing : option Ingredient)
| DoDeleteIngredient (id : Z) (confirm : bool)
| DoSaveUtensil (formData : OnboardingUtensils.FormData)
    (editing : option Utensil)
| DoDeleteUtensil (id : Z) (confirm : bool)
| DoLoadPreferences
| DoCompleteTastes (preferences : OnboardingTastes.Preferences)
| DoSavePreferences (preferences : CreateRecipeScreen.Preferences)
| DoSaveRecipeCreate (recipe : GeneratedRecipe) (ok : bool)
| DoSaveRecipeOnboarding (recipe : GeneratedRecipe) (ok : bool)
| DoSaveRecipeDetail (recipe : GeneratedRecipe) (ok : bool)
| DoDeleteRecipe (id : Z) (confirm : bool)
| DoCookRecipe (recipe : Recipe) (confirm : bool)
| DoDocsAddOrUpdateIngredient (name : string) (quantity : Js.Number)
    (unit : string)
| DoDocsCookRecipe (id : Z).

Definition when (b : bool) (m : App unit) : App unit :=
  if b then m else ret tt.

Section WithParseFloat.

Variable parseFloat : string -> Js.Number.

Definition handler (a : Action) : App unit :=
  match a with
  | Inject script =>
      fun w => (Ok tt, {| db := db w; session := session w;
                          faults := script; trace := trace w |})
  | DoLogin u p => Login.handleLogin u p
  | DoRegister n e p c go =>
      Register.handleRegister n e p c ;; when go Register.onPressGoToLogin
  | DoLogout => Debug.handleLogout
  | DoSaveIngredient f e =>
      OnboardingIngredients.handleSaveIngredient parseFloat f e
  | DoDeleteIngredient id confirm =>
      OnboardingIngredients.handleDeleteIngredient id ;;
      when confirm (OnboardingIngredients.onPressDelete id)
  | DoSaveUtensil f e => OnboardingUtensils.handleSaveUtensil f e
  | DoDeleteUtensil id confirm =>
      OnboardingUtensils.handleDeleteUtensil id ;;
      when confirm (OnboardingUtensils.onPressDelete id)
  | DoLoadPreferences => _ <- OnboardingTastes.loadPreferences ;; ret tt
  | DoCompleteTastes p => OnboardingTastes.handleComplete p
  | DoSavePreferences p => CreateRecipeScreen.handleSavePreferences p
  | DoSaveRecipeCreate r ok =>
      CreateRecipeScreen.handleSaveRecipe r ;;
      when ok CreateRecipeScreen.onPressOK
  | DoSaveRecipeOnboarding r ok =>
      RecipesScreen.handleSaveRecipe r ;; when ok RecipesScreen.onPressOK
  | DoSaveRecipeDetail r ok =>
      RecipeDetailScreen.handleSaveRecipe r ;;
      when ok RecipeDetailScreen.onPressOK
  | DoDeleteRecipe id confirm =>
      DashboardScreen.handleDeleteRecipe id ;;
      when confirm (DashboardScreen.onPressDelete id)
  | DoCookRecipe r confirm =>
      SavedRecipeDetailScreen.handleCookRecipe r ;;
      when confirm (SavedRecipeDetailScreen.onPressCook r)
  | DoDocsAddOrUpdateIngredient n q u => Docs.addOrUpdateIngredient n q u
  | DoDocsCookRecipe id => Docs.cookRecipe id
  end.

Definition step (a : Action) (w : World) : World := snd (handler a w).

Definition run (actions : list Action) (w : World) : World :=
  fold_left (fun acc a => step a acc) actions w.

End WithParseFloat.

Definition initial : World :=
  {| db := Store.empty; session := None; faults := []; trace := [] |}.

(** The persisted onboarding flag of user [u]; [false] without a profile. *)
Definition complete (u : UserId) (w : World) : bool :=
  existsb (fun p => (profile_id p =? u) && onboarding_complete p)
    (profiles (db w)).

End Program.

(* ================================================================== *)
(** ** Vocabulary of the properties *)

Module Spec.
Import Store App.

(** *** The onboarding gate as the specification words it *)

Inductive Step :=
| NeedsIngredients
| NeedsUtensils
| NeedsPreferences
| NeedsFirstRecipe
| Complete.

(** The step as a function of the live counts and records: ingredient
    count below 3, utensil count below 1, preference record incomplete, no
    saved recipe yet. *)
Definition step_of (ingredient_count utensil_count : nat)
    (preferences_complete has_recipe : bool) : Step :=
  if (ingredient_count <? 3)%nat then NeedsIngredients
  else if (utensil_count <? 1)%nat then NeedsUtensils
  else if negb preferences_complete then NeedsPreferences
  else if negb has_recipe then NeedsFirstRecipe
  else Complete.

(** The screen of a step, by the routes the application registers. *)
Definition screen_of (s : Step) : string :=
  match s with
  | NeedsIngredients => "/onboarding/ingredients"
  | NeedsUtensils => "/onboarding/utensils"
  | NeedsPreferences => "/onboarding/tastes"
  | NeedsFirstRecipe => "/onboarding/recipes"
  | Complete => "/dashboard"
  end.

(** A preference record is complete when diet, tastes and difficulty are
    set; time and portions have defaults. *)
Definition preferences_complete (p : UserPreferences) : bool :=
  match diet p, preferred_difficulty p with
  | Some d, Some f =>
      Js.truthy d && Js.truthy f && (0 <? List.length (tastes p))%nat
  | _, _ => false
  end.

(** The step recomputed from the live data of user [u]. *)
Definition live_step (u : UserId) (d : DB) : Step :=
  step_of
    (List.length (filter (fun r => ingredient_user r =? u) (ingredients d)))
    (List.length (filter (fun r => utensil_user r =? u) (utensils d)))
    (existsb (fun p => (pref_id p =? u) && preferences_complete p)
       (user_preferences d))
    (existsb (fun r => recipe_user r =? u) (recipes d)).

(** *** The time split in exact arithmetic *)

(** The leading integer parsed from the time string, 30 when it does not
    parse. *)
Definition claimed_minutes (time : string) : Z :=
  match Js.parseInt_Z time with
  | Some t => t
  | None => 30
  end.

(** floor(0.3 * t) and floor(0.7 * t) in exact arithmetic. *)
Definition claimed_prep (time : string) : Z := 3 * claimed_minutes time / 10.
Definition claimed_cook (time : string) : Z := 7 * claimed_minutes time / 10.

(** *** Diet names *)

Fixpoint has_comma (s : string) : bool :=
  match s with
  | EmptyString => false
  | String c s' => Ascii.eqb c "," || has_comma s'
  end.

(** The states the preference screen can be in, as far as the diet list
    goes: the initial state, a state loaded from a stored row, and what the
    diet chips, the custom-diet field and the remove button make of them.
    A chip exists for each fixed option and for each diet in the list. *)
Inductive screen_state : OnboardingTastes.Preferences -> Prop :=
| state_initial : screen_state OnboardingTastes.initialPreferences
| state_loaded (row : UserPreferences) (p : OnboardingTastes.Preferences) :
    OnboardingTastes.diets p = OnboardingTastes.dietsOfColumn (diet row) ->
    screen_state p
| state_toggle (d : string) (p : OnboardingTastes.Preferences) :
    screen_state p ->
    In d OnboardingTastes.DIET_OPTIONS \/ In d (OnboardingTastes.diets p) ->
    screen_state (OnboardingTastes.toggleDiet d p)
| state_add (text : string) (p : OnboardingTastes.Preferences) :
    screen_state p -> screen_state (OnboardingTastes.addCustomDiet text p)
| state_remove (d : string) (p : OnboardingTastes.Preferences) :
    screen_state p -> screen_state (OnboardingTastes.removeCustomDiet d p)
| state_other (p q : OnboardingTastes.Preferences) :
    screen_state p ->
    OnboardingTastes.diets q = OnboardingTastes.diets p ->
    screen_state q.

(** *** The cook transaction *)

(** The caller's recipe with the given id, as the transaction looks it up. *)
Definition find_recipe (u : UserId) (id : Z) (d : DB) : option Recipe :=
  find (fun r => (recipe_id r =? id) && (recipe_user r =? u)) (recipes d).

(** The total quantity a recipe requires of the ingredient named [n]. *)
Fixpoint total_required (n : string) (items : list RecipeIngredient) : Qc :=
  match items with
  | [] => Q2Qc 0
  | item :: rest =>
      if String.eqb (ri_name item) n
      then (required_quantity item + total_required n rest)%Qc
      else total_required n rest
  end.

(** The inventory row after a successful cook of [items] by user [u]. *)
Definition cooked_row (u : UserId) (items : list RecipeIngredient)
    (row : Ingredient) : Ingredient :=
  if ingredient_user row =? u
  then set_quantity
         (ingredient_quantity row
          - total_required (ingredient_name row) items)%Qc row
  else row.

(** A recipe ingredient is met by the inventory of user [u]. *)
Definition met (u : UserId) (inv : list Ingredient) (item : RecipeIngredient)
    : Prop :=
  exists q row,
    ri_quantity item = QNumber q /\ In row inv /\
    ingredient_user row = u /\ ingredient_name row = ri_name item /\
    (q <= ingredient_quantity row)%Qc.

(** A recipe ingredient is a shortfall for user [u]: the ingredient is
    missing from the inventory, or every row of that name holds less than
    the required quantity. In the model a quantity that is a text, not a
    number, cannot be met and counts as a shortfall. *)
Definition shortfall (u : UserId) (inv : list Ingredient)
    (item : RecipeIngredient) : Prop :=
  match ri_quantity item with
  | QNumber q =>
      forall row, In row inv ->
                  ingredient_user row = u ->
                  ingredient_name row = ri_name item ->
                  (ingredient_quantity row < q)%Qc
  | QText _ => True
  end.

(** *** Invariants of the store *)

Definition ingredient_key (row : Ingredient) : UserId * string :=
  (ingredient_user row, ingredient_name row).

(** No user has two ingredient rows with the same name; ids are unique and
    below the next id to be issued. *)
Definition ingredients_unique (d : DB) : Prop :=
  NoDup (map ingredient_key (ingredients d))
  /\ NoDup (map ingredient_id (ingredients d))
  /\ (forall row, In row (ingredients d) -> ingredient_id row < next_id d).

(** The persisted onboarding flag of user [u] in a store. *)
Definition flagged (u : UserId) (d : DB) : bool :=
  existsb (fun p => (profile_id p =? u) && onboarding_complete p)
    (profiles d).

(** A request other than a write of [onboarding_complete = false]. *)
Definition keeps_flag (r : Request) : Prop :=
  match r with
  | ProfilesUpdate _ false => False
  | _ => True
  end.

(** A request other than a write to [profiles]. *)
Definition leaves_profiles (r : Request) : Prop :=
  match r with
  | ProfilesUpdate _ _ => False
  | _ => True
  end.

(** An event other than a request that writes
    [onboarding_complete = false]. *)
Definition event_keeps_flag (e : Event) : Prop :=
  match e with
  | Called r _ => keeps_flag r
  | _ => True
  end.

(** *** Invariants of handlers *)

(** A computation keeps a property of the world, however it ends. *)
Definition preserves (P : World -> Prop) {A} (m : App A) : Prop :=
  forall w, P w -> P (snd (m w)).

(** An alert is among the events. *)
Definition is_alert (e : Event) : bool :=
  match e with
  | Alert _ _ => true
  | _ => false
  end.

(** *** The stored prep and cook times *)

(** What reaches the integer columns for a time of [t] minutes. *)
Definition stored_prep (t : Js.Number) : option (option Z) :=
  integer_column (Js.Math_floor (Js.mul t Js.lit_0_3)).
Definition stored_cook (t : Js.Number) : option (option Z) :=
  integer_column (Js.Math_floor (Js.mul t Js.lit_0_7)).

Definition stores (x : option (option Z)) (v : Z) : bool :=
  match x with
  | Some (Some z) => z =? v
  | _ => false
  end.

(** For [t] and [-t] minutes: the number read is kept (it is truthy), the
    prep time is the exact floor of 3/10 of it, and the cook time is the
    exact floor of 7/10 of it, positive multiples of ten left aside. *)
Definition split_agrees (t : Z) : bool :=
  Js.truthyNumber (Js.of_Z t) && Js.truthyNumber (Js.of_Z (- t))
  && stores (stored_prep (Js.of_Z t)) (3 * t / 10)
  && stores (stored_prep (Js.of_Z (- t))) (3 * (- t) / 10)
  && stores (stored_cook (Js.of_Z (- t))) (7 * (- t) / 10)
  && ((t mod 10 =? 0) || stores (stored_cook (Js.of_Z t)) (7 * t / 10)).

(** The minutes on which the split is checked one by one. *)
Definition minutes_bound : Z := 10000.
Definition minutes_checked : list Z :=
  map Z.of_nat (seq 1 (Z.to_nat minutes_bound)).

End Spec.

(* ================================================================== *)
(** ** Example worlds *)

Module Examples.
Import Store App.

(** A user with three ingredients, no utensil and the flag still false. *)
Definition ana_world : World :=
  {| db :=
       {| auth_users :=
            [{| au_id := 1; au_email := "ana@example.com";
                au_password := "secret1" |}];
          profiles :=
            [{| profile_id := 1; full_name := "Ana";
                onboarding_complete := false |}];
          ingredients :=
            [{| ingredient_id := 4; ingredient_user := 1;
                ingredient_name := "Eggs";
                ingredient_quantity := Q2Qc (6 # 1);
                ingredient_unit := "pieces" |};
             {| ingredient_id := 3; ingredient_user := 1;
                ingredient_name := "Milk";
                ingredient_quantity := Q2Qc (1 # 1);
                ingredient_unit := "l" |};
             {| ingredient_id := 2; ingredient_user := 1;
                ingredient_name := "Flour";
                ingredient_quantity := Q2Qc (500 # 1);
                ingredient_unit := "g" |}];
          utensils := [];
          user_preferences := [];
          recipes := [];
          next_id := 5 |};
     session := None;
     faults := [];
     trace := [] |}.

(** Scenario B of the specification: 500 g of flour in stock, and a recipe
    that requires 200 g. User 2 has flour of their own. *)
Definition flour_item : RecipeIngredient :=
  {| ri_name := "Flour"; ri_quantity := QNumber (Q2Qc (200 # 1)) |}.

Definition pancakes (used : bool) : Recipe :=
  {| recipe_id := 10; recipe_user := 1; title := "Pancakes";
     description := "Classic fluffy pancakes.";
     recipe_ingredients := [flour_item];
     instructions := ["Mix dry ingredients."; "Cook on griddle."];
     prep_time_minutes := Some 9; cook_time_minutes := Some 21;
     servings := Some 4; is_used := used |}.

Definition flour_row (q : Z) : Ingredient :=
  {| ingredient_id := 2; ingredient_user := 1; ingredient_name := "Flour";
     ingredient_quantity := Q2Qc (inject_Z q); ingredient_unit := "g" |}.

Definition kitchen (flour : Z) (used : bool) : DB :=
  {| auth_users := [];
     profiles := [];
     ingredients :=
       [flour_row flour;
        {| ingredient_id := 3; ingredient_user := 1;
           ingredient_name := "Sugar";
           ingredient_quantity := Q2Qc (200 # 1); ingredient_unit := "g" |};
        {| ingredient_id := 4; ingredient_user := 2;
           ingredient_name := "Flour";
           ingredient_quantity := Q2Qc (50 # 1); ingredient_unit := "g" |}];
     utensils := [];
     user_preferences := [];
     recipes := [pancakes used];
     next_id := 11 |}.

(** A stand-in for [parseFloat] on strings of decimal digits, where it
    agrees with [parseInt]. *)
Definition parseDigits (s : string) : Js.Number := Js.parseInt s.

(** A signed-in user with an empty kitchen. *)
Definition empty_kitchen : World :=
  {| db := Store.empty; session := Some 1; faults := []; trace := [] |}.

Definition flour_form (quantity unit_ : string)
    : OnboardingIngredients.FormData :=
  {| OnboardingIngredients.form_name := "Flour";
     OnboardingIngredients.form_quantity := quantity;
     OnboardingIngredients.form_unit := unit_ |}.

End Examples.

(* ================================================================== *)
(** ** More of the screens *)

(** *** [app/onboarding/tastes.tsx]: the cuisine chips and the selectors *)
Module OnboardingTastesControls.
Import Store App OnboardingTastes.

Definition TASTE_OPTIONS : list string :=
  ["Italian"; "Mexican"; "Asian"; "Mediterranean"; "Indian"; "American";
   "French"; "Thai"].
Definition DIFFICULTY_OPTIONS : list string := ["Easy"; "Medium"; "Hard"].
Definition TIME_OPTIONS : list Z := [15; 30; 45; 60; 90; 120].
Definition PORTION_OPTIONS : list Z := [1; 2; 4; 6; 8].

Definition with_tastes (l : list string) (p : Preferences) : Preferences :=
  {| diets := diets p; st_tastes := l;
     st_preferred_difficulty := st_preferred_difficulty p;
     st_preferred_time_minutes := st_preferred_time_minutes p;
     st_preferred_portions := st_preferred_portions p |}.

Definition addCustomCuisine (customCuisine : string) (prev : Preferences)
    : Preferences :=
  if Js.truthy (Js.trim customCuisine)
     && negb (Js.includes (st_tastes prev) (Js.trim customCuisine))
  then with_tastes (st_tastes prev ++ [Js.trim customCuisine]) prev
  else prev.

Definition removeCustomCuisine (cuisine : string) (prev : Preferences)
    : Preferences :=
  with_tastes (filter (fun t => negb (String.eqb t cuisine)) (st_tastes prev))
    prev.

Definition toggleTaste (taste : string) (prev : Preferences) : Preferences :=
  with_tastes
    (if Js.includes (st_tastes prev) taste
     then filter (fun t => negb (String.eqb t taste)) (st_tastes prev)
     else st_tastes prev ++ [taste]) prev.

(** [setPreferences((prev) => ({ ...prev, preferred_difficulty: difficulty }))] *)
Definition setDifficulty (difficulty : string) (prev : Preferences)
    : Preferences :=
  {| diets := diets prev; st_tastes := st_tastes prev;
     st_preferred_difficulty := difficulty;
     st_preferred_time_minutes := st_preferred_time_minutes prev;
     st_preferred_portions := st_preferred_portions prev |}.

(** [setPreferences((prev) => ({ ...prev, preferred_time_minutes: time }))] *)
Definition setTime (time : Z) (prev : Preferences) : Preferences :=
  {| diets := diets prev; st_tastes := st_tastes prev;
     st_preferred_difficulty := st_preferred_difficulty prev;
     st_preferred_time_minutes := time;
     st_preferred_portions := st_preferred_portions prev |}.

(** [setPreferences((prev) => ({ ...prev, preferred_portions: portion }))] *)
Definition setPortions (portion : Z) (prev : Preferences) : Preferences :=
  {| diets := diets prev; st_tastes := st_tastes prev;
     st_preferred_difficulty := st_preferred_difficulty prev;
     st_preferred_time_minutes := st_preferred_time_minutes prev;
     st_preferred_portions := portion |}.

(** What the user can do on the screen. A diet chip exists for each fixed
    option and for each diet in the list; likewise for the cuisines; the
    three selectors offer their fixed options. *)
Inductive Control :=
| ToggleDiet (diet : string)
| AddCustomDiet (text : string)
| RemoveCustomDiet (diet : string)
| ToggleTaste (taste : string)
| AddCustomCuisine (text : string)
| RemoveCustomCuisine (cuisine : string)
| SetDifficulty (difficulty : string)
| SetTime (time : Z)
| SetPortions (portion : Z).

(** The control is on the screen when the state is [p]. *)
Definition offered (p : Preferences) (c : Control) : Prop :=
  match c with
  | ToggleDiet d => In d DIET_OPTIONS \/ In d (diets p)
  | RemoveCustomDiet d => In d (diets p)
  | ToggleTaste t => In t TASTE_OPTIONS \/ In t (st_tastes p)
  | RemoveCustomCuisine t => In t (st_tastes p)
  | SetDifficulty d => In d DIFFICULTY_OPTIONS
  | SetTime t => In t TIME_OPTIONS
  | SetPortions n => In n PORTION_OPTIONS
  | AddCustomDiet _ | AddCustomCuisine _ => True
  end.

Definition press (c : Control) (p : Preferences) : Preferences :=
  match c with
  | ToggleDiet d => toggleDiet d p
  | AddCustomDiet text => addCustomDiet text p
  | RemoveCustomDiet d => removeCustomDiet d p
  | ToggleTaste t => toggleTaste t p
  | AddCustomCuisine text => addCustomCuisine text p
  | RemoveCustomCuisine t => removeCustomCuisine t p
  | SetDifficulty d => setDifficulty d p
  | SetTime t => setTime t p
  | SetPortions n => setPortions n p
  end.

(** The states reached from the initial state through the controls. *)
Inductive reached : Preferences -> Prop :=
| reached_initial : reached initialPreferences
| reached_press (c : Control) (p : Preferences) :
    reached p -> offered p c -> reached (press c p).

End OnboardingTastesControls.

(** *** The create-recipe screen: loading the preferences *)
Module CreateRecipePreferences.
Import Store App CreateRecipeScreen.
Local Open Scope app_scope.

(** [fetchPreferences]; the result is the object handed to
    [setPreferences], if the handler gets that far. The select has no
    filter of its own: the caller sees only its own row. *)
Definition fetchPreferences : App (option Preferences) :=
  try_catch_finally
    (user <- getUser ;;
     match user with
     | None => throw (JsError "No user found")
     | Some id =>
         resp <- call (PreferencesSelect id) ;;
         match error resp with
         | Some _ =>
             (* Don't throw here - it's normal for users to not have
                preferences yet *)
             ret None
         | None =>
             match data resp with
             | PreferencesRow prefs =>
                 ret (Some
                        {| p_diet := Some (match diet prefs with
                                           | Some d => d
                                           | None => EmptyString
                                           end);
                           p_tastes := Some (tastes prefs);
                           p_preferred_difficulty :=
                             stringOrNull (preferred_difficulty prefs);
                           p_preferred_time_minutes :=
                             integerOrNull (preferred_time_minutes prefs);
                           p_preferred_portions :=
                             integerOrNull (preferred_portions prefs) |})
             | _ => ret None
             end
         end
     end)
    (fun _ =>
       console_error "Error fetching preferences:" ;;
       alert "Error" "Failed to load preferences. Using default values." ;;
       ret None)
    (ret tt).

End CreateRecipePreferences.

(** *** The lists the screens show *)
Module ScreenLists.
Import Store App.
Local Open Scope app_scope.

(** Modelled from the spec: [from(table).select('*').order('created_at',
    { ascending: false })] returns the caller's rows, newest first, which
    is the order the tables are kept in. *)
Definition visible_ingredients (caller : option UserId) (d : DB)
    : list Ingredient :=
  filter (fun row => owns caller (ingredient_user row)) (ingredients d).
Definition visible_utensils (caller : option UserId) (d : DB)
    : list Utensil :=
  filter (fun row => owns caller (utensil_user row)) (utensils d).
Definition visible_recipes (caller : option UserId) (d : DB)
    : list Recipe :=
  filter (fun r => owns caller (recipe_user r)) (recipes d).

(** A read request: it resolves to [{ data, error }] and leaves the store
    and the trace as they are. *)
Definition select_rows {A} (rows : option UserId -> DB -> list A)
    : App (option (list A) * option PgError) :=
  fun w =>
    match next_fault w with
    | Some (Throws msg) =>
        (Throw (JsError msg),
         {| db := db w; session := session w; faults := later_faults w;
            trace := trace w |})
    | Some (Fails e) =>
        (Ok (None, Some e),
         {| db := db w; session := session w; faults := later_faults w;
            trace := trace w |})
    | None =>
        (Ok (Some (rows (session w) (db w)), None),
         {| db := db w; session := session w; faults := later_faults w;
            trace := trace w |})
    end.

(** [loadIngredients] of the ingredients screen; the argument is the
    screen's [ingredients] state and the result its next value. *)
Definition loadIngredients (ingredients : list Ingredient)
    : App (list Ingredient) :=
  try_catch_finally
    (user <- getUser ;;
     match user with
     | None => ret []
     | Some _ =>
         result <- select_rows visible_ingredients ;;
         match result with
         | (Some data, None) => ret data
         | _ => ret ingredients
         end
     end)
    (fun _ => console_error "Error loading ingredients:" ;; ret [])
    (ret tt).

(** [loadUtensils] of the utensils screen, on the [utensils] state. *)
Definition loadUtensils (utensils : list Utensil) : App (list Utensil) :=
  try_catch_finally
    (user <- getUser ;;
     match user with
     | None => ret []
     | Some _ =>
         result <- select_rows visible_utensils ;;
         match result with
         | (Some data, None) => ret data
         | _ => ret utensils
         end
     end)
    (fun _ => console_error "Error loading utensils:" ;; ret [])
    (ret tt).

(** [fetchRecipes] of the dashboard, on the [recipes] state. *)
Definition fetchRecipes (recipes : list Recipe) : App (list Recipe) :=
  try_catch_finally
    (set_state "loading" "true" ;;
     user <- getUser ;;
     match user with
     | None => throw (JsError "No user found")
     | Some _ =>
         result <- select_rows visible_recipes ;;
         match result with
         | (_, Some e) => throw_error e
         | (Some data, None) => ret data
         | (None, None) => ret []
         end
     end)
    (fun _ =>
       console_error "Error fetching recipes:" ;;
       alert "Error" "Failed to load recipes. Please try again." ;;
       ret recipes)
    (set_state "loading" "false").

(** The 'Delete' button of the ingredients screen, on the [ingredients]
    state. *)
Definition deleteIngredient (ingredients : list Ingredient)
    (ingredientId : Z) : App (list Ingredient) :=
  resp <- call (IngredientsDelete ingredientId) ;;
  match error resp with
  | None =>
      ret (filter (fun ing => negb (ingredient_id ing =? ingredientId))
             ingredients)
  | Some _ => console_error "Delete error:" ;; ret ingredients
  end.

(** The 'Delete' button of the utensils screen, on the [utensils] state. *)
Definition deleteUtensil (utensils : list Utensil) (utensilId : Z)
    : App (list Utensil) :=
  resp <- call (UtensilsDelete utensilId) ;;
  match error resp with
  | None =>
      ret (filter (fun ut => negb (utensil_id ut =? utensilId)) utensils)
  | Some _ => console_error "Delete error:" ;; ret utensils
  end.

(** The 'Delete' button of the dashboard, on the [recipes] state. *)
Definition deleteRecipe (recipes : list Recipe) (recipeId : Z)
    : App (list Recipe) :=
  try_catch_finally
    (set_state "deleting" "recipeId" ;;
     resp <- call (RecipesDelete recipeId) ;;
     match error resp with
     | Some e => throw_error e
     | None =>
         alert "Success" "Recipe deleted successfully." ;;
         ret (filter (fun r => negb (recipe_id r =? recipeId)) recipes)
     end)
    (fun _ =>
       console_error "Error deleting recipe:" ;;
       alert "Error" "Failed to delete recipe. Please try again." ;;
       ret recipes)
    (set_state "deleting" "null").

(** The 'Continue' buttons: [disabled={ingredients.length < 3}] and
    [disabled={utensils.length < 1}]. *)
Definition ingredientsContinueDisabled (ingredients : list Ingredient)
    : bool := (List.length ingredients <? 3)%nat.
Definition utensilsContinueDisabled (utensils : list Utensil) : bool :=
  (List.length utensils <? 1)%nat.

(** [totalTime] of a saved recipe: the sum of its two integer columns, a
    [null] column counting as 0. *)
Definition totalTime (recipe : Recipe) : Z :=
  match prep_time_minutes recipe with Some p => p | None => 0 end
  + match cook_time_minutes recipe with Some c => c | None => 0 end.

End ScreenLists.

(* ================================================================== *)
(** ** More vocabulary *)

Module MoreSpec.
Import Store App.

Definition utensil_key (row : Utensil) : UserId * string :=
  (utensil_user row, utensil_name row).

(** No user has two utensil rows with the same name; ids are unique and
    below the next id to be issued. *)
Definition utensils_unique (d : DB) : Prop :=
  NoDup (map utensil_key (utensils d))
  /\ NoDup (map utensil_id (utensils d))
  /\ (forall row, In row (utensils d) -> utensil_id row < next_id d).

(** Recipe ids are unique and below the next id to be issued. *)
Definition recipes_fresh (d : DB) : Prop :=
  NoDup (map recipe_id (recipes d))
  /\ (forall r, In r (recipes d) -> recipe_id r < next_id d).

(** Every stored recipe with the given id is marked used. *)
Definition used_if_present (id : Z) (d : DB) : Prop :=
  forall r, In r (recipes d) -> recipe_id r = id -> is_used r = true.

(** One preference row per user. *)
Definition preferences_single (d : DB) : Prop :=
  NoDup (map pref_id (user_preferences d)).

(** For [t] minutes: the number read is kept, and the two stored times add
    up to [t - 1], or for a multiple of ten to [t] or [t - 1]. *)
Definition total_agrees (t : Z) : bool :=
  Js.truthyNumber (Js.of_Z t)
  && match Spec.stored_prep (Js.of_Z t), Spec.stored_cook (Js.of_Z t) with
     | Some (Some p), Some (Some c) =>
         if t mod 10 =? 0 then (t - 1 <=? p + c) && (p + c <=? t)
         else p + c =? t - 1
     | _, _ => false
     end.

(** The list a toggle leaves: [d] is dropped when it was selected and
    appended when it was not. *)
Definition toggled (d : string) (l : list string) : list string :=
  if Js.includes l d then filter (fun y => negb (String.eqb y d)) l
  else l ++ [d].

(** The events a run appended to a trace. *)
Definition appended (before after : list Event) (new : list Event) : Prop :=
  after = (before ++ new)%list.

Definition is_navigation (e : Event) : bool :=
  match e with
  | RouterPush _ | RouterReplace _ => true
  | _ => false
  end.

Definition is_request (e : Event) : bool :=
  match e with
  | Called _ _ | AuthCalled _ _ => true
  | _ => false
  end.

(** The request names no user but [s]: the row it writes, or the record it
    reads, carries the id of [s]. A delete, the documented upsert and the
    cook call name no user at all. *)
Definition request_for (s : option UserId) (r : Request) : Prop :=
  match r with
  | ProfilesSelect id | PreferencesSelect id | ProfilesUpdate id _ =>
      s = Some id
  | IngredientsInsert d | IngredientsUpdate _ d => s = Some (d_user_id d)
  | UtensilsInsert d | UtensilsUpdate _ d => s = Some (ud_user_id d)
  | PreferencesUpsert row => s = Some (pref_id row)
  | RecipesInsert d => s = Some (rd_user_id d)
  | IngredientsDelete _ | UtensilsDelete _ | RecipesDelete _
  | IngredientsUpsert _ _ _
  | Rpc_select_recipe_and_subtract_ingredients _ => True
  end.

(** Run with [s] signed in, the computation leaves [s] signed in and sends
    only requests for [s]. *)
Definition sends_for (s : option UserId) {A} (m : App A) : Prop :=
  forall w,
    session w = s ->
    session (snd (m w)) = s
    /\ exists new,
         appended (trace w) (trace (snd (m w))) new
         /\ forall r err, In (Called r err) new -> request_for s r.

End MoreSpec.

(* ================================================================== *)
(** ** Properties *)

Import Store App Spec Examples.
Unset Implicit Arguments.

(** *** Symbolic execution of handlers *)

Ltac unfold_app :=
  repeat progress
    (unfold try_catch_finally, bind, ret, throw, throw_error, alert,
       console_error, router_push, router_replace, set_state, log, getUser,
       call, signInWithPassword, signUp, signOut, next_fault, later_faults,
       with_trace, Program.when in *;
     cbn [db session faults trace fst snd] in * ).

Ltac trace_eq :=
  repeat rewrite <- app_assoc; cbn [app]; try reflexivity.

(** *** The diet list through its comma-joined column *)

Section DietRoundTrip.

Lemma split_no_comma (s : string) :
  has_comma s = false -> Js.split "," s = [s].
Proof.
  induction s as [|c s IH]; simpl; intros H; [reflexivity|].
  apply orb_false_iff in H as [Hc Hs].
  rewrite Hc, (IH Hs). reflexivity.
Qed.

Lemma split_append (x rest : string) :
  has_comma x = false ->
  Js.split "," (x ++ String "," rest) = x :: Js.split "," rest.
Proof.
  induction x as [|c x IH]; simpl; intros H; [reflexivity|].
  apply orb_false_iff in H as [Hc Hx].
  rewrite Hc, (IH Hx). reflexivity.
Qed.

Lemma split_join (x : string) (l : list string) :
  Forall (fun d => has_comma d = false) (x :: l) ->
  Js.split "," (Js.join "," (x :: l)) = x :: l.
Proof.
  revert x. induction l as [|y l IH]; intros x H.
  - simpl. apply split_no_comma. now inversion H.
  - inversion H as [|? ? Hx Hl]; subst.
    change (Js.join "," (x :: y :: l))
      with (x ++ String "," (Js.join "," (y :: l))).
    rewrite (split_append x _ Hx), (IH y Hl). reflexivity.
Qed.

Lemma filterBoolean_truthy (l : list string) :
  Forall (fun d => Js.truthy d = true) l -> Js.filterBoolean l = l.
Proof.
  unfold Js.filterBoolean.
  induction 1 as [|d l Hd _ IH]; simpl; [reflexivity|].
  now rewrite Hd, IH.
Qed.

Lemma join_truthy (x : string) (l : list string) :
  Js.truthy x = true -> Js.truthy (Js.join "," (x :: l)) = true.
Proof.
  destruct x as [|c x]; [discriminate|]. intros _.
  destruct l; reflexivity.
Qed.

(** The value computed on loading undoes the value stored on saving, for
    names that are not empty and hold no comma. *)
Lemma diets_round_trip (l : list string) :
  Forall (fun d => Js.truthy d = true) l ->
  Forall (fun d => has_comma d = false) l ->
  OnboardingTastes.dietsOfColumn (Some (Js.join "," l)) = l.
Proof.
  intros Ht Hc. destruct l as [|x l]; [reflexivity|].
  unfold OnboardingTastes.dietsOfColumn.
  rewrite (join_truthy x l) by now inversion Ht.
  rewrite (split_join x l Hc). now apply filterBoolean_truthy.
Qed.

Lemma filter_keeps_Forall {A} (P : A -> Prop) (f : A -> bool) (l : list A) :
  Forall P l -> Forall P (filter f l).
Proof.
  rewrite !Forall_forall. intros H x Hx. apply filter_In in Hx. now apply H.
Qed.

Lemma diet_options_truthy :
  Forall (fun d => Js.truthy d = true) OnboardingTastes.DIET_OPTIONS.
Proof. repeat constructor. Qed.

(** No state of the screen lists an empty diet name. *)
Lemma screen_state_truthy (p : OnboardingTastes.Preferences) :
  screen_state p ->
  Forall (fun d => Js.truthy d = true) (OnboardingTastes.diets p).
Proof.
  induction 1 as [|row p Hp|d p _ IH Hd|text p _ IH|d p _ IH|p q _ IH Hq].
  - constructor.
  - rewrite Hp. unfold OnboardingTastes.dietsOfColumn.
    destruct (diet row) as [s|]; [|constructor].
    destruct (Js.truthy s); [|constructor].
    apply Forall_forall. intros x Hx.
    apply filter_In in Hx. apply Hx.
  - unfold OnboardingTastes.toggleDiet; simpl.
    destruct (Js.includes (OnboardingTastes.diets p) d).
    + now apply filter_keeps_Forall.
    + apply Forall_app. split; [assumption|].
      constructor; [|constructor].
      destruct Hd as [Hd|Hd].
      * exact (proj1 (Forall_forall _ _) diet_options_truthy d Hd).
      * exact (proj1 (Forall_forall _ _) IH d Hd).
  - unfold OnboardingTastes.addCustomDiet.
    destruct (Js.truthy (Js.trim text)) eqn:Ht; simpl; [|assumption].
    destruct (Js.includes (OnboardingTastes.diets p) (Js.trim text));
      simpl; [assumption|].
    apply Forall_app. split; [assumption|]. now repeat constructor.
  - simpl. now apply filter_keeps_Forall.
  - now rewrite Hq.
Qed.

End DietRoundTrip.



(** *** The prep and cook times of a saved recipe *)

Section TimeSplit.

Lemma split_checked : forallb split_agrees minutes_checked = true.
Proof. vm_compute. reflexivity. Qed.

Lemma split_agrees_in_range (t : Z) :
  1 <= t <= minutes_bound -> split_agrees t = true.
Proof.
  intros Ht.
  apply (proj1 (forallb_forall split_agrees minutes_checked) split_checked).
  unfold minutes_checked.
  replace t with (Z.of_nat (Z.to_nat t)) by lia.
  apply in_map, in_seq. unfold minutes_bound in *. lia.
Qed.

Lemma stores_eq (x : option (option Z)) (v : Z) :
  stores x v = true -> x = Some (Some v).
Proof.
  destruct x as [[z|]|]; simpl; try discriminate.
  intros H. apply Z.eqb_eq in H. now subst.
Qed.

Lemma orElse_truthy (x d : Js.Number) :
  Js.truthyNumber x = true -> Js.orElse x d = x.
Proof. unfold Js.orElse. now intros ->. Qed.

(** The minutes the handlers compute with. *)
Lemma timeInMinutes_cases (recipe : Ai.GeneratedRecipe) :
  match Js.parseInt_Z (Ai.g_time recipe) with
  | None | Some 0 => SaveRecipe.timeInMinutes recipe = Js.of_Z 30
  | Some t =>
      1 <= Z.abs t <= minutes_bound ->
      SaveRecipe.timeInMinutes recipe = Js.of_Z t
  end.
Proof.
  unfold SaveRecipe.timeInMinutes, Js.parseInt.
  destruct (Js.parseInt_Z (Ai.g_time recipe)) as [[|t|t]|];
    try reflexivity; intros Ht; apply orElse_truthy.
  - pose proof (split_agrees_in_range (Z.pos t) ltac:(lia)) as H.
    unfold split_agrees in H. repeat (apply andb_true_iff in H as [H ?]).
    assumption.
  - pose proof (split_agrees_in_range (Z.pos t) ltac:(lia)) as H.
    unfold split_agrees in H. repeat (apply andb_true_iff in H as [H ?]).
    assumption.
Qed.

End TimeSplit.

(** Each of the three save handlers, run by a signed-in user whose insert
    request reaches the store, sends the row [recipeRow] builds. *)
Lemma save_handlers_insert_row (recipe : Ai.GeneratedRecipe) (w : World)
    (u : UserId) :
  session w = Some u -> next_fault w = None ->
  forall h,
    In h [CreateRecipeScreen.handleSaveRecipe; RecipesScreen.handleSaveRecipe;
          RecipeDetailScreen.handleSaveRecipe] ->
    exists v err rest,
      trace (snd (h recipe w))
      = (trace w ++ SetState "saving" v
                 :: Called (RecipesInsert (SaveRecipe.recipeRow u recipe)) err
                 :: rest)%list.
Proof.
  intros Hs Hf h Hh.
  destruct Hh as [<-|[<-|[<-|[]]]].
  - unfold CreateRecipeScreen.handleSaveRecipe. unfold_app.
    rewrite Hs. unfold_app. rewrite Hf.
    destruct (exec (Some u) (RecipesInsert (SaveRecipe.recipeRow u recipe))
                (db w)) as [resp d'].
    destruct (error resp); cbn; do 3 eexists; trace_eq.
  - unfold RecipesScreen.handleSaveRecipe. unfold_app.
    rewrite Hs. unfold_app. rewrite Hf.
    destruct (exec (Some u) (RecipesInsert (SaveRecipe.recipeRow u recipe))
                (db w)) as [resp d'].
    destruct (error resp); cbn; [do 3 eexists; trace_eq|].
    destruct (hd None (tl (faults w))) as [[e|msg]|]; cbn;
      [| |destruct (exec (Some u) (ProfilesUpdate u true) d')]; cbn;
      do 3 eexists; trace_eq.
  - unfold RecipeDetailScreen.handleSaveRecipe. unfold_app.
    rewrite Hs. unfold_app. rewrite Hf.
    destruct (exec (Some u) (RecipesInsert (SaveRecipe.recipeRow u recipe))
                (db w)) as [resp d'].
    destruct (error resp); cbn; [do 3 eexists; trace_eq|].
    destruct (hd None (tl (faults w))) as [[e|msg]|]; cbn;
      [| |destruct (exec (Some u) (ProfilesUpdate u true) d')]; cbn;
      do 3 eexists; trace_eq.
Qed.

(** C10 (as amended). A generated recipe is saved with [is_used = false].
    Its times derive from the single time text: with [t] the leading
    integer [parseInt] reads, or 30 when the text does not parse or reads
    as 0, the row carries [Math.floor(t * 0.3)] and [Math.floor(t * 0.7)]
    in double arithmetic. For a text that does not parse or reads as 0
    these are 9 and 21; for 1 <= |t| <= 10000 the prep time is the exact
    floor of 3t/10, and the cook time is the exact floor of 7t/10 when [t]
    is negative or not a multiple of ten. Every save handler sends this
    row. *)
Theorem saved_recipe_times (id : UserId) (recipe : Ai.GeneratedRecipe) :
  let row := SaveRecipe.recipeRow id recipe in
  let time := Ai.g_time recipe in
  rd_is_used row = false
  /\ integer_column (rd_prep_time_minutes row)
     = stored_prep (SaveRecipe.timeInMinutes recipe)
  /\ integer_column (rd_cook_time_minutes row)
     = stored_cook (SaveRecipe.timeInMinutes recipe)
  /\ (Js.parseInt_Z time = None \/ Js.parseInt_Z time = Some 0 ->
      integer_column (rd_prep_time_minutes row) = Some (Some 9)
      /\ integer_column (rd_cook_time_minutes row) = Some (Some 21))
  /\ (forall t,
         Js.parseInt_Z time = Some t -> 1 <= Z.abs t <= minutes_bound ->
         integer_column (rd_prep_time_minutes row) = Some (Some (3 * t / 10))
         /\ (t < 0 \/ t mod 10 <> 0 ->
             integer_column (rd_cook_time_minutes row)
             = Some (Some (7 * t / 10))))
  /\ (forall w h,
         session w = Some id -> next_fault w = None ->
         In h [CreateRecipeScreen.handleSaveRecipe;
               RecipesScreen.handleSaveRecipe;
               RecipeDetailScreen.handleSaveRecipe] ->
         exists v err rest,
           trace (snd (h recipe w))
           = (trace w ++ SetState "saving" v
                      :: Called (RecipesInsert row) err :: rest)%list).
Proof.
  cbv zeta. pose proof (timeInMinutes_cases recipe) as Hm.
  repeat split; try reflexivity.
  - destruct H as [H|H]; rewrite H in Hm; cbn [SaveRecipe.recipeRow
      rd_prep_time_minutes]; unfold SaveRecipe.prepTime; rewrite Hm;
      reflexivity.
  - destruct H as [H|H]; rewrite H in Hm; cbn [SaveRecipe.recipeRow
      rd_cook_time_minutes]; unfold SaveRecipe.cookTime; rewrite Hm;
      reflexivity.
  - rewrite H in Hm.
    assert (Ht : SaveRecipe.timeInMinutes recipe = Js.of_Z t)
      by (destruct t; [simpl in H0; lia|now apply Hm|now apply Hm]).
    cbn [SaveRecipe.recipeRow rd_prep_time_minutes].
    unfold SaveRecipe.prepTime. rewrite Ht.
    pose proof (split_agrees_in_range (Z.abs t) H0) as Hc.
    unfold split_agrees in Hc.
    repeat (apply andb_true_iff in Hc as [Hc ?]).
    apply stores_eq. fold (stored_prep (Js.of_Z t)).
    destruct (Z.abs_spec t) as [[_ Ha]|[_ Ha]]; rewrite Ha in *.
    + assumption.
    + now rewrite Z.opp_involutive in *.
  - intros Hmul. rewrite H in Hm.
    assert (Ht : SaveRecipe.timeInMinutes recipe = Js.of_Z t)
      by (destruct t; [simpl in H0; lia|now apply Hm|now apply Hm]).
    cbn [SaveRecipe.recipeRow rd_cook_time_minutes].
    unfold SaveRecipe.cookTime. rewrite Ht.
    pose proof (split_agrees_in_range (Z.abs t) H0) as Hc.
    unfold split_agrees in Hc.
    repeat (apply andb_true_iff in Hc as [Hc ?]).
    apply stores_eq. fold (stored_cook (Js.of_Z t)).
    destruct (Z.abs_spec t) as [[Hpos Ha]|[Hneg Ha]]; rewrite Ha in *.
    + match goal with
      | Hor : (_ || _)%bool = true |- _ =>
          apply orb_true_iff in Hor as [Hor|Hor]; [|assumption];
          apply Z.eqb_eq in Hor; lia
      end.
    + now rewrite Z.opp_involutive in *.
  - intros w h Hs Hf Hh.
    exact (save_handlers_insert_row recipe w id Hs Hf h Hh).
Qed.

Lemma saved_recipe_times_witness :
  let recipe :=
    {| Ai.g_title := "Pancakes"; Ai.g_description := "Fluffy";
       Ai.g_difficulty := "Easy"; Ai.g_type := "Breakfast";
       Ai.g_time := "45 minutes"; Ai.g_ingredients := [];
       Ai.g_instructions := ["Mix"; "Cook"]; Ai.g_servings := Js.of_Z 4 |} in
  integer_column (rd_prep_time_minutes (SaveRecipe.recipeRow 1 recipe))
  = Some (Some 13)
  /\ integer_column (rd_cook_time_minutes (SaveRecipe.recipeRow 1 recipe))
     = Some (Some 31).
Proof.
  intros recipe.
  destruct (saved_recipe_times 1 recipe) as (_ & _ & _ & _ & H & _).
  destruct (H 45 eq_refl ltac:(unfold minutes_bound; simpl; lia)) as [Hp Hc].
  split; [exact Hp|].
  apply Hc. right. discriminate.
Defined.

(** A time text that reads as 0 is not stored as it reads: the leading
    integer is 0, so the exact floors of 3/10 and 7/10 of it are 0 and 0,
    and the row carries 9 and 21. *)
Lemma saved_recipe_times_zero_minutes :
  let recipe :=
    {| Ai.g_title := "Salad"; Ai.g_description := "Raw";
       Ai.g_difficulty := "Easy"; Ai.g_type := "Starter";
       Ai.g_time := "0 minutes"; Ai.g_ingredients := [];
       Ai.g_instructions := ["Toss"]; Ai.g_servings := Js.of_Z 2 |} in
  let row := SaveRecipe.recipeRow 1 recipe in
  claimed_prep (Ai.g_time recipe) = 0
  /\ claimed_cook (Ai.g_time recipe) = 0
  /\ integer_column (rd_prep_time_minutes row) = Some (Some 9)
  /\ integer_column (rd_cook_time_minutes row) = Some (Some 21)
  /\ integer_column (rd_prep_time_minutes row)
     <> Some (Some (claimed_prep (Ai.g_time recipe)))
  /\ integer_column (rd_cook_time_minutes row)
     <> Some (Some (claimed_cook (Ai.g_time recipe))).
Proof. vm_compute. repeat split; discriminate. Qed.

(** In double arithmetic [90 * 0.7] is just below 63: a time of 90 minutes
    is stored as 27 and 62. *)
Lemma ninety_minutes :
  stored_prep (Js.of_Z 90) = Some (Some 27)
  /\ stored_cook (Js.of_Z 90) = Some (Some 62).
Proof. vm_compute. split; reflexivity. Qed.

(** *** The text returned by the cook transaction *)

Section CookResponse.

Lemma startsWith_truthy (text : string) :
  Js.startsWith text "Success" = true -> Js.truthy text = true.
Proof. destruct text; [discriminate|reflexivity]. Qed.

Lemma cook_message_success (o : CookOutcome) :
  Js.startsWith (cook_message o) "Success" = true <-> o = CookSuccess.
Proof.
  destruct o; simpl; split; intros H; try reflexivity; try discriminate.
Qed.

Lemma cook_message_truthy (o : CookOutcome) :
  Js.truthy (cook_message o) = true.
Proof. destruct o; reflexivity. Qed.

End CookResponse.

(** C7 (as amended). The client classifies the text the cook transaction
    returns by its prefix: it reports success exactly when the text starts
    with 'Success'; otherwise it presents the returned text as the failure
    reason, except that for an empty text it presents a fixed message. For
    the texts the transaction produces, success is reported exactly when the
    transaction succeeded. *)
Theorem cook_response_classified (text : string) (w : World) :
  let w' := snd (SavedRecipeDetailScreen.onCookResponse (Some text) w) in
  db w' = db w
  /\ (Js.startsWith text "Success" = true ->
      trace w'
      = (trace w
         ++ [Alert "Success"
               "Ingredients have been subtracted from your inventory. Enjoy your meal!";
             RouterReplace "/dashboard"])%list)
  /\ (Js.startsWith text "Success" = false ->
      trace w'
      = (trace w
         ++ [Alert "Error"
               (if Js.truthy text then text
                else "Failed to cook recipe. Please check your ingredients.")])%list)
  /\ (forall recipe : Recipe,
         next_fault w = None ->
         let o := fst (select_recipe_and_subtract_ingredients (session w)
                         (recipe_id recipe) (db w)) in
         let shown := trace (snd (SavedRecipeDetailScreen.onPressCook recipe w)) in
         (o = CookSuccess ->
          shown
          = (trace w
             ++ [SetState "cooking" "true";
                 Called (Rpc_select_recipe_and_subtract_ingredients
                           (recipe_id recipe)) None;
                 Alert "Success"
                   "Ingredients have been subtracted from your inventory. Enjoy your meal!";
                 RouterReplace "/dashboard";
                 SetState "cooking" "false"])%list)
         /\ (o <> CookSuccess ->
             shown
             = (trace w
                ++ [SetState "cooking" "true";
                    Called (Rpc_select_recipe_and_subtract_ingredients
                              (recipe_id recipe)) None;
                    Alert "Error" (cook_message o);
                    SetState "cooking" "false"])%list)).
Proof.
  cbv zeta. unfold SavedRecipeDetailScreen.onCookResponse.
  repeat split.
  - destruct (Js.truthy text && Js.startsWith text "Success")%bool;
      unfold_app; reflexivity.
  - intros H. rewrite H, (startsWith_truthy text H). unfold_app. cbn.
    trace_eq.
  - intros H. rewrite H, andb_false_r. unfold_app. reflexivity.
  - intros Ho. unfold SavedRecipeDetailScreen.onPressCook. unfold_app.
    rewrite H. unfold exec.
    destruct (select_recipe_and_subtract_ingredients (session w)
                (recipe_id recipe) (db w)) as [o d'].
    simpl in Ho. subst o. cbn. trace_eq.
  - intros Ho. unfold SavedRecipeDetailScreen.onPressCook. unfold_app.
    rewrite H. unfold exec.
    destruct (select_recipe_and_subtract_ingredients (session w)
                (recipe_id recipe) (db w)) as [o d'].
    simpl in Ho. cbn [data error].
    unfold SavedRecipeDetailScreen.onCookResponse.
    assert (Hp : Js.startsWith (cook_message o) "Success" = false).
    { destruct (Js.startsWith (cook_message o) "Success") eqn:E;
        [|reflexivity].
      apply cook_message_success in E. contradiction. }
    rewrite Hp, andb_false_r, cook_message_truthy. unfold_app. trace_eq.
Qed.

Lemma cook_response_classified_witness :
  trace (snd (SavedRecipeDetailScreen.onCookResponse
                (Some "Error: Insufficient ingredient - Flour")
                Program.initial))
  = [Alert "Error" "Error: Insufficient ingredient - Flour"].
Proof.
  exact (proj1 (proj2 (proj2
           (cook_response_classified
              "Error: Insufficient ingredient - Flour" Program.initial)))
           eq_refl).
Defined.

(** An empty response text is not presented as returned: it does not start
    with 'Success', and what is presented is not the returned text. *)
Lemma cook_response_empty_text :
  Js.startsWith EmptyString "Success" = false
  /\ trace (snd (SavedRecipeDetailScreen.onCookResponse (Some EmptyString)
                   Program.initial))
     = [Alert "Error" "Failed to cook recipe. Please check your ingredients."]
  /\ trace (snd (SavedRecipeDetailScreen.onCookResponse (Some EmptyString)
                   Program.initial))
     <> [Alert "Error" EmptyString].
Proof. repeat split. discriminate. Qed.

(** *** Routing after login *)

(** C5 (as amended). On every successful login the persisted flag is read;
    if it is true the user is routed to the dashboard, and otherwise to the
    first onboarding screen, the ingredients screen, whatever the live
    counts and records are. *)
Theorem login_routing (username password : string) (w : World) (u : UserId) :
  Js.truthy username = true ->
  Js.truthy password = true ->
  next_fault w = None ->
  hd None (later_faults w) = None ->
  sign_in username password (db w) = Some u ->
  let w' := snd (Login.handleLogin username password w) in
  let flag := match select_profile (Some u) u (db w) with
              | Some p => onboarding_complete p
              | None => false
              end in
  session w' = Some u
  /\ db w' = db w
  /\ exists err,
      trace w'
      = (trace w
         ++ [SetState "loading" "true";
             AuthCalled "signInWithPassword" None;
             Called (ProfilesSelect u) err;
             RouterPush (if flag then "/dashboard"
                         else "/onboarding/ingredients");
             SetState "loading" "false"])%list.
Proof.
  intros Hu Hp Hf1 Hf2 Hin. cbv zeta.
  unfold Login.handleLogin. rewrite Hu, Hp. cbn [negb orb].
  unfold_app. rewrite Hf1, Hin. unfold_app. rewrite Hf2.
  unfold exec.
  destruct (select_profile (Some u) u (db w)) as [p|]; cbn.
  - destruct (onboarding_complete p); cbn; repeat split;
      eexists; trace_eq.
  - repeat split; eexists; trace_eq.
Qed.

Lemma login_routing_witness :
  exists err,
    trace (snd (Login.handleLogin "ana@example.com" "secret1" ana_world))
    = [SetState "loading" "true";
       AuthCalled "signInWithPassword" None;
       Called (ProfilesSelect 1) err;
       RouterPush "/onboarding/ingredients";
       SetState "loading" "false"].
Proof.
  exact (proj2 (proj2
           (login_routing "ana@example.com" "secret1" ana_world 1
              eq_refl eq_refl eq_refl eq_refl eq_refl))).
Defined.

(** The step is not recomputed for a user who left the onboarding after the
    third ingredient: the recomputed step is [NeedsUtensils], whose screen
    is the utensils screen, and the login routes to the ingredients
    screen. *)
Lemma login_ignores_live_step :
  Program.complete 1 ana_world = false
  /\ live_step 1 (db ana_world) = NeedsUtensils
  /\ screen_of (live_step 1 (db ana_world)) = "/onboarding/utensils"
  /\ In (RouterPush "/onboarding/ingredients")
       (trace (snd (Login.handleLogin "ana@example.com" "secret1" ana_world)))
  /\ ~ In (RouterPush (screen_of (live_step 1 (db ana_world))))
         (trace (snd (Login.handleLogin "ana@example.com" "secret1"
                        ana_world))).
Proof.
  repeat split; try reflexivity.
  - vm_compute. tauto.
  - vm_compute. intros H.
    repeat (destruct H as [H|H]; [discriminate H|]). exact H.
Qed.

(** *** Failed mutations and what the user sees *)

(** C8. A failed mutation must produce a visible notification. The handlers
    break this in three places: a failed ingredient delete and a failed
    utensil delete are only written to the console, and a failed write of
    the onboarding flag is ignored and followed by the success alert. The
    recipe delete, a sibling path, does alert. *)
Theorem failed_mutations_unreported (d : DB) (s : option UserId)
    (rest : list (option Fault)) (t : list Event) (e : PgError) (id : Z) :
  let failing := {| db := d; session := s;
                    faults := Some (Fails e) :: rest; trace := t |} in
  (let w' := snd (OnboardingIngredients.onPressDelete id failing) in
   db w' = d
   /\ trace w'
      = (t ++ [Called (IngredientsDelete id) (Some e);
               ConsoleError "Delete error:"])%list
   /\ existsb is_alert [Called (IngredientsDelete id) (Some e);
                        ConsoleError "Delete error:"] = false)
  /\ (let w' := snd (OnboardingUtensils.onPressDelete id failing) in
      db w' = d
      /\ trace w'
         = (t ++ [Called (UtensilsDelete id) (Some e);
                  ConsoleError "Delete error:"])%list
      /\ existsb is_alert [Called (UtensilsDelete id) (Some e);
                           ConsoleError "Delete error:"] = false)
  /\ (forall (recipe : Ai.GeneratedRecipe) (u : UserId),
         s = Some u ->
         fst (insert_recipe (Some u) (SaveRecipe.recipeRow u recipe) d) = None ->
         let w' := snd (RecipesScreen.handleSaveRecipe recipe
                          {| db := d; session := s;
                             faults := None :: Some (Fails e) :: rest;
                             trace := t |}) in
         profiles (db w') = profiles d
         /\ trace w'
            = (t ++ [SetState "saving" (Ai.g_title recipe);
                     Called (RecipesInsert (SaveRecipe.recipeRow u recipe))
                       None;
                     Called (ProfilesUpdate u true) (Some e);
                     Alert "Success" "Recipe saved successfully!";
                     SetState "saving" "null"])%list)
  /\ (let w' := snd (DashboardScreen.onPressDelete id failing) in
      db w' = d
      /\ trace w'
         = (t ++ [SetState "deleting" "recipeId";
                  Called (RecipesDelete id) (Some e);
                  ConsoleError "Error deleting recipe:";
                  Alert "Error" "Failed to delete recipe. Please try again.";
                  SetState "deleting" "null"])%list).
Proof.
  cbv zeta. split; [|split; [|split]].
  - repeat split.
    unfold OnboardingIngredients.onPressDelete. unfold_app. cbn. trace_eq.
  - repeat split.
    unfold OnboardingUtensils.onPressDelete. unfold_app. cbn. trace_eq.
  - intros recipe u -> Hok.
    unfold RecipesScreen.handleSaveRecipe. unfold_app. unfold exec.
    unfold write_response.
    destruct (insert_recipe (Some u) (SaveRecipe.recipeRow u recipe) d)
      as [err d'] eqn:E.
    cbn in Hok. subst err. cbn. split; [|trace_eq].
    unfold insert_recipe in E.
    destruct (negb (owns (Some u)
                      (rd_user_id (SaveRecipe.recipeRow u recipe))));
      [discriminate|].
    destruct (integer_column _); [|discriminate].
    destruct (integer_column _); [|discriminate].
    destruct (integer_column _); [|discriminate].
    now inversion E.
  - repeat split.
    unfold DashboardScreen.onPressDelete. unfold_app. cbn. trace_eq.
Qed.

Lemma failed_mutations_unreported_witness :
  let recipe :=
    {| Ai.g_title := "Pancakes"; Ai.g_description := "Fluffy";
       Ai.g_difficulty := "Easy"; Ai.g_type := "Breakfast";
       Ai.g_time := "30 minutes"; Ai.g_ingredients := [];
       Ai.g_instructions := ["Mix"; "Cook"]; Ai.g_servings := Js.of_Z 4 |} in
  let w' := snd (RecipesScreen.handleSaveRecipe recipe
                   {| db := db ana_world; session := Some 1;
                      faults := [None; Some (Fails rls_violation)];
                      trace := [] |}) in
  profiles (db w') = profiles (db ana_world)
  /\ Program.complete 1 w' = false
  /\ existsb is_alert (trace w') = true.
Proof.
  intros recipe w'.
  destruct (proj1 (proj2 (proj2
              (failed_mutations_unreported (db ana_world) (Some 1) [] []
                 rls_violation 0)))
              recipe 1 eq_refl eq_refl) as [Hp Ht].
  fold w' in Hp, Ht. split; [exact Hp|]. split.
  - unfold Program.complete. rewrite Hp. reflexivity.
  - rewrite Ht. reflexivity.
Defined.

(** *** The cook transaction *)

Section ListFacts.

Context {A : Type}.

Lemma find_none_of (f : A -> bool) (l : list A) :
  (forall x, In x l -> f x = false) -> find f l = None.
Proof.
  induction l as [|a l IH]; simpl; intros H; [reflexivity|].
  rewrite (H a (or_introl eq_refl)). apply IH. intros x Hx. apply H. now right.
Qed.

Lemma find_first (f : A -> bool) (l : list A) :
  (exists x, In x l /\ f x = true) ->
  exists before x after,
    l = (before ++ x :: after)%list
    /\ (forall y, In y before -> f y = false)
    /\ f x = true
    /\ find f l = Some x.
Proof.
  induction l as [|a l IH]; intros [x [Hx Hf]]; [destruct Hx|].
  destruct (f a) eqn:Ha.
  - exists [], a, l. simpl. rewrite Ha. repeat split. intros y [].
  - destruct Hx as [->|Hx]; [congruence|].
    destruct (IH (ex_intro _ x (conj Hx Hf)))
      as (before & y & after & -> & Hb & Hy & Hfind).
    exists (a :: before), y, after. simpl. rewrite Ha. repeat split; auto.
    intros z [<-|Hz]; auto.
Qed.

Lemma find_map_same (f : A -> bool) (g : A -> A) (l : list A) :
  (forall x, f (g x) = f x) ->
  find f (map g l) = option_map g (find f l).
Proof.
  intros H. induction l as [|a l IH]; simpl; [reflexivity|].
  rewrite H. destruct (f a); [reflexivity|exact IH].
Qed.

End ListFacts.

Section Cook.

Lemma in_stock_met (u : UserId) (inv : list Ingredient)
    (item : RecipeIngredient) :
  in_stock u inv item = true <-> met u inv item.
Proof.
  unfold in_stock, met, stock_row. split.
  - destruct (ri_quantity item) as [q|s]; [|discriminate].
    intros H. apply existsb_exists in H as (row & Hin & H).
    apply andb_true_iff in H as [H Hq].
    apply andb_true_iff in H as [Hu Hn].
    exists q, row. repeat split; auto.
    + now apply Z.eqb_eq.
    + now apply String.eqb_eq.
    + now apply Qle_bool_iff.
  - intros (q & row & -> & Hin & Hu & Hn & Hq).
    apply existsb_exists. exists row. split; [assumption|].
    rewrite (proj2 (Z.eqb_eq _ _) Hu), (proj2 (String.eqb_eq _ _) Hn).
    simpl. now apply Qle_bool_iff.
Qed.

Lemma not_in_stock (u : UserId) (inv : list Ingredient)
    (item : RecipeIngredient) :
  negb (in_stock u inv item) = true <-> ~ met u inv item.
Proof.
  rewrite negb_true_iff, <- in_stock_met.
  destruct (in_stock u inv item); split; congruence.
Qed.

Lemma shortfall_not_met (u : UserId) (inv : list Ingredient)
    (item : RecipeIngredient) :
  shortfall u inv item <-> ~ met u inv item.
Proof.
  unfold shortfall, met. split.
  - intros H (q & row & Hq & Hin & Hu & Hn & Hle). rewrite Hq in H.
    exact (Qclt_not_le _ _ (H row Hin Hu Hn) Hle).
  - intros H. destruct (ri_quantity item) as [q|s]; [|exact I].
    intros row Hin Hu Hn.
    destruct (Qclt_le_dec (ingredient_quantity row) q) as [Hlt|Hle];
      [exact Hlt|].
    exfalso. apply H. exists q, row. repeat split; auto.
Qed.

Lemma cooked_row_step (u : UserId) (item : RecipeIngredient)
    (rest : list RecipeIngredient) (row : Ingredient) :
  cooked_row u rest
    (if stock_row u (ri_name item) row
     then set_quantity (ingredient_quantity row - required_quantity item)%Qc row
     else row)
  = cooked_row u (item :: rest) row.
Proof.
  unfold cooked_row, stock_row. simpl total_required.
  rewrite (String.eqb_sym (ri_name item) (ingredient_name row)).
  destruct (ingredient_user row =? u) eqn:Hu; simpl.
  - destruct (String.eqb (ingredient_name row) (ri_name item)); simpl.
    + rewrite Hu. unfold set_quantity; simpl. f_equal. ring.
    + rewrite Hu. reflexivity.
  - rewrite Hu. reflexivity.
Qed.

(** Subtracting item after item is one pass that subtracts, from each row
    of the user, the total the recipe requires under the row's name. *)
Lemma subtract_all_map (u : UserId) (items : list RecipeIngredient)
    (inv : list Ingredient) :
  subtract_all u items inv = map (cooked_row u items) inv.
Proof.
  unfold subtract_all. revert inv.
  induction items as [|item rest IH]; intros inv; simpl.
  - induction inv as [|row inv IHinv]; simpl; [reflexivity|].
    rewrite <- IHinv. f_equal. unfold cooked_row.
    destruct (ingredient_user row =? u); [|reflexivity].
    destruct row; unfold set_quantity; simpl. f_equal. ring.
  - rewrite IH. unfold subtract_item. rewrite map_map.
    apply map_ext. intros row. apply cooked_row_step.
Qed.

Lemma total_required_absent (n : string) (items : list RecipeIngredient) :
  ~ In n (map ri_name items) -> total_required n items = Q2Qc 0.
Proof.
  induction items as [|item rest IH]; simpl; intros H; [reflexivity|].
  destruct (String.eqb_spec (ri_name item) n) as [E|E]; [tauto|].
  apply IH. tauto.
Qed.

Lemma total_required_once (items : list RecipeIngredient)
    (item : RecipeIngredient) :
  NoDup (map ri_name items) -> In item items ->
  total_required (ri_name item) items = required_quantity item.
Proof.
  induction items as [|a rest IH]; simpl; intros Hnd Hin; [destruct Hin|].
  inversion Hnd as [|? ? Hnot Hrest]; subst.
  destruct Hin as [->|Hin].
  - rewrite String.eqb_refl, (total_required_absent _ _ Hnot). ring.
  - destruct (String.eqb_spec (ri_name a) (ri_name item)) as [E|E].
    + exfalso. apply Hnot. rewrite E. now apply in_map.
    + now apply IH.
Qed.

Lemma cooked_row_other (u : UserId) (items : list RecipeIngredient)
    (row : Ingredient) :
  ingredient_user row <> u \/ ~ In (ingredient_name row) (map ri_name items) ->
  cooked_row u items row = row.
Proof.
  unfold cooked_row. intros [H|H].
  - now rewrite (proj2 (Z.eqb_neq _ _) H).
  - destruct (ingredient_user row =? u); [|reflexivity].
    rewrite (total_required_absent _ _ H).
    destruct row; unfold set_quantity; simpl. f_equal. ring.
Qed.

End Cook.


(** C2. A cook call on an unused recipe with at least one required
    ingredient that is missing or short fails with [InsufficientIngredient]
    naming the first such ingredient in the order the recipe lists them,
    and leaves every quantity and the recipe's flag as they were. *)
Theorem cook_insufficient (u : UserId) (id : Z) (d : DB) (r : Recipe) :
  find_recipe u id d = Some r ->
  is_used r = false ->
  (exists item, In item (recipe_ingredients r)
                /\ shortfall u (ingredients d) item) ->
  exists before short after,
    recipe_ingredients r = (before ++ short :: after)%list
    /\ (forall item, In item before -> met u (ingredients d) item)
    /\ shortfall u (ingredients d) short
    /\ select_recipe_and_subtract_ingredients (Some u) id d
       = (InsufficientIngredient (ri_name short), d)
    /\ find_recipe u id
         (snd (select_recipe_and_subtract_ingredients (Some u) id d))
       = Some r.
Proof.
  intros Hfind Hused [item [Hin Hshort]].
  destruct (find_first (fun i => negb (in_stock u (ingredients d) i))
              (recipe_ingredients r))
    as (before & short & after & Hl & Hb & Hs & Hf).
  { exists item. split; [assumption|].
    now apply not_in_stock, shortfall_not_met. }
  exists before, short, after.
  assert (Hcall : select_recipe_and_subtract_ingredients (Some u) id d
                  = (InsufficientIngredient (ri_name short), d)).
  { unfold select_recipe_and_subtract_ingredients.
    unfold find_recipe in Hfind. rewrite Hfind, Hused.
    unfold first_shortfall. now rewrite Hf. }
  repeat split.
  - exact Hl.
  - intros i Hi. apply in_stock_met.
    apply negb_false_iff. now apply Hb.
  - now apply shortfall_not_met, not_in_stock.
  - exact Hcall.
  - now rewrite Hcall.
Qed.

(** C3. A cook call on a recipe that is already used returns [AlreadyUsed]
    and changes nothing; in particular a call repeated after a success is
    answered [AlreadyUsed] and is not applied again. The screen shows the
    cook button only for an unused recipe. *)
Theorem cook_already_used :
  (forall (u : UserId) (id : Z) (d : DB) (r : Recipe),
      find_recipe u id d = Some r ->
      is_used r = true ->
      select_recipe_and_subtract_ingredients (Some u) id d = (AlreadyUsed, d))
  /\ (forall (caller : option UserId) (id : Z) (d d' : DB),
         select_recipe_and_subtract_ingredients caller id d
         = (CookSuccess, d') ->
         select_recipe_and_subtract_ingredients caller id d'
         = (AlreadyUsed, d'))
  /\ (forall r : Recipe,
         is_used r = true ->
         SavedRecipeDetailScreen.cookButtonShown r = false).
Proof.
  split; [|split].
  - intros u id d r Hfind Hused.
    unfold select_recipe_and_subtract_ingredients.
    unfold find_recipe in Hfind. now rewrite Hfind, Hused.
  - intros caller id d d'.
    unfold select_recipe_and_subtract_ingredients.
    destruct caller as [u|]; [|discriminate].
    destruct (find _ (recipes d)) as [r|] eqn:Hfind; [|discriminate].
    destruct (is_used r) eqn:Hused; [discriminate|].
    destruct (first_shortfall u (ingredients d) (recipe_ingredients r));
      [discriminate|].
    intros H. inversion H; subst d'; clear H.
    cbn [recipes with_recipes]. unfold mark_used at 1.
    rewrite find_map_same.
    + rewrite Hfind. simpl.
      apply find_some in Hfind. destruct Hfind as [_ Hm]. rewrite Hm.
      reflexivity.
    + intros x.
      destruct ((recipe_id x =? id) && (recipe_user x =? u))%bool eqn:E;
        simpl; exact E.
  - intros r Hr. unfold SavedRecipeDetailScreen.cookButtonShown.
    now rewrite Hr.
Qed.


(** Scenario B: the stock of flour goes from 500 g to 300 g, the sugar and
    the other user's flour stay, and the recipe is used. *)
Lemma scenario_B :
  let d' := snd (select_recipe_and_subtract_ingredients (Some 1) 10
                   (kitchen 500 false)) in
  map (fun row => Qeq_bool (ingredient_quantity row) (300 # 1))
    (ingredients d') = [true; false; false]
  /\ map (fun row => Qeq_bool (ingredient_quantity row) (200 # 1))
       (ingredients d') = [false; true; false]
  /\ map (fun row => Qeq_bool (ingredient_quantity row) (50 # 1))
       (ingredients d') = [false; false; true]
  /\ map is_used (recipes d') = [true].
Proof. vm_compute. repeat split. Qed.

Lemma cook_insufficient_witness :
  select_recipe_and_subtract_ingredients (Some 1) 10 (kitchen 100 false)
  = (InsufficientIngredient "Flour", kitchen 100 false).
Proof.
  assert (Hshort : exists item,
             In item (recipe_ingredients (pancakes false))
             /\ shortfall 1 (ingredients (kitchen 100 false)) item).
  { exists flour_item. split; [left; reflexivity|].
    apply shortfall_not_met, not_in_stock. vm_compute. reflexivity. }
  destruct (cook_insufficient 1 10 (kitchen 100 false) (pancakes false)
              eq_refl eq_refl Hshort)
    as (before & short & after & Hl & _ & _ & Hcall & _).
  destruct before as [|b before].
  - simpl in Hl. inversion Hl; subst short. exact Hcall.
  - destruct before; discriminate Hl.
Defined.

Lemma cook_already_used_witness :
  select_recipe_and_subtract_ingredients (Some 1) 10 (kitchen 500 true)
  = (AlreadyUsed, kitchen 500 true).
Proof.
  exact (proj1 cook_already_used 1 10 (kitchen 500 true) (pancakes true)
           eq_refl eq_refl).
Defined.

(** *** Uniqueness of ingredient names per user *)

Section Uniqueness.

Lemma NoDup_map_filter {A B : Type} (f : A -> B) (g : A -> bool)
    (l : list A) :
  NoDup (map f l) -> NoDup (map f (filter g l)).
Proof.
  induction l as [|a l IH]; simpl; intros H; [constructor|].
  inversion H as [|? ? Hnot Hrest]; subst.
  destruct (g a); simpl; [|now apply IH].
  constructor; [|now apply IH].
  intros Hin. apply Hnot.
  apply in_map_iff in Hin as (x & Hx & Hin).
  apply filter_In in Hin as [Hin _].
  apply in_map_iff. now exists x.
Qed.

Lemma existsb_false_In {A : Type} (f : A -> bool) (l : list A) :
  existsb f l = false -> forall x, In x l -> f x = false.
Proof.
  intros H x Hx. destruct (f x) eqn:E; [|reflexivity].
  rewrite <- H. symmetry. apply existsb_exists. now exists x.
Qed.

Lemma map_map_same {A B : Type} (f : A -> B) (g : A -> A) (l : list A) :
  (forall x, f (g x) = f x) -> map f (map g l) = map f l.
Proof. intros H. rewrite map_map. now apply map_ext. Qed.

Lemma name_free (u : UserId) (n : string) (except : option Z)
    (l : list Ingredient) :
  ingredient_name_taken u n except l = false ->
  forall row, In row l -> ingredient_key row = (u, n) ->
              except = Some (ingredient_id row).
Proof.
  unfold ingredient_name_taken. intros H row Hin Hkey.
  assert (Hrow := existsb_false_In _ _ H row Hin). cbv beta in Hrow.
  unfold ingredient_key in Hkey. inversion Hkey as [[Hu Hn]].
  rewrite Hu, Hn, Z.eqb_refl, String.eqb_refl in Hrow. simpl in Hrow.
  destruct except as [i|]; [|discriminate].
  apply negb_false_iff, Z.eqb_eq in Hrow. now subst.
Qed.

Lemma unique_same (d d' : DB) :
  ingredients d' = ingredients d -> next_id d <= next_id d' ->
  ingredients_unique d -> ingredients_unique d'.
Proof.
  unfold ingredients_unique. intros -> Hn (Hk & Hi & Hb).
  repeat split; auto. intros row Hrow. specialize (Hb row Hrow). lia.
Qed.

Lemma unique_map (g : Ingredient -> Ingredient) (d : DB) :
  (forall row, ingredient_key (g row) = ingredient_key row) ->
  (forall row, ingredient_id (g row) = ingredient_id row) ->
  ingredients_unique d ->
  ingredients_unique (with_ingredients (map g (ingredients d)) d).
Proof.
  unfold ingredients_unique. intros Hk Hi (Hkeys & Hids & Hb). simpl.
  rewrite (map_map_same _ g _ Hk), (map_map_same _ g _ Hi).
  repeat split; auto.
  intros row Hrow. apply in_map_iff in Hrow as (x & <- & Hx).
  rewrite Hi. now apply Hb.
Qed.

Lemma unique_cons (row : Ingredient) (d : DB) :
  ingredient_id row = next_id d ->
  ~ In (ingredient_key row) (map ingredient_key (ingredients d)) ->
  ingredients_unique d ->
  ingredients_unique (bump (with_ingredients (row :: ingredients d) d)).
Proof.
  unfold ingredients_unique. intros Hid Hkey (Hkeys & Hids & Hb). simpl.
  repeat split.
  - now constructor.
  - constructor; [|assumption].
    intros Hin. apply in_map_iff in Hin as (x & Hx & Hin).
    specialize (Hb x Hin). lia.
  - intros x [<-|Hx]; [lia|]. specialize (Hb x Hx). lia.
Qed.

Lemma insert_unique (caller : option UserId) (data : IngredientData)
    (d : DB) :
  ingredients_unique d ->
  ingredients_unique (snd (insert_ingredient caller data d)).
Proof.
  intros H. unfold insert_ingredient.
  destruct (negb (owns caller (d_user_id data))); [exact H|].
  destruct (numeric_column (d_quantity data)) as [q|]; [|exact H].
  destruct (ingredient_name_taken _ _ None (ingredients d)) eqn:E;
    [exact H|]. simpl.
  apply unique_cons; [reflexivity| |exact H].
  intros Hin. apply in_map_iff in Hin as (row & Hkey & Hrow).
  discriminate (name_free _ _ _ _ E row Hrow Hkey).
Qed.

Lemma upsert_unique (caller : option UserId) (n : string)
    (q : Js.Number) (unit_ : string) (d : DB) :
  ingredients_unique d ->
  ingredients_unique (snd (upsert_ingredient caller n q unit_ d)).
Proof.
  intros H. unfold upsert_ingredient.
  destruct caller as [u|]; [|exact H].
  destruct (numeric_column q) as [v|]; [|exact H].
  destruct (ingredient_name_taken u n None (ingredients d)) eqn:E; simpl.
  - apply unique_map; [| |exact H]; intros row;
      destruct ((ingredient_user row =? u)
                && String.eqb (ingredient_name row) n)%bool; reflexivity.
  - apply unique_cons; [reflexivity| |exact H].
    intros Hin. apply in_map_iff in Hin as (row & Hkey & Hrow).
    discriminate (name_free _ _ _ _ E row Hrow Hkey).
Qed.

Lemma delete_unique (caller : option UserId) (id : Z) (d : DB) :
  ingredients_unique d ->
  ingredients_unique (snd (delete_ingredient caller id d)).
Proof.
  unfold ingredients_unique, delete_ingredient. intros (Hk & Hi & Hb). simpl.
  repeat split; try now apply NoDup_map_filter.
  intros row Hrow. apply filter_In in Hrow. now apply Hb.
Qed.

Lemma update_keys (caller : option UserId) (id : Z) (u : UserId)
    (n : string) (mk : Ingredient -> Ingredient) (l : list Ingredient) :
  (forall row, ingredient_key (mk row) = (u, n)) ->
  owns caller u = true ->
  NoDup (map ingredient_id l) ->
  NoDup (map ingredient_key l) ->
  ingredient_name_taken u n (Some id) l = false ->
  NoDup (map ingredient_key
           (map (fun row => if (ingredient_id row =? id)
                               && owns caller (ingredient_user row)
                            then mk row else row) l)).
Proof.
  intros Hmk Hown Hids Hkeys Hfree.
  set (g := fun row => if (ingredient_id row =? id)
                          && owns caller (ingredient_user row)
                       then mk row else row).
  assert (Hkey : forall row, In row l ->
            ingredient_key (g row) = (u, n) ->
            ingredient_id row = id /\ ingredient_key (g row) = (u, n)).
  { intros row Hrow Hk. split; [|exact Hk]. unfold g in Hk.
    destruct (ingredient_id row =? id) eqn:Ei; [now apply Z.eqb_eq|].
    simpl in Hk.
    pose proof (name_free _ _ _ _ Hfree row Hrow Hk) as Hx.
    inversion Hx. now subst. }
  induction l as [|a l IH]; simpl; [constructor|].
  inversion Hids as [|? ? Hida Hidl]; subst.
  inversion Hkeys as [|? ? Hka Hkl]; subst.
  assert (Hfree' : ingredient_name_taken u n (Some id) l = false).
  { unfold ingredient_name_taken in *. simpl in Hfree.
    now apply orb_false_iff in Hfree. }
  constructor.
  - intros Hin. apply in_map_iff in Hin as (y & Hy & Hin).
    apply in_map_iff in Hin as (x & <- & Hx). fold (g x) in Hy.
    fold (g a) in Hy.
    assert (Hne : ingredient_id x <> ingredient_id a).
    { intros E. apply Hida. rewrite <- E. now apply in_map. }
    destruct ((ingredient_id a =? id) && owns caller (ingredient_user a))%bool
      eqn:Ta; destruct ((ingredient_id x =? id)
                        && owns caller (ingredient_user x))%bool eqn:Tx.
    + apply andb_true_iff in Ta as [Ta _], Tx as [Tx _].
      apply Z.eqb_eq in Ta, Tx. congruence.
    + unfold g in Hy. rewrite Ta, Tx in Hy. rewrite Hmk in Hy.
      assert (Hgx : ingredient_key (g x) = (u, n))
        by (unfold g; now rewrite Tx).
      destruct (Hkey x (or_intror Hx) Hgx) as [Hix _].
      apply andb_true_iff in Ta as [Ta _]. apply Z.eqb_eq in Ta. congruence.
    + unfold g in Hy. rewrite Ta, Tx in Hy. rewrite Hmk in Hy.
      assert (Hga : ingredient_key (g a) = (u, n))
        by (unfold g; now rewrite Ta).
      destruct (Hkey a (or_introl eq_refl) Hga) as [Hia _].
      apply andb_true_iff in Tx as [Tx _]. apply Z.eqb_eq in Tx. congruence.
    + unfold g in Hy. rewrite Ta, Tx in Hy.
      apply Hka. rewrite <- Hy. now apply in_map.
  - apply IH; auto. intros row Hrow. apply Hkey. now right.
Qed.

Lemma update_unique (caller : option UserId) (id : Z)
    (data : IngredientData) (d : DB) :
  ingredients_unique d ->
  ingredients_unique (snd (update_ingredient caller id data d)).
Proof.
  intros H. unfold update_ingredient.
  destruct (existsb _ (ingredients d)); [|exact H].
  destruct (negb (owns caller (d_user_id data))) eqn:Eo; [exact H|].
  destruct (numeric_column (d_quantity data)) as [q|]; [|exact H].
  destruct (ingredient_name_taken _ _ (Some id) (ingredients d)) eqn:E;
    [exact H|]. simpl.
  destruct H as (Hk & Hi & Hb). unfold ingredients_unique. simpl.
  apply negb_false_iff in Eo.
  repeat split.
  - apply (update_keys caller id (d_user_id data) (d_name data)); auto.
  - rewrite map_map_same; [assumption|].
    intros row. destruct (_ && _)%bool; reflexivity.
  - intros row Hrow. apply in_map_iff in Hrow as (x & <- & Hx).
    destruct (_ && _)%bool; simpl; now apply Hb.
Qed.

Lemma cook_unique (caller : option UserId) (id : Z) (d : DB) :
  ingredients_unique d ->
  ingredients_unique
    (snd (select_recipe_and_subtract_ingredients caller id d)).
Proof.
  intros H. unfold select_recipe_and_subtract_ingredients.
  destruct caller as [u|]; [|exact H].
  destruct (find _ (recipes d)) as [r|]; [|exact H].
  destruct (is_used r); [exact H|].
  destruct (first_shortfall u (ingredients d) (recipe_ingredients r));
    [exact H|]. simpl.
  rewrite subtract_all_map.
  apply (unique_same (with_ingredients
                        (map (cooked_row u (recipe_ingredients r))
                           (ingredients d)) d)); try reflexivity.
  apply unique_map; [| |exact H]; intros row; unfold cooked_row;
    destruct (ingredient_user row =? u); reflexivity.
Qed.

End Uniqueness.

(** *** Properties every handler keeps *)

Section Preservation.

(** A property [Q] of the store and of the trace; [Preq] picks the
    requests under which it is stable. *)
Variable Q : DB -> list Event -> Prop.
Variable Preq : Request -> Prop.

Hypothesis Preq_keeps : forall r, keeps_flag r -> Preq r.
Hypothesis Preq_leaves : forall r, leaves_profiles r -> Preq r.
Hypothesis Q_call :
  forall d t r err, Preq r -> Q d t -> Q d (t ++ [Called r err]).
Hypothesis Q_event :
  forall d t e,
    match e with Called _ _ => False | _ => True end ->
    Q d t -> Q d (t ++ [e]).
Hypothesis Q_exec :
  forall caller r d t, Preq r -> Q d t -> Q (snd (exec caller r d)) t.
Hypothesis Q_sign_up :
  forall email password name d t,
    Q d t -> Q (snd (sign_up email password name d)) t.

Let holds (w : World) : Prop := Q (db w) (trace w).

Lemma preserves_ret {A} (a : A) : preserves holds (ret a).
Proof. intros w H. exact H. Qed.

Lemma preserves_throw {A} (e : Exn) : preserves holds (@throw A e).
Proof. intros w H. exact H. Qed.

Lemma preserves_bind {A B} (m : App A) (k : A -> App B) :
  preserves holds m -> (forall a, preserves holds (k a)) ->
  preserves holds (bind m k).
Proof.
  intros Hm Hk w H. unfold bind. specialize (Hm w H).
  destruct (m w) as [[a|e] w']; simpl in *; [now apply Hk|assumption].
Qed.

Lemma preserves_try {A} (body : App A) (handler : Exn -> App A)
    (fin : App unit) :
  preserves holds body -> (forall e, preserves holds (handler e)) ->
  preserves holds fin ->
  preserves holds (try_catch_finally body handler fin).
Proof.
  intros Hb Hh Hf w H. unfold try_catch_finally. specialize (Hb w H).
  destruct (body w) as [[a|e] w1]; simpl in *.
  - now apply Hf.
  - specialize (Hh e w1 Hb). destruct (handler e w1) as [r2 w2].
    simpl in *. now apply Hf.
Qed.

Lemma preserves_log (e : Event) :
  match e with Called _ _ => False | _ => True end ->
  preserves holds (log e).
Proof. intros He w H. unfold log, holds; simpl. now apply Q_event. Qed.

Lemma preserves_call (r : Request) :
  Preq r -> preserves holds (call r).
Proof.
  intros Hr w H. unfold call, holds in *.
  destruct (next_fault w) as [[e|msg]|]; simpl.
  - apply Q_call; auto.
  - assumption.
  - pose proof (Q_exec (session w) r (db w) (trace w) Hr H).
    destruct (exec (session w) r (db w)) as [resp d']. simpl in *.
    apply Q_call; auto.
Qed.

Lemma preserves_getUser : preserves holds getUser.
Proof. intros w H. exact H. Qed.

Lemma preserves_signIn (email password : string) :
  preserves holds (signInWithPassword email password).
Proof.
  intros w H. unfold signInWithPassword, holds in *.
  destruct (next_fault w) as [[e|msg]|]; simpl;
    [now apply Q_event|assumption|].
  destruct (sign_in email password (db w)); simpl; now apply Q_event.
Qed.

Lemma preserves_signUp (email password name : string) :
  preserves holds (signUp email password name).
Proof.
  intros w H. unfold signUp, holds in *.
  destruct (next_fault w) as [[e|msg]|]; simpl;
    [now apply Q_event|assumption|].
  pose proof (Q_sign_up email password name (db w) (trace w) H).
  destruct (sign_up email password name (db w)) as [err d']. simpl in *.
  now apply Q_event.
Qed.

Lemma preserves_signOut : preserves holds signOut.
Proof.
  intros w H. unfold signOut, holds in *.
  destruct (next_fault w) as [[e|msg]|]; simpl;
    [now apply Q_event|assumption|now apply Q_event].
Qed.

Ltac preserve_by side :=
  cbv zeta;
  unfold alert, console_error, router_push, router_replace, set_state,
    throw_error, Program.when;
  repeat first
    [ apply preserves_ret
    | apply preserves_throw
    | apply preserves_getUser
    | apply preserves_signIn
    | apply preserves_signUp
    | apply preserves_signOut
    | apply preserves_log; exact I
    | apply preserves_call; side
    | apply preserves_bind; [|intros ?]
    | apply preserves_try; [|intros ?|]
    | match goal with
      | |- preserves _ (match ?x with _ => _ end) => destruct x
      | |- preserves _ (if ?b then _ else _) => destruct b
      end ].

Ltac preserve := preserve_by ltac:(apply Preq_keeps; exact I).
Ltac preserve_profiles := preserve_by ltac:(apply Preq_leaves; exact I).

(** Every handler of the program keeps a property that is stable under
    the requests other than a write of [onboarding_complete = false]. *)
Lemma handler_preserves (parseFloat : string -> Js.Number)
    (a : Program.Action) :
  preserves holds (Program.handler parseFloat a).
Proof.
  destruct a; unfold Program.handler.
  - intros w H. exact H.
  - unfold Login.handleLogin. preserve.
  - unfold Register.handleRegister, Register.onPressGoToLogin. preserve.
  - unfold Debug.handleLogout. preserve.
  - unfold OnboardingIngredients.handleSaveIngredient. preserve.
  - unfold OnboardingIngredients.handleDeleteIngredient,
      OnboardingIngredients.onPressDelete. preserve.
  - unfold OnboardingUtensils.handleSaveUtensil. preserve.
  - unfold OnboardingUtensils.handleDeleteUtensil,
      OnboardingUtensils.onPressDelete. preserve.
  - unfold OnboardingTastes.loadPreferences. preserve.
  - unfold OnboardingTastes.handleComplete. preserve.
  - unfold CreateRecipeScreen.handleSavePreferences. preserve.
  - unfold CreateRecipeScreen.handleSaveRecipe, CreateRecipeScreen.onPressOK.
    preserve.
  - unfold RecipesScreen.handleSaveRecipe, RecipesScreen.onPressOK. preserve.
  - unfold RecipeDetailScreen.handleSaveRecipe, RecipeDetailScreen.onPressOK.
    preserve.
  - unfold DashboardScreen.handleDeleteRecipe, DashboardScreen.onPressDelete.
    preserve.
  - unfold SavedRecipeDetailScreen.handleCookRecipe,
      SavedRecipeDetailScreen.onPressCook,
      SavedRecipeDetailScreen.onCookResponse. preserve.
  - unfold Docs.addOrUpdateIngredient. preserve.
  - unfold Docs.cookRecipe. preserve.
Qed.

(** Every handler but the two that mark the onboarding complete keeps a
    property that is stable under the requests other than a write to
    [profiles]. *)
Lemma other_handlers_preserve (parseFloat : string -> Js.Number)
    (a : Program.Action) :
  match a with
  | Program.DoSaveRecipeOnboarding _ _ | Program.DoSaveRecipeDetail _ _ =>
      True
  | _ => preserves holds (Program.handler parseFloat a)
  end.
Proof.
  destruct a; unfold Program.handler; try exact I.
  - intros w H. exact H.
  - unfold Login.handleLogin. preserve_profiles.
  - unfold Register.handleRegister, Register.onPressGoToLogin.
    preserve_profiles.
  - unfold Debug.handleLogout. preserve_profiles.
  - unfold OnboardingIngredients.handleSaveIngredient. preserve_profiles.
  - unfold OnboardingIngredients.handleDeleteIngredient,
      OnboardingIngredients.onPressDelete. preserve_profiles.
  - unfold OnboardingUtensils.handleSaveUtensil. preserve_profiles.
  - unfold OnboardingUtensils.handleDeleteUtensil,
      OnboardingUtensils.onPressDelete. preserve_profiles.
  - unfold OnboardingTastes.loadPreferences. preserve_profiles.
  - unfold OnboardingTastes.handleComplete. preserve_profiles.
  - unfold CreateRecipeScreen.handleSavePreferences. preserve_profiles.
  - unfold CreateRecipeScreen.handleSaveRecipe, CreateRecipeScreen.onPressOK.
    preserve_profiles.
  - unfold DashboardScreen.handleDeleteRecipe, DashboardScreen.onPressDelete.
    preserve_profiles.
  - unfold SavedRecipeDetailScreen.handleCookRecipe,
      SavedRecipeDetailScreen.onPressCook,
      SavedRecipeDetailScreen.onCookResponse. preserve_profiles.
  - unfold Docs.addOrUpdateIngredient. preserve_profiles.
  - unfold Docs.cookRecipe. preserve_profiles.
Qed.

Lemma step_preserves (parseFloat : string -> Js.Number)
    (a : Program.Action) (w : World) :
  holds w -> holds (Program.step parseFloat a w).
Proof. apply handler_preserves. Qed.

Lemma run_preserves (parseFloat : string -> Js.Number)
    (actions : list Program.Action) (w : World) :
  holds w -> holds (Program.run parseFloat actions w).
Proof.
  unfold Program.run. revert w.
  induction actions as [|a actions IH]; intros w H; simpl; [exact H|].
  apply IH. now apply step_preserves.
Qed.

End Preservation.

Section IngredientWrites.

Lemma exec_unique (caller : option UserId) (r : Request) (d : DB) :
  ingredients_unique d -> ingredients_unique (snd (exec caller r d)).
Proof.
  intros H. destruct r; simpl.
  - destruct (select_profile caller id d); exact H.
  - exact H.
  - now apply insert_unique.
  - now apply update_unique.
  - now apply delete_unique.
  - now apply upsert_unique.
  - unfold insert_utensil.
    destruct (negb _); [exact H|]. destruct (utensil_name_taken _ _ _ _);
      [exact H|]. simpl. apply (unique_same d); simpl; auto; lia.
  - unfold update_utensil.
    destruct (existsb _ _); [|exact H]. destruct (negb _); [exact H|].
    destruct (utensil_name_taken _ _ _ _); exact H.
  - exact H.
  - unfold upsert_preferences.
    destruct (negb _); [exact H|]. destruct (negb _); exact H.
  - destruct (select_preferences caller id d); exact H.
  - unfold insert_recipe.
    destruct (negb _); [exact H|].
    destruct (integer_column _) as [?|]; [|exact H].
    destruct (integer_column _) as [?|]; [|exact H].
    destruct (integer_column _) as [?|]; [|exact H].
    simpl. apply (unique_same d); simpl; auto; lia.
  - exact H.
  - pose proof (cook_unique caller recipe_id_to_use d H) as Hc.
    destruct (select_recipe_and_subtract_ingredients caller recipe_id_to_use d).
    exact Hc.
Qed.

Lemma sign_up_unique (email password name : string) (d : DB) :
  ingredients_unique d ->
  ingredients_unique (snd (sign_up email password name d)).
Proof.
  intros H. unfold sign_up. destruct (existsb _ _); [exact H|].
  simpl. apply (unique_same d); simpl; auto; lia.
Qed.

Lemma empty_unique : ingredients_unique Store.empty.
Proof. repeat split; simpl; try constructor. intros row []. Qed.

(** No sequence of actions leads to a store where a user has two
    ingredient rows with the same name. *)
Lemma reachable_unique (parseFloat : string -> Js.Number)
    (actions : list Program.Action) :
  ingredients_unique (db (Program.run parseFloat actions Program.initial)).
Proof.
  apply (run_preserves (fun d _ => ingredients_unique d) (fun _ => True));
    auto.
  - intros caller r d _ _. apply exec_unique.
  - intros email password name d _. apply sign_up_unique.
  - exact empty_unique.
Qed.

Lemma NoDup_map_eq {A B : Type} (f : A -> B) (l : list A) (x y : A) :
  NoDup (map f l) -> In x l -> In y l -> f x = f y -> x = y.
Proof.
  induction l as [|a l IH]; simpl; intros Hnd Hx Hy E; [destruct Hx|].
  inversion Hnd as [|? ? Hnot Hrest]; subst.
  destruct Hx as [->|Hx], Hy as [->|Hy]; auto.
  - exfalso. apply Hnot. rewrite E. now apply in_map.
  - exfalso. apply Hnot. rewrite <- E. now apply in_map.
Qed.

End IngredientWrites.

(** C6 (as amended). No state is reachable in which one user has two
    ingredient rows with the same name. A second write with the same
    (user, name) through the add form is an insert: the store refuses it
    with the duplicate-key code, the existing row and the row count stay as
    they were, and the user is told the ingredient is a duplicate. A second
    write through the documented upsert updates the existing row in place,
    and the row count does not change. *)
Theorem ingredient_name_unique :
  (forall (parseFloat : string -> Js.Number) (actions : list Program.Action)
          (row1 row2 : Ingredient),
      let d := db (Program.run parseFloat actions Program.initial) in
      In row1 (ingredients d) -> In row2 (ingredients d) ->
      ingredient_user row1 = ingredient_user row2 ->
      ingredient_name row1 = ingredient_name row2 ->
      row1 = row2)
  /\ (forall (parseFloat : string -> Js.Number)
             (formData : OnboardingIngredients.FormData) (w : World)
             (u : UserId) (q : Qc),
         session w = Some u ->
         next_fault w = None ->
         Js.truthy (OnboardingIngredients.form_name formData) = true ->
         Js.truthy (OnboardingIngredients.form_quantity formData) = true ->
         Js.truthy (OnboardingIngredients.form_unit formData) = true ->
         Js.isNaN (parseFloat (OnboardingIngredients.form_quantity formData))
         = false ->
         Js.leZero (parseFloat (OnboardingIngredients.form_quantity formData))
         = false ->
         numeric_column
           (parseFloat (OnboardingIngredients.form_quantity formData))
         = Some q ->
         ingredient_name_taken u
           (Js.trim (OnboardingIngredients.form_name formData)) None
           (ingredients (db w)) = true ->
         let w' := snd (OnboardingIngredients.handleSaveIngredient parseFloat
                          formData None w) in
         db w' = db w
         /\ trace w'
            = (trace w
               ++ [SetState "loading" "true";
                   Called
                     (IngredientsInsert
                        {| d_name :=
                             Js.trim (OnboardingIngredients.form_name formData);
                           d_quantity :=
                             parseFloat
                               (OnboardingIngredients.form_quantity formData);
                           d_unit :=
                             Js.trim (OnboardingIngredients.form_unit formData);
                           d_user_id := u |})
                     (Some unique_violation);
                   ConsoleError "Supabase error:";
                   Alert "Duplicate Ingredient"
                     "You already have this ingredient in your inventory. Please use a different name or edit the existing one.";
                   SetState "loading" "false"])%list)
  /\ (forall (w : World) (u : UserId) (n unit_ : string)
             (quantity : Js.Number) (q : Qc),
         session w = Some u ->
         next_fault w = None ->
         numeric_column quantity = Some q ->
         ingredient_name_taken u n None (ingredients (db w)) = true ->
         let l := ingredients (db w) in
         let l' := ingredients
                     (db (snd (Docs.addOrUpdateIngredient n quantity unit_ w))) in
         List.length l' = List.length l
         /\ map ingredient_id l' = map ingredient_id l
         /\ map ingredient_key l' = map ingredient_key l
         /\ (forall row, In row l' ->
                ingredient_key row = (u, n) ->
                ingredient_quantity row = q /\ ingredient_unit row = unit_)
         /\ (forall row, In row l' ->
                ingredient_key row <> (u, n) -> In row l)).
Proof.
  split; [|split].
  - intros parseFloat actions row1 row2 d H1 H2 Hu Hn.
    destruct (reachable_unique parseFloat actions) as (Hk & _ & _).
    apply (NoDup_map_eq ingredient_key (ingredients d)); auto.
    unfold ingredient_key. now rewrite Hu, Hn.
  - intros parseFloat formData w u q Hs Hf Hn Hq Hu Hnan Hle Hnum Htaken.
    cbv zeta. unfold OnboardingIngredients.handleSaveIngredient.
    rewrite Hn, Hq, Hu, Hnan, Hle. cbn [negb orb].
    unfold_app. rewrite Hs. unfold_app. rewrite Hf.
    unfold exec, write_response, insert_ingredient.
    cbn [d_user_id d_quantity d_name owns]. rewrite Z.eqb_refl.
    cbn [negb]. rewrite Hnum, Htaken. cbn. split; [reflexivity|trace_eq].
  - intros w u n unit_ quantity q Hs Hf Hnum Htaken. cbv zeta.
    unfold Docs.addOrUpdateIngredient. unfold_app. rewrite Hf, Hs.
    unfold exec, write_response, upsert_ingredient.
    rewrite Hnum, Htaken. cbn.
    set (g := fun row : Ingredient =>
                if (ingredient_user row =? u)
                   && String.eqb (ingredient_name row) n
                then {| ingredient_id := ingredient_id row;
                        ingredient_user := ingredient_user row;
                        ingredient_name := ingredient_name row;
                        ingredient_quantity := q;
                        ingredient_unit := unit_ |}
                else row).
    assert (Hg : forall row,
               ingredient_id (g row) = ingredient_id row
               /\ ingredient_key (g row) = ingredient_key row).
    { intros row. unfold g. destruct (_ && _)%bool; split; reflexivity. }
    split; [apply length_map|].
    split; [apply map_map_same; intros row; apply Hg|].
    split; [apply map_map_same; intros row; apply Hg|].
    split.
    + intros row Hrow Hkey. apply in_map_iff in Hrow as (x & <- & Hx).
      destruct (Hg x) as [_ Hkx]. rewrite Hkx in Hkey.
      unfold ingredient_key in Hkey. inversion Hkey as [[Eu En]].
      unfold g. rewrite Eu, En, Z.eqb_refl, String.eqb_refl.
      split; reflexivity.
    + intros row Hrow Hkey. apply in_map_iff in Hrow as (x & <- & Hx).
      destruct (Hg x) as [_ Hkx]. rewrite Hkx in Hkey.
      unfold g.
      destruct (Z.eqb_spec (ingredient_user x) u) as [Eu|Eu];
        destruct (String.eqb_spec (ingredient_name x) n) as [En|En];
        simpl; try assumption.
      exfalso. apply Hkey. unfold ingredient_key. now rewrite Eu, En.
Qed.

Lemma ingredient_name_unique_witness :
  let w1 := Program.step parseDigits
              (Program.DoSaveIngredient (flour_form "500" "g") None)
              empty_kitchen in
  db (snd (OnboardingIngredients.handleSaveIngredient parseDigits
             (flour_form "200" "kg") None
             (Program.step parseDigits (Program.Inject []) w1)))
  = db w1.
Proof.
  intros w1.
  refine (proj1 (proj1 (proj2 ingredient_name_unique) parseDigits
                   (flour_form "200" "kg")
                   (Program.step parseDigits (Program.Inject []) w1)
                   1
                   (match numeric_column (parseDigits "200") with
                    | Some q => q
                    | None => Q2Qc 0
                    end)
                   eq_refl eq_refl eq_refl eq_refl eq_refl eq_refl eq_refl
                   eq_refl eq_refl)).
Defined.

(** The add form does not update: a second write of 'Flour' leaves the
    existing row with its 500 g, and the write is refused as a duplicate. *)
Lemma second_add_is_refused :
  let w1 := Program.step parseDigits
              (Program.DoSaveIngredient (flour_form "500" "g") None)
              empty_kitchen in
  let w2 := Program.step parseDigits
              (Program.DoSaveIngredient (flour_form "200" "kg") None) w1 in
  map (fun row => (ingredient_name row,
                   Qeq_bool (ingredient_quantity row) (500 # 1),
                   Qeq_bool (ingredient_quantity row) (200 # 1),
                   ingredient_unit row)) (ingredients (db w2))
  = [("Flour", true, false, "g")]
  /\ ingredients (db w2) = ingredients (db w1)
  /\ In (Called
           (IngredientsInsert
              {| d_name := "Flour"; d_quantity := Js.of_Z 200;
                 d_unit := "kg"; d_user_id := 1 |})
           (Some unique_violation)) (trace w2)
  /\ In (Alert "Duplicate Ingredient"
           "You already have this ingredient in your inventory. Please use a different name or edit the existing one.")
       (trace w2).
Proof.
  vm_compute. repeat split; tauto.
Qed.

(** *** The onboarding flag *)

Section OnboardingFlag.

Lemma existsb_map_mono {A : Type} (f : A -> bool) (g : A -> A)
    (l : list A) :
  (forall x, f x = true -> f (g x) = true) ->
  existsb f l = true -> existsb f (map g l) = true.
Proof.
  intros Hg H. apply existsb_exists in H as (x & Hx & Hf).
  apply existsb_exists. exists (g x). split; [now apply in_map|auto].
Qed.

Lemma exec_profiles_same (caller : option UserId) (r : Request) (d : DB) :
  (forall id b, r <> ProfilesUpdate id b) ->
  profiles (snd (exec caller r d)) = profiles d.
Proof.
  intros Hr. destruct r; simpl; try reflexivity.
  - now destruct (select_profile caller id d).
  - now elim (Hr id flag).
  - unfold insert_ingredient. destruct (negb _); [reflexivity|].
    destruct (numeric_column _); [|reflexivity].
    now destruct (ingredient_name_taken _ _ _ _).
  - unfold update_ingredient. destruct (existsb _ _); [|reflexivity].
    destruct (negb _); [reflexivity|].
    destruct (numeric_column _); [|reflexivity].
    now destruct (ingredient_name_taken _ _ _ _).
  - unfold upsert_ingredient. destruct caller; [|reflexivity].
    destruct (numeric_column _); [|reflexivity].
    now destruct (ingredient_name_taken _ _ _ _).
  - unfold insert_utensil. destruct (negb _); [reflexivity|].
    now destruct (utensil_name_taken _ _ _ _).
  - unfold update_utensil. destruct (existsb _ _); [|reflexivity].
    destruct (negb _); [reflexivity|].
    now destruct (utensil_name_taken _ _ _ _).
  - unfold upsert_preferences. destruct (negb _); [reflexivity|].
    now destruct (negb _).
  - now destruct (select_preferences caller id d).
  - unfold insert_recipe. destruct (negb _); [reflexivity|].
    destruct (integer_column _); [|reflexivity].
    destruct (integer_column _); [|reflexivity].
    now destruct (integer_column _).
  - unfold select_recipe_and_subtract_ingredients.
    destruct caller as [u|]; [|reflexivity].
    destruct (find _ (recipes d)) as [r|]; [|reflexivity].
    destruct (is_used r); [reflexivity|].
    now destruct (first_shortfall _ _ _).
Qed.

Lemma exec_flagged (u : UserId) (caller : option UserId) (r : Request)
    (d : DB) :
  keeps_flag r -> flagged u d = true ->
  flagged u (snd (exec caller r d)) = true.
Proof.
  intros Hr H. unfold flagged in *.
  destruct r as [| id [|] | | | | | | | | | | | |];
    try (rewrite exec_profiles_same; [exact H|discriminate]).
  - simpl. apply existsb_map_mono; [|exact H].
    intros p Hp. destruct ((profile_id p =? id) && owns caller (profile_id p))%bool;
      [|exact Hp].
    simpl. apply andb_true_iff in Hp as [Hp _]. now rewrite Hp.
  - destruct Hr.
Qed.

Lemma sign_up_flagged (u : UserId) (email password name : string) (d : DB) :
  flagged u d = true -> flagged u (snd (sign_up email password name d)) = true.
Proof.
  intros H. unfold sign_up. destruct (existsb _ (auth_users d)); [exact H|].
  unfold flagged in *. simpl. rewrite H. apply orb_true_r.
Qed.

Lemma mark_complete (u : UserId) (l : list Profile) :
  In u (map profile_id l) ->
  existsb (fun p => (profile_id p =? u) && onboarding_complete p)
    (map (fun p => if (profile_id p =? u) && owns (Some u) (profile_id p)
                   then set_onboarding_complete true p else p) l) = true.
Proof.
  intros H. apply in_map_iff in H as (p & Hp & Hin).
  apply existsb_exists.
  exists (set_onboarding_complete true p). split.
  - apply in_map_iff. exists p. split; [|assumption].
    unfold owns. rewrite Hp, Z.eqb_refl. reflexivity.
  - simpl. now rewrite Hp, Z.eqb_refl.
Qed.

Lemma insert_recipe_profiles (caller : option UserId) (data : RecipeData)
    (d : DB) :
  profiles (snd (insert_recipe caller data d)) = profiles d.
Proof.
  apply (exec_profiles_same caller (RecipesInsert data) d). discriminate.
Qed.

End OnboardingFlag.



(* ================================================================== *)
(** ** Further properties of the screens *)

Import MoreSpec.

(** *** The chips of the preference screen *)

Section Chips.

Lemma includes_In (l : list string) (x : string) :
  Js.includes l x = true <-> In x l.
Proof.
  unfold Js.includes. rewrite existsb_exists. split.
  - intros (y & Hy & E). apply String.eqb_eq in E. now subst.
  - intros H. exists x. split; [assumption|apply String.eqb_refl].
Qed.

Lemma includes_filter (l : list string) (d x : string) :
  Js.includes (filter (fun y => negb (String.eqb y d)) l) x
  = negb (String.eqb x d) && Js.includes l x.
Proof.
  destruct (Js.includes (filter _ l) x) eqn:E.
  - apply includes_In, filter_In in E as [Hin Hne].
    rewrite Hne. symmetry. now apply includes_In.
  - destruct (String.eqb_spec x d) as [->|Hne]; [reflexivity|]. simpl.
    destruct (Js.includes l x) eqn:E'; [|reflexivity].
    assert (H : Js.includes (filter (fun y => negb (String.eqb y d)) l) x
                = true).
    { apply includes_In, filter_In.
      split; [now apply includes_In|].
      now apply negb_true_iff, String.eqb_neq. }
    congruence.
Qed.

Lemma includes_snoc (l : list string) (d x : string) :
  Js.includes (l ++ [d]) x = Js.includes l x || String.eqb x d.
Proof.
  unfold Js.includes. rewrite existsb_app. simpl. now rewrite orb_false_r.
Qed.

Lemma filter_absent (l : list string) (d : string) :
  ~ In d l -> filter (fun y => negb (String.eqb y d)) l = l.
Proof.
  induction l as [|a l IH]; simpl; intros H; [reflexivity|].
  destruct (String.eqb_spec a d) as [->|Hne]; [tauto|]. simpl.
  f_equal. apply IH. tauto.
Qed.

Lemma filter_snoc_absent (l : list string) (d : string) :
  ~ In d l -> filter (fun y => negb (String.eqb y d)) (l ++ [d]) = l.
Proof.
  intros H. rewrite filter_app, (filter_absent l d H). simpl.
  rewrite String.eqb_refl. simpl. apply app_nil_r.
Qed.

Lemma NoDup_snoc (l : list string) (d : string) :
  NoDup l -> ~ In d l -> NoDup (l ++ [d]).
Proof.
  intros Hl Hd. apply NoDup_app; [assumption|repeat constructor; intros []|].
  intros x Hx [<-|[]]. contradiction.
Qed.

Lemma toggled_includes (d x : string) (l : list string) :
  Js.includes (toggled d l) x
  = if String.eqb x d then negb (Js.includes l d) else Js.includes l x.
Proof.
  unfold toggled. destruct (Js.includes l d) eqn:E.
  - rewrite includes_filter. now destruct (String.eqb x d).
  - rewrite includes_snoc.
    destruct (String.eqb_spec x d) as [->|Hne].
    + now rewrite E.
    + now rewrite orb_false_r.
Qed.

Lemma toggled_twice (d : string) (l : list string) :
  ~ In d l -> toggled d (toggled d l) = l.
Proof.
  intros H. unfold toggled at 2.
  destruct (Js.includes l d) eqn:E; [now apply includes_In in E|].
  unfold toggled. rewrite includes_snoc, String.eqb_refl, orb_true_r.
  now apply filter_snoc_absent.
Qed.

Lemma toggled_NoDup (d : string) (l : list string) :
  NoDup l -> NoDup (toggled d l).
Proof.
  intros H. unfold toggled. destruct (Js.includes l d) eqn:E.
  - now apply NoDup_filter.
  - apply NoDup_snoc; [assumption|].
    intros Hin. apply includes_In in Hin. congruence.
Qed.

End Chips.

(** X1. Pressing a diet chip flips the membership of that diet and of no
    other, and leaves the rest of the state alone; pressing it twice
    restores the state exactly when the diet was not selected (a selected
    diet comes back at the end of the list). The cuisine chips behave the
    same way. *)
Theorem toggle_chip (d : string) (p : OnboardingTastes.Preferences) :
  (forall x,
      Js.includes (OnboardingTastes.diets (OnboardingTastes.toggleDiet d p)) x
      = if String.eqb x d
        then negb (Js.includes (OnboardingTastes.diets p) d)
        else Js.includes (OnboardingTastes.diets p) x)
  /\ OnboardingTastes.st_tastes (OnboardingTastes.toggleDiet d p)
     = OnboardingTastes.st_tastes p
  /\ (~ In d (OnboardingTastes.diets p) ->
      OnboardingTastes.toggleDiet d (OnboardingTastes.toggleDiet d p) = p)
  /\ (In d (OnboardingTastes.diets p) ->
      OnboardingTastes.diets
        (OnboardingTastes.toggleDiet d (OnboardingTastes.toggleDiet d p))
      = (filter (fun y => negb (String.eqb y d)) (OnboardingTastes.diets p)
         ++ [d])%list)
  /\ (forall x,
         Js.includes
           (OnboardingTastes.st_tastes
              (OnboardingTastesControls.toggleTaste d p)) x
         = if String.eqb x d
           then negb (Js.includes (OnboardingTastes.st_tastes p) d)
           else Js.includes (OnboardingTastes.st_tastes p) x)
  /\ OnboardingTastes.diets (OnboardingTastesControls.toggleTaste d p)
     = OnboardingTastes.diets p
  /\ (~ In d (OnboardingTastes.st_tastes p) ->
      OnboardingTastesControls.toggleTaste d
        (OnboardingTastesControls.toggleTaste d p) = p).
Proof.
  split; [|split; [|split; [|split; [|split; [|split]]]]].
  - intros x. apply (toggled_includes d x).
  - reflexivity.
  - intros H. unfold OnboardingTastes.toggleDiet at 1. simpl.
    fold (toggled d (OnboardingTastes.diets p)).
    fold (toggled d (toggled d (OnboardingTastes.diets p))).
    rewrite (toggled_twice d _ H). now destruct p.
  - intros H. apply includes_In in H. simpl. rewrite H.
    rewrite includes_filter, String.eqb_refl. reflexivity.
  - intros x. apply (toggled_includes d x).
  - reflexivity.
  - intros H. unfold OnboardingTastesControls.toggleTaste at 1. simpl.
    fold (toggled d (OnboardingTastes.st_tastes p)).
    fold (toggled d (toggled d (OnboardingTastes.st_tastes p))).
    rewrite (toggled_twice d _ H). now destruct p.
Qed.

Lemma toggle_chip_witness :
  OnboardingTastes.toggleDiet "Keto"
    (OnboardingTastes.toggleDiet "Keto"
       (OnboardingTastes.toggleDiet "Vegan"
          OnboardingTastes.initialPreferences))
  = OnboardingTastes.toggleDiet "Vegan" OnboardingTastes.initialPreferences.
Proof.
  refine (proj1 (proj2 (proj2
            (toggle_chip "Keto"
               (OnboardingTastes.toggleDiet "Vegan"
                  OnboardingTastes.initialPreferences)))) _).
  simpl. intros [H|[]]. discriminate H.
Defined.

Section ReachedStates.

Lemma options_truthy :
  Forall (fun d => Js.truthy d = true) OnboardingTastesControls.TASTE_OPTIONS.
Proof. repeat constructor. Qed.

Lemma toggled_truthy (d : string) (l : list string) :
  Js.truthy d = true ->
  Forall (fun x => Js.truthy x = true) l ->
  Forall (fun x => Js.truthy x = true) (toggled d l).
Proof.
  intros Hd Hl. unfold toggled. destruct (Js.includes l d).
  - now apply filter_keeps_Forall.
  - apply Forall_app. split; [assumption|now repeat constructor].
Qed.

Lemma added_NoDup (text : string) (l : list string) :
  NoDup l ->
  NoDup (if Js.truthy (Js.trim text) && negb (Js.includes l (Js.trim text))
         then l ++ [Js.trim text] else l)%list.
Proof.
  intros H. destruct (Js.truthy (Js.trim text)); simpl; [|assumption].
  destruct (Js.includes l (Js.trim text)) eqn:E; simpl; [assumption|].
  apply NoDup_snoc; [assumption|].
  intros Hin. apply includes_In in Hin. congruence.
Qed.

Lemma added_truthy (text : string) (l : list string) :
  Forall (fun x => Js.truthy x = true) l ->
  Forall (fun x => Js.truthy x = true)
    (if Js.truthy (Js.trim text) && negb (Js.includes l (Js.trim text))
     then l ++ [Js.trim text] else l)%list.
Proof.
  intros H. destruct (Js.truthy (Js.trim text)) eqn:E; simpl; [|assumption].
  destruct (Js.includes l (Js.trim text)); simpl; [assumption|].
  apply Forall_app. split; [assumption|now repeat constructor].
Qed.

(** The three selectors hold nothing but what they offer. *)
Lemma reached_selectors (p : OnboardingTastes.Preferences) :
  OnboardingTastesControls.reached p ->
  (OnboardingTastes.st_preferred_difficulty p = EmptyString
   \/ In (OnboardingTastes.st_preferred_difficulty p)
        OnboardingTastesControls.DIFFICULTY_OPTIONS)
  /\ In (OnboardingTastes.st_preferred_time_minutes p)
       OnboardingTastesControls.TIME_OPTIONS
  /\ In (OnboardingTastes.st_preferred_portions p)
       OnboardingTastesControls.PORTION_OPTIONS.
Proof.
  induction 1 as [|c p Hp (Hdf & Htm & Hpo) Hc].
  - simpl. tauto.
  - destruct c; simpl in Hc |- *; auto.
    + unfold OnboardingTastes.addCustomDiet.
      destruct (_ && _)%bool; simpl; auto.
    + unfold OnboardingTastesControls.addCustomCuisine.
      destruct (_ && _)%bool; simpl; auto.
Qed.

End ReachedStates.

(** X2. Every state the preference screen reaches from its initial state
    through its controls lists each diet and each cuisine once, lists no
    empty name, has a difficulty that is unset or one of the three offered,
    and has a time and a portion count among the offered ones. *)
Theorem reached_state_invariants (p : OnboardingTastes.Preferences) :
  OnboardingTastesControls.reached p ->
  NoDup (OnboardingTastes.diets p)
  /\ NoDup (OnboardingTastes.st_tastes p)
  /\ Forall (fun d => Js.truthy d = true) (OnboardingTastes.diets p)
  /\ Forall (fun t => Js.truthy t = true) (OnboardingTastes.st_tastes p)
  /\ (OnboardingTastes.st_preferred_difficulty p = EmptyString
      \/ In (OnboardingTastes.st_preferred_difficulty p)
           OnboardingTastesControls.DIFFICULTY_OPTIONS)
  /\ In (OnboardingTastes.st_preferred_time_minutes p)
       OnboardingTastesControls.TIME_OPTIONS
  /\ In (OnboardingTastes.st_preferred_portions p)
       OnboardingTastesControls.PORTION_OPTIONS.
Proof.
  induction 1 as [|c p Hp (Hd & Ht & Hdt & Htt & Hdf & Htm & Hpo) Hc].
  - repeat split; try constructor; simpl; tauto.
  - destruct c; simpl in Hc |- *.
    + repeat split; auto.
      * now apply toggled_NoDup.
      * apply toggled_truthy; [|assumption].
        destruct Hc as [Hc|Hc].
        -- exact (proj1 (Forall_forall _ _) diet_options_truthy _ Hc).
        -- exact (proj1 (Forall_forall _ _) Hdt _ Hc).
    + unfold OnboardingTastes.addCustomDiet.
      pose proof (added_NoDup text _ Hd) as H1.
      pose proof (added_truthy text _ Hdt) as H2.
      destruct (Js.truthy (Js.trim text)
                && negb (Js.includes (OnboardingTastes.diets p) (Js.trim text)))%bool;
        repeat split; auto.
    + repeat split; auto.
      * now apply NoDup_filter.
      * now apply filter_keeps_Forall.
    + repeat split; auto.
      * now apply toggled_NoDup.
      * apply toggled_truthy; [|assumption].
        destruct Hc as [Hc|Hc].
        -- exact (proj1 (Forall_forall _ _) options_truthy _ Hc).
        -- exact (proj1 (Forall_forall _ _) Htt _ Hc).
    + unfold OnboardingTastesControls.addCustomCuisine.
      pose proof (added_NoDup text _ Ht) as H1.
      pose proof (added_truthy text _ Htt) as H2.
      destruct (Js.truthy (Js.trim text)
                && negb (Js.includes (OnboardingTastes.st_tastes p)
                           (Js.trim text)))%bool;
        repeat split; auto.
    + repeat split; auto.
      * now apply NoDup_filter.
      * now apply filter_keeps_Forall.
    + repeat split; auto.
    + repeat split; auto.
    + repeat split; auto.
Qed.

Lemma reached_state_invariants_witness :
  NoDup (OnboardingTastes.diets
           (OnboardingTastesControls.press
              (OnboardingTastesControls.AddCustomDiet " Halal ")
              (OnboardingTastesControls.press
                 (OnboardingTastesControls.ToggleDiet "Vegan")
                 OnboardingTastes.initialPreferences))).
Proof.
  refine (proj1 (reached_state_invariants _ _)).
  apply OnboardingTastesControls.reached_press.
  - apply OnboardingTastesControls.reached_press.
    + apply OnboardingTastesControls.reached_initial.
    + simpl. tauto.
  - exact I.
Defined.

(** X3. Adding a custom diet twice is the same as adding it once; a text
    that is empty after trimming adds nothing; and adding never drops a
    diet that was selected. The custom cuisines behave the same way. *)
Theorem add_custom_idempotent (text : string)
    (p : OnboardingTastes.Preferences) :
  OnboardingTastes.addCustomDiet text (OnboardingTastes.addCustomDiet text p)
  = OnboardingTastes.addCustomDiet text p
  /\ (Js.trim text = EmptyString ->
      OnboardingTastes.addCustomDiet text p = p)
  /\ (forall d, In d (OnboardingTastes.diets p) ->
                In d (OnboardingTastes.diets
                        (OnboardingTastes.addCustomDiet text p)))
  /\ OnboardingTastesControls.addCustomCuisine text
       (OnboardingTastesControls.addCustomCuisine text p)
     = OnboardingTastesControls.addCustomCuisine text p
  /\ (Js.trim text = EmptyString ->
      OnboardingTastesControls.addCustomCuisine text p = p)
  /\ (forall t, In t (OnboardingTastes.st_tastes p) ->
                In t (OnboardingTastes.st_tastes
                        (OnboardingTastesControls.addCustomCuisine text p))).
Proof.
  unfold OnboardingTastes.addCustomDiet,
    OnboardingTastesControls.addCustomCuisine.
  split; [|split; [|split; [|split; [|split]]]].
  - destruct (Js.truthy (Js.trim text)) eqn:Et; [|reflexivity].
    destruct (Js.includes (OnboardingTastes.diets p) (Js.trim text)) eqn:Ei;
      cbn [negb andb OnboardingTastes.diets OnboardingTastes.with_diets].
    + now rewrite Ei.
    + now rewrite includes_snoc, String.eqb_refl, orb_true_r.
  - intros ->. reflexivity.
  - intros d Hd.
    destruct (Js.truthy (Js.trim text)
              && negb (Js.includes (OnboardingTastes.diets p) (Js.trim text)))%bool;
      simpl; [|assumption].
    apply in_or_app. now left.
  - destruct (Js.truthy (Js.trim text)) eqn:Et; [|reflexivity].
    destruct (Js.includes (OnboardingTastes.st_tastes p) (Js.trim text))
      eqn:Ei;
      cbn [negb andb OnboardingTastes.st_tastes
             OnboardingTastesControls.with_tastes].
    + now rewrite Ei.
    + now rewrite includes_snoc, String.eqb_refl, orb_true_r.
  - intros ->. reflexivity.
  - intros t Ht.
    destruct (Js.truthy (Js.trim text)
              && negb (Js.includes (OnboardingTastes.st_tastes p)
                         (Js.trim text)))%bool;
      simpl; [|assumption].
    apply in_or_app. now left.
Qed.

Lemma add_custom_idempotent_witness :
  OnboardingTastes.addCustomDiet "   " OnboardingTastes.initialPreferences
  = OnboardingTastes.initialPreferences.
Proof.
  exact (proj1 (proj2 (add_custom_idempotent "   "
                         OnboardingTastes.initialPreferences)) eq_refl).
Defined.

(** Running a handler on a world whose script is known. *)
Ltac run_app :=
  repeat progress
    (unfold try_catch_finally, bind, ret, throw, throw_error, alert,
       console_error, router_push, router_replace, set_state, log, getUser,
       call, signInWithPassword, signUp, signOut, next_fault, later_faults,
       with_trace, Program.when;
     cbn [db session faults trace fst snd hd tl]).

(** *** Completing the preference screen *)

Section CompleteTastes.

Lemma upsert_preferences_stored (id : UserId) (row : UserPreferences)
    (d : DB) :
  pref_id row = id ->
  fst (upsert_preferences (Some id) row d) = None ->
  select_preferences (Some id) id (snd (upsert_preferences (Some id) row d))
  = Some row.
Proof.
  intros Hid. unfold upsert_preferences.
  destruct (negb (owns (Some id) (pref_id row))); [discriminate|].
  destruct (negb (difficulty_column (preferred_difficulty row)));
    [discriminate|].
  intros _. unfold select_preferences. simpl.
  now rewrite Hid, Z.eqb_refl.
Qed.

Lemma upsert_preferences_accepts (id : UserId) (row : UserPreferences)
    (d : DB) :
  pref_id row = id ->
  difficulty_column (preferred_difficulty row) = true ->
  fst (upsert_preferences (Some id) row d) = None.
Proof.
  intros Hid Hd. unfold upsert_preferences. simpl.
  now rewrite Hid, Z.eqb_refl, Hd.
Qed.

End CompleteTastes.

(** X4. The preference screen navigates only after its row is stored. On
    an invalid form the handler shows one alert and sends nothing. It moves
    to the recipes screen only when the upsert came back without error, and
    then the caller's stored row is the row built from the screen's state;
    in every other case it alerts, so that exactly one of the two happens. *)
Theorem complete_navigates_after_store (p : OnboardingTastes.Preferences)
    (w : World) :
  let w' := snd (OnboardingTastes.handleComplete p w) in
  exists new,
    appended (trace w) (trace w') new
    /\ (OnboardingTastes.isFormValid p = false ->
        new = [Alert "Error" "Please fill in all required fields"]
        /\ db w' = db w)
    /\ (forall e, In e new -> is_navigation e = true ->
        e = RouterPush "/onboarding/recipes"
        /\ OnboardingTastes.isFormValid p = true
        /\ exists id,
             session w = Some id
             /\ In (Called (PreferencesUpsert
                              (OnboardingTastes.preferencesRow id p)) None)
                  new
             /\ select_preferences (Some id) id (db w')
                = Some (OnboardingTastes.preferencesRow id p))
    /\ existsb is_alert new = negb (existsb is_navigation new).
Proof.
  unfold OnboardingTastes.handleComplete, appended.
  destruct (OnboardingTastes.isFormValid p) eqn:Hv; cbn [negb].
  - destruct (session w) as [id|] eqn:Hs.
    + destruct (hd None (faults w)) as [[e|msg]|] eqn:Hf.
      * run_app. rewrite Hs. run_app. rewrite Hf. cbn.
        eexists. split; [trace_eq|]. split; [discriminate|].
        split; [|reflexivity].
        intros ev [<-|[<-|[<-|[<-|[]]]]]; discriminate.
      * run_app. rewrite Hs. run_app. rewrite Hf. cbn.
        eexists. split; [trace_eq|]. split; [discriminate|].
        split; [|reflexivity].
        intros ev [<-|[<-|[<-|[]]]]; discriminate.
      * pose proof (upsert_preferences_stored id
                      (OnboardingTastes.preferencesRow id p) (db w) eq_refl)
          as Hst.
        run_app. rewrite Hs. run_app. rewrite Hf.
        cbn [exec write_response error fst snd].
        destruct (fst (upsert_preferences (Some id)
                         (OnboardingTastes.preferencesRow id p) (db w)))
          as [e|] eqn:He; run_app; cbn.
        -- eexists. split; [trace_eq|]. split; [discriminate|].
           split; [|reflexivity].
           intros ev [<-|[<-|[<-|[<-|[]]]]]; discriminate.
        -- eexists. split; [trace_eq|]. split; [discriminate|].
           split; [|reflexivity].
           intros ev [<-|[<-|[<-|[<-|[]]]]]; try discriminate.
           intros _. split; [reflexivity|]. split; [reflexivity|].
           exists id. split; [reflexivity|]. split; [simpl; tauto|].
           now apply Hst.
    + run_app. rewrite Hs. run_app. cbn.
      eexists. split; [trace_eq|]. split; [discriminate|].
      split; [|reflexivity].
      intros ev [<-|[<-|[<-|[]]]]; discriminate.
  - cbn. run_app. eexists. split; [reflexivity|].
    split; [intros _; split; reflexivity|]. split; [|reflexivity].
    intros ev [<-|[]]; discriminate.
Qed.



Lemma complete_navigates_after_store_witness :
  db (snd (OnboardingTastes.handleComplete OnboardingTastes.initialPreferences
             empty_kitchen))
  = db empty_kitchen.
Proof.
  destruct (complete_navigates_after_store
              OnboardingTastes.initialPreferences empty_kitchen)
    as (new & _ & H & _).
  exact (proj2 (H eq_refl)).
Defined.

(** *** Signing in and registering *)

(** X6. The login handler never writes to the store. It navigates only
    after a sign-in that succeeded, and then to the dashboard or to the
    ingredients screen; with an empty field it only alerts; credentials the
    store does not know give the alert 'Login Failed' with the store's
    message and no navigation; and when the profile read is rejected after
    a successful sign-in the user is signed in but stays on the login
    screen with an alert. *)
Theorem login_reads_only (username password : string) (w : World) :
  let w' := snd (Login.handleLogin username password w) in
  db w' = db w
  /\ exists new,
       appended (trace w) (trace w') new
       /\ (forall e, In e new -> is_navigation e = true ->
           (e = RouterPush "/dashboard"
            \/ e = RouterPush "/onboarding/ingredients")
           /\ In (AuthCalled "signInWithPassword" None) new
           /\ exists u, sign_in username password (db w) = Some u
                        /\ session w' = Some u)
       /\ (Js.truthy username = false \/ Js.truthy password = false ->
           new = [Alert "Error" "Please fill in all fields"]
           /\ session w' = session w)
       /\ (Js.truthy username = true -> Js.truthy password = true ->
           next_fault w = None ->
           sign_in username password (db w) = None ->
           new = [SetState "loading" "true";
                  AuthCalled "signInWithPassword" (Some invalid_credentials);
                  Alert "Login Failed" "Invalid login credentials";
                  SetState "loading" "false"]
           /\ session w' = session w)
       /\ (forall u msg,
           Js.truthy username = true -> Js.truthy password = true ->
           next_fault w = None ->
           sign_in username password (db w) = Some u ->
           hd None (later_faults w) = Some (Throws msg) ->
           new = [SetState "loading" "true";
                  AuthCalled "signInWithPassword" None;
                  Alert "Error" "An unexpected error occurred";
                  SetState "loading" "false"]
           /\ session w' = Some u).
Proof.
  unfold Login.handleLogin, appended, next_fault, later_faults.
  destruct (Js.truthy username) eqn:Hu; cbn [negb orb];
    [destruct (Js.truthy password) eqn:Hp; cbn [negb orb]|].
  - destruct (hd None (faults w)) as [[e|msg]|] eqn:Hf.
    + run_app. rewrite Hf. cbn. split; [reflexivity|].
      eexists. split; [trace_eq|].
      split; [intros ev [<-|[<-|[<-|[<-|[]]]]]; discriminate|].
      split; [intros [?|?]; discriminate|].
      split; [discriminate|]. intros; discriminate.
    + run_app. rewrite Hf. cbn. split; [reflexivity|].
      eexists. split; [trace_eq|].
      split; [intros ev [<-|[<-|[<-|[]]]]; discriminate|].
      split; [intros [?|?]; discriminate|].
      split; [discriminate|]. intros; discriminate.
    + destruct (sign_in username password (db w)) as [u|] eqn:Hi.
      * destruct (hd None (tl (faults w))) as [[e|msg]|] eqn:Hf2.
        -- run_app. rewrite Hf, Hi. run_app. rewrite Hf2. cbn.
           split; [reflexivity|]. eexists. split; [trace_eq|].
           split.
           { intros ev [<-|[<-|[<-|[<-|[<-|[]]]]]]; try discriminate.
             intros _. split; [now right|]. split; [simpl; tauto|].
             now exists u. }
           split; [intros [?|?]; discriminate|].
           split; [discriminate|]. intros; discriminate.
        -- run_app. rewrite Hf, Hi. run_app. rewrite Hf2. cbn.
           split; [reflexivity|]. eexists. split; [trace_eq|].
           split; [intros ev [<-|[<-|[<-|[<-|[]]]]]; discriminate|].
           split; [intros [?|?]; discriminate|].
           split; [discriminate|].
           intros u' msg' _ _ _ Hu' _. split; [reflexivity|]. congruence.
        -- run_app. rewrite Hf, Hi. run_app. rewrite Hf2.
           cbn [exec].
           destruct (select_profile (Some u) u (db w)) as [pr|]; cbn;
             [destruct (onboarding_complete pr); cbn|].
           all: split; [reflexivity|]; eexists; (split; [trace_eq|]).
           all: split;
             [intros ev [<-|[<-|[<-|[<-|[<-|[]]]]]]; try discriminate;
              intros _; (split; [tauto|]); (split; [simpl; tauto|]);
              now exists u|].
           all: split; [intros [?|?]; discriminate|].
           all: split; [discriminate|]; intros; discriminate.
      * run_app. rewrite Hf, Hi. cbn. split; [reflexivity|].
        eexists. split; [trace_eq|].
        split; [intros ev [<-|[<-|[<-|[<-|[]]]]]; discriminate|].
        split; [intros [?|?]; discriminate|].
        split; [intros; split; reflexivity|]. intros; discriminate.
  - run_app. cbn. split; [reflexivity|]. eexists.
    split; [reflexivity|].
    split; [intros ev [<-|[]]; discriminate|].
    split; [intros _; split; reflexivity|].
    split; intros; discriminate.
  - run_app. cbn. split; [reflexivity|]. eexists.
    split; [reflexivity|].
    split; [intros ev [<-|[]]; discriminate|].
    split; [intros _; split; reflexivity|].
    split; intros; discriminate.
Qed.

Lemma login_reads_only_witness :
  session (snd (Login.handleLogin "ana@example.com" "wrong" ana_world))
  = None.
Proof.
  destruct (login_reads_only "ana@example.com" "wrong" ana_world)
    as (_ & new & _ & _ & _ & H & _).
  exact (proj2 (H eq_refl eq_refl eq_refl eq_refl)).
Defined.

(** X7. The register handler validates before it calls: the sign-up
    request is sent only when every field is filled, the two passwords are
    equal and the password has at least six characters. It never signs the
    user in and never navigates; every path ends in an alert; and the store
    changes only by a sign-up that succeeded. *)
Theorem register_validates (name email password confirmPassword : string)
    (w : World) :
  let w' := snd (Register.handleRegister name email password confirmPassword
                   w) in
  session w' = session w
  /\ exists new,
       appended (trace w) (trace w') new
       /\ (forall err, In (AuthCalled "signUp" err) new ->
           Js.truthy name = true /\ Js.truthy email = true
           /\ password = confirmPassword
           /\ (6 <= String.length password)%nat)
       /\ (forall e, In e new -> is_navigation e = false)
       /\ existsb is_alert new = true
       /\ (db w' = db w
           \/ (In (AuthCalled "signUp" None) new
               /\ sign_up email password name (db w) = (None, db w'))).
Proof.
  unfold Register.handleRegister, appended.
  destruct (Js.truthy name) eqn:Hn; cbn [negb orb];
    [destruct (Js.truthy email) eqn:He; cbn [negb orb];
     [destruct (Js.truthy password) eqn:Hp; cbn [negb orb];
      [destruct (Js.truthy confirmPassword) eqn:Hc; cbn [negb orb];
       [destruct (String.eqb password confirmPassword) eqn:Heq;
        cbn [negb];
        [destruct (String.length password <? 6)%nat eqn:Hlen|]|]|]|]|].
  all: try (run_app; cbn; split; [reflexivity|]; eexists;
            split; [reflexivity|];
            split; [intros err [H|[]]; discriminate H|];
            split; [intros ev [<-|[]]; reflexivity|];
            split; [reflexivity|now left]).
  apply String.eqb_eq in Heq. apply Nat.ltb_ge in Hlen.
  destruct (hd None (faults w)) as [[e|msg]|] eqn:Hf.
  - run_app. rewrite Hf. cbn. split; [reflexivity|]. eexists.
    split; [trace_eq|].
    split; [intros err _; auto|].
    split; [intros ev [<-|[<-|[<-|[<-|[]]]]]; reflexivity|].
    split; [reflexivity|now left].
  - run_app. rewrite Hf. cbn. split; [reflexivity|]. eexists.
    split; [trace_eq|].
    split; [intros err _; auto|].
    split; [intros ev [<-|[<-|[<-|[]]]]; reflexivity|].
    split; [reflexivity|now left].
  - run_app. rewrite Hf.
    destruct (sign_up email password name (db w)) as [[e|] d'] eqn:Hsu;
      cbn.
    + split; [reflexivity|]. eexists. split; [trace_eq|].
      split; [intros err _; auto|].
      split; [intros ev [<-|[<-|[<-|[<-|[]]]]]; reflexivity|].
      split; [reflexivity|]. left.
      unfold sign_up in Hsu. destruct (existsb _ _); congruence.
    + split; [reflexivity|]. eexists. split; [trace_eq|].
      split; [intros err _; auto|].
      split; [intros ev [<-|[<-|[<-|[<-|[]]]]]; reflexivity|].
      split; [reflexivity|]. right. split; [simpl; tauto|reflexivity].
Qed.

Lemma register_validates_witness :
  (6 <= String.length "secret2")%nat.
Proof.
  destruct (register_validates "Bea" "bea@example.com" "secret2" "secret2"
              ana_world) as (_ & new & Ht & H & _).
  refine (proj2 (proj2 (proj2 (H None _)))).
  unfold appended in Ht. vm_compute in Ht.
  apply app_inv_head with (l := []) in Ht. subst new. simpl. tauto.
Defined.

(** X8. Registering and then logging in with the same credentials leads to
    the first onboarding screen. For an email that is not registered yet,
    valid fields and no fault: the 'Go to Login' button leaves nobody signed
    in, and the login that follows signs in the new account, which got the
    store's next id, and ends on the ingredients screen. *)
Theorem register_then_login (name email password : string) (w : World) :
  Js.truthy name = true ->
  Js.truthy email = true ->
  (6 <= String.length password)%nat ->
  existsb (fun a => String.eqb (au_email a) email) (auth_users (db w))
  = false ->
  faults w = [] ->
  let w1 := snd (Register.handleRegister name email password password w) in
  let w2 := snd (Register.onPressGoToLogin w1) in
  let w3 := snd (Login.handleLogin email password w2) in
  session w2 = None
  /\ session w3 = Some (next_id (db w))
  /\ select_profile (session w3) (next_id (db w)) (db w3)
     = Some {| profile_id := next_id (db w); full_name := name;
               onboarding_complete := false |}
  /\ trace w3
     = (trace w2
        ++ [SetState "loading" "true";
            AuthCalled "signInWithPassword" None;
            Called (ProfilesSelect (next_id (db w))) None;
            RouterPush "/onboarding/ingredients";
            SetState "loading" "false"])%list.
Proof.
  intros Hn He Hlen Hnew Hf.
  assert (Hp : Js.truthy password = true).
  { destruct password; [simpl in Hlen; lia|reflexivity]. }
  apply Nat.ltb_ge in Hlen.
  remember (next_id (db w)) as n eqn:Hnid.
  remember (snd (sign_up email password name (db w))) as d1 eqn:Hd1.
  assert (Hsu : sign_up email password name (db w) = (None, d1)).
  { subst d1. unfold sign_up. now rewrite Hnew. }
  assert (Hin : sign_in email password d1 = @Some UserId n).
  { subst d1 n. unfold sign_up, sign_in. rewrite Hnew. cbn.
    now rewrite (String.eqb_refl email), (String.eqb_refl password). }
  assert (Hpr : select_profile (@Some UserId n) n d1
                = Some {| profile_id := n; full_name := name;
                          onboarding_complete := false |}).
  { subst d1 n. unfold sign_up, select_profile. rewrite Hnew. cbn.
    now rewrite Z.eqb_refl. }
  assert (H1 : snd (Register.handleRegister name email password password w)
               = {| db := d1; session := session w; faults := [];
                    trace := (trace w
                              ++ [SetState "loading" "true";
                                  AuthCalled "signUp" None;
                                  Alert "Registration Successful"
                                    "Your account has been created! Please check your email to confirm your account, then login to get started.";
                                  SetState "loading" "false"])%list |}).
  { unfold Register.handleRegister.
    rewrite Hn, He, Hp, (String.eqb_refl password), Hlen. cbn [negb orb].
    run_app. rewrite Hf, Hsu. cbn. f_equal. trace_eq. }
  rewrite H1. clear H1.
  unfold Register.onPressGoToLogin, Login.handleLogin.
  rewrite He, Hp. cbn [negb orb].
  run_app. rewrite Hin. run_app. cbn [exec].
  rewrite Hpr. cbn [data onboarding_complete]. run_app.
  split; [reflexivity|]. split; [reflexivity|].
  split; [exact Hpr|]. trace_eq.
Qed.

Lemma register_then_login_witness :
  session (snd (Login.handleLogin "bea@example.com" "secret2"
                  (snd (Register.onPressGoToLogin
                          (snd (Register.handleRegister "Bea"
                                  "bea@example.com" "secret2" "secret2"
                                  ana_world))))))
  = Some 5.
Proof.
  refine (proj1 (proj2 (register_then_login "Bea" "bea@example.com"
                          "secret2" ana_world _ _ _ _ _))).
  - reflexivity.
  - reflexivity.
  - simpl. lia.
  - reflexivity.
  - reflexivity.
Defined.

(** *** The forms of the inventory screens *)

(** X9. Without a signed-in user no form sends a request. Each of the
    seven save handlers leaves the store and the fault script as they are,
    sends nothing, and shows an alert. *)
Theorem signed_out_sends_nothing (parseFloat : string -> Js.Number)
    (f : OnboardingIngredients.FormData) (e : option Ingredient)
    (fu : OnboardingUtensils.FormData) (eu : option Utensil)
    (p : OnboardingTastes.Preferences)
    (cp : CreateRecipeScreen.Preferences) (r : Ai.GeneratedRecipe)
    (w : World) :
  session w = None ->
  forall h,
    In h [OnboardingIngredients.handleSaveIngredient parseFloat f e;
          OnboardingUtensils.handleSaveUtensil fu eu;
          OnboardingTastes.handleComplete p;
          CreateRecipeScreen.handleSavePreferences cp;
          CreateRecipeScreen.handleSaveRecipe r;
          RecipesScreen.handleSaveRecipe r;
          RecipeDetailScreen.handleSaveRecipe r] ->
    let w' := snd (h w) in
    db w' = db w
    /\ faults w' = faults w
    /\ exists new,
         appended (trace w) (trace w') new
         /\ existsb is_request new = false
         /\ existsb is_alert new = true.
Proof.
  intros Hs h Hh. unfold appended.
  destruct Hh as [<-|[<-|[<-|[<-|[<-|[<-|[<-|[]]]]]]]].
  - unfold OnboardingIngredients.handleSaveIngredient.
    destruct (_ || _ || _)%bool;
      [|cbv zeta; destruct (_ || _)%bool];
      run_app; try rewrite Hs; run_app;
      (split; [reflexivity|]); (split; [reflexivity|]);
      eexists; (split; [trace_eq|]); split; reflexivity.
  - unfold OnboardingUtensils.handleSaveUtensil.
    destruct (negb _); run_app; try rewrite Hs; run_app;
      (split; [reflexivity|]); (split; [reflexivity|]);
      eexists; (split; [trace_eq|]); split; reflexivity.
  - unfold OnboardingTastes.handleComplete.
    destruct (negb _); run_app; try rewrite Hs; run_app;
      (split; [reflexivity|]); (split; [reflexivity|]);
      eexists; (split; [trace_eq|]); split; reflexivity.
  - unfold CreateRecipeScreen.handleSavePreferences.
    run_app; rewrite Hs; run_app;
      (split; [reflexivity|]); (split; [reflexivity|]);
      eexists; (split; [trace_eq|]); split; reflexivity.
  - unfold CreateRecipeScreen.handleSaveRecipe.
    run_app; rewrite Hs; run_app;
      (split; [reflexivity|]); (split; [reflexivity|]);
      eexists; (split; [trace_eq|]); split; reflexivity.
  - unfold RecipesScreen.handleSaveRecipe.
    run_app; rewrite Hs; run_app;
      (split; [reflexivity|]); (split; [reflexivity|]);
      eexists; (split; [trace_eq|]); split; reflexivity.
  - unfold RecipeDetailScreen.handleSaveRecipe.
    run_app; rewrite Hs; run_app;
      (split; [reflexivity|]); (split; [reflexivity|]);
      eexists; (split; [trace_eq|]); split; reflexivity.
Qed.

Lemma signed_out_sends_nothing_witness :
  db (snd (OnboardingUtensils.handleSaveUtensil
             {| OnboardingUtensils.form_name := "Pan" |} None
             Program.initial))
  = Store.empty.
Proof.
  refine (proj1 (signed_out_sends_nothing parseDigits (flour_form "1" "g")
                   None {| OnboardingUtensils.form_name := "Pan" |} None
                   OnboardingTastes.initialPreferences
                   {| CreateRecipeScreen.p_diet := None;
                      CreateRecipeScreen.p_tastes := None;
                      CreateRecipeScreen.p_preferred_difficulty := None;
                      CreateRecipeScreen.p_preferred_time_minutes := None;
                      CreateRecipeScreen.p_preferred_portions := None |}
                   {| Ai.g_title := "Toast"; Ai.g_description := "Bread.";
                      Ai.g_difficulty := "Easy"; Ai.g_type := "Snack";
                      Ai.g_time := "5"; Ai.g_ingredients := [];
                      Ai.g_instructions := []; Ai.g_servings := Js.of_Z 1 |}
                   Program.initial eq_refl _ _)).
  simpl. tauto.
Defined.

Section Forms.

Lemma Q2Qc_positive (x : Q) : (0 < x)%Q -> (0 < Q2Qc x)%Qc.
Proof.
  intros H. unfold Qclt. cbn [this Q2Qc]. now rewrite !Qred_correct.
Qed.

Lemma positive_quantity (x : Js.Number) (q : Qc) :
  Js.isNaN x = false -> Js.leZero x = false ->
  numeric_column x = Some q -> (0 < q)%Qc.
Proof.
  intros Hn Hz Hq. unfold numeric_column in Hq.
  destruct x as [s|s| |s m e]; try discriminate.
  simpl in Hz. subst s. unfold Js.toQ in Hq.
  destruct (0 <=? e) eqn:He; cbn [option_map] in Hq; injection Hq as <-;
    apply Q2Qc_positive.
  - apply Z.leb_le in He. change 0%Q with (inject_Z 0).
    rewrite <- Zlt_Qlt.
    assert (0 < 2 ^ e) by (apply Z.pow_pos_nonneg; lia).
    destruct (2 ^ e); lia.
  - unfold Qlt. cbn [Qnum Qden]. lia.
Qed.

End Forms.

(** X10. The add form of the ingredients screen writes at most one row.
    Either the ingredient table is as before, or exactly one row was put in
    front of it: it belongs to the signed-in user, carries the store's next
    id, the trimmed name and unit, and a quantity greater than zero. No
    other table changes. *)
Theorem add_form_adds_one_row (parseFloat : string -> Js.Number)
    (f : OnboardingIngredients.FormData) (w : World) :
  let w' := snd (OnboardingIngredients.handleSaveIngredient parseFloat f None
                   w) in
  utensils (db w') = utensils (db w)
  /\ recipes (db w') = recipes (db w)
  /\ profiles (db w') = profiles (db w)
  /\ user_preferences (db w') = user_preferences (db w)
  /\ (db w' = db w
      \/ exists u q,
           session w = Some u
           /\ numeric_column
                (parseFloat (OnboardingIngredients.form_quantity f))
              = Some q
           /\ (0 < q)%Qc
           /\ ingredients (db w')
              = {| ingredient_id := next_id (db w);
                   ingredient_user := u;
                   ingredient_name :=
                     Js.trim (OnboardingIngredients.form_name f);
                   ingredient_quantity := q;
                   ingredient_unit :=
                     Js.trim (OnboardingIngredients.form_unit f) |}
                :: ingredients (db w)
           /\ next_id (db w') = next_id (db w) + 1).
Proof.
  unfold OnboardingIngredients.handleSaveIngredient.
  destruct (_ || _ || _)%bool;
    [run_app; repeat split; auto|].
  cbv zeta.
  destruct (Js.isNaN (parseFloat (OnboardingIngredients.form_quantity f)))
    eqn:Hn; cbn [orb]; [run_app; repeat split; auto|].
  destruct (Js.leZero (parseFloat (OnboardingIngredients.form_quantity f)))
    eqn:Hz; [run_app; repeat split; auto|].
  destruct (session w) as [u|] eqn:Hs;
    [|run_app; rewrite Hs; run_app; repeat split; auto].
  destruct (hd None (faults w)) as [[e|msg]|] eqn:Hf.
  - run_app. rewrite Hs. run_app. rewrite Hf. cbn [error].
    destruct (String.eqb (code e) "23505"); run_app; repeat split; auto.
  - run_app. rewrite Hs. run_app. rewrite Hf. run_app. repeat split; auto.
  - run_app. rewrite Hs. run_app. rewrite Hf.
    cbn [exec write_response]. unfold insert_ingredient.
    cbn [d_user_id d_quantity d_name d_unit owns]. rewrite Z.eqb_refl.
    cbn [negb].
    destruct (numeric_column
                (parseFloat (OnboardingIngredients.form_quantity f)))
      as [q|] eqn:Hq.
    + destruct (ingredient_name_taken _ _ _ _); cbn [fst snd error];
        run_app; cbn.
      * repeat split; auto.
      * repeat split; auto. right. exists u, q.
        repeat split; auto. now apply (positive_quantity _ _ Hn Hz).
    + cbn [fst snd error]. run_app. cbn. repeat split; auto.
Qed.

(** X11. The two inventory forms check the name differently. The utensil
    form tests the trimmed name, so a name of white space only is refused
    with an alert and nothing is sent. The ingredient form tests the name
    as typed and trims it afterwards, so the same name passes the check and
    a row with the empty name is stored. *)
Theorem blank_name_check_differs (parseFloat : string -> Js.Number)
    (name quantity unit_ : string) (q : Qc) (w : World) (u : UserId) :
  Js.truthy name = true ->
  Js.trim name = EmptyString ->
  Js.truthy quantity = true ->
  Js.truthy unit_ = true ->
  Js.isNaN (parseFloat quantity) = false ->
  Js.leZero (parseFloat quantity) = false ->
  numeric_column (parseFloat quantity) = Some q ->
  session w = Some u ->
  next_fault w = None ->
  ingredient_name_taken u EmptyString None (ingredients (db w)) = false ->
  (forall editing,
      snd (OnboardingUtensils.handleSaveUtensil
             {| OnboardingUtensils.form_name := name |} editing w)
      = with_trace
          (trace w ++ [Alert "Error" "Please enter a utensil name"]) w)
  /\ ingredients
       (db (snd (OnboardingIngredients.handleSaveIngredient parseFloat
                   {| OnboardingIngredients.form_name := name;
                      OnboardingIngredients.form_quantity := quantity;
                      OnboardingIngredients.form_unit := unit_ |}
                   None w)))
     = {| ingredient_id := next_id (db w);
          ingredient_user := u;
          ingredient_name := EmptyString;
          ingredient_quantity := q;
          ingredient_unit := Js.trim unit_ |} :: ingredients (db w).
Proof.
  intros Hname Htrim Hq Hu Hn Hz Hnum Hs Hf Hfree.
  unfold next_fault in Hf. split.
  - intros editing. unfold OnboardingUtensils.handleSaveUtensil.
    cbn [OnboardingUtensils.form_name]. rewrite Htrim. reflexivity.
  - unfold OnboardingIngredients.handleSaveIngredient.
    cbn [OnboardingIngredients.form_name OnboardingIngredients.form_quantity
           OnboardingIngredients.form_unit].
    rewrite Hname, Hq, Hu. cbn [negb orb]. cbv zeta. rewrite Hn, Hz.
    cbn [orb]. run_app. rewrite Hs. run_app. rewrite Hf.
    cbn [exec write_response]. unfold insert_ingredient.
    cbn [d_user_id d_quantity d_name d_unit owns]. rewrite Z.eqb_refl.
    cbn [negb]. rewrite Hnum, Htrim, Hfree. cbn [fst snd error]. run_app.
    reflexivity.
Qed.

Lemma blank_name_check_differs_witness :
  map ingredient_name
    (ingredients
       (db (snd (OnboardingIngredients.handleSaveIngredient parseDigits
                   {| OnboardingIngredients.form_name := "  ";
                      OnboardingIngredients.form_quantity := "2";
                      OnboardingIngredients.form_unit := "kg" |}
                   None empty_kitchen))))
  = [EmptyString].
Proof.
  refine (f_equal (map ingredient_name)
            (proj2 (blank_name_check_differs parseDigits "  " "2" "kg"
                      (match numeric_column (parseDigits "2") with
                       | Some q => q
                       | None => Q2Qc 0
                       end)
                      empty_kitchen 1 _ _ _ _ _ _ _ _ _ _)));
    reflexivity.
Defined.

Section EditForms.

Lemma update_ingredient_ids (caller : option UserId) (id : Z)
    (d : IngredientData) (db0 : DB) :
  let db' := snd (update_ingredient caller id d db0) in
  map ingredient_id (ingredients db') = map ingredient_id (ingredients db0)
  /\ next_id db' = next_id db0
  /\ utensils db' = utensils db0
  /\ (forall row, In row (ingredients db0) -> ingredient_id row <> id ->
                  In row (ingredients db')).
Proof.
  unfold update_ingredient.
  destruct (existsb _ _); [|cbn; auto].
  destruct (negb _); [cbn; auto|].
  destruct (numeric_column _); [|cbn; auto].
  destruct (ingredient_name_taken _ _ _ _); [cbn; auto|].
  cbn [snd ingredients with_ingredients next_id utensils].
  split; [|split; [reflexivity|split; [reflexivity|]]].
  - apply map_map_same. intros row. destruct (_ && _)%bool; reflexivity.
  - intros row Hrow Hne. apply in_map_iff. exists row. split; [|exact Hrow].
    apply Z.eqb_neq in Hne. now rewrite Hne.
Qed.

Lemma update_utensil_ids (caller : option UserId) (id : Z)
    (d : UtensilData) (db0 : DB) :
  let db' := snd (update_utensil caller id d db0) in
  map utensil_id (utensils db') = map utensil_id (utensils db0)
  /\ next_id db' = next_id db0
  /\ ingredients db' = ingredients db0
  /\ (forall row, In row (utensils db0) -> utensil_id row <> id ->
                  In row (utensils db')).
Proof.
  unfold update_utensil.
  destruct (existsb _ _); [|cbn; auto].
  destruct (negb _); [cbn; auto|].
  destruct (utensil_name_taken _ _ _ _); [cbn; auto|].
  cbn [snd ingredients with_utensils next_id utensils].
  split; [|split; [reflexivity|split; [reflexivity|]]].
  - apply map_map_same. intros row. destruct (_ && _)%bool; reflexivity.
  - intros row Hrow Hne. apply in_map_iff. exists row. split; [|exact Hrow].
    apply Z.eqb_neq in Hne. now rewrite Hne.
Qed.

End EditForms.

(** X12. The edit forms never add or remove a row. After an edit on the
    ingredients screen the ingredient table holds the same ids in the same
    order and every row with another id is as before; no id is issued.
    The same holds for the utensils screen. *)
Theorem edit_forms_keep_rows (parseFloat : string -> Js.Number)
    (f : OnboardingIngredients.FormData) (editing : Ingredient)
    (fu : OnboardingUtensils.FormData) (editingUtensil : Utensil)
    (w : World) :
  let wi := snd (OnboardingIngredients.handleSaveIngredient parseFloat f
                   (Some editing) w) in
  let wu := snd (OnboardingUtensils.handleSaveUtensil fu
                   (Some editingUtensil) w) in
  (map ingredient_id (ingredients (db wi))
   = map ingredient_id (ingredients (db w))
   /\ next_id (db wi) = next_id (db w)
   /\ utensils (db wi) = utensils (db w)
   /\ forall row, In row (ingredients (db w)) ->
                  ingredient_id row <> ingredient_id editing ->
                  In row (ingredients (db wi)))
  /\ (map utensil_id (utensils (db wu)) = map utensil_id (utensils (db w))
      /\ next_id (db wu) = next_id (db w)
      /\ ingredients (db wu) = ingredients (db w)
      /\ forall row, In row (utensils (db w)) ->
                     utensil_id row <> utensil_id editingUtensil ->
                     In row (utensils (db wu))).
Proof.
  split.
  - unfold OnboardingIngredients.handleSaveIngredient.
    destruct (_ || _ || _)%bool; [run_app; auto|]. cbv zeta.
    destruct (_ || _)%bool; [run_app; auto|].
    destruct (session w) as [u|] eqn:Hs;
      [|run_app; rewrite Hs; run_app; auto].
    destruct (hd None (faults w)) as [[e|msg]|] eqn:Hf.
    + run_app. rewrite Hs. run_app. rewrite Hf. cbn [error].
      destruct (String.eqb (code e) "23505"); run_app; auto.
    + run_app. rewrite Hs. run_app. rewrite Hf. run_app. auto.
    + run_app. rewrite Hs. run_app. rewrite Hf.
      cbn [exec write_response].
      pose proof (update_ingredient_ids (Some u) (ingredient_id editing)
                    {| d_name := Js.trim (OnboardingIngredients.form_name f);
                       d_quantity :=
                         parseFloat (OnboardingIngredients.form_quantity f);
                       d_unit := Js.trim (OnboardingIngredients.form_unit f);
                       d_user_id := u |} (db w)) as H.
      cbv zeta in H.
      destruct (update_ingredient _ _ _ _) as [[e|] d']; cbn [fst snd error];
        [destruct (String.eqb (code e) "23505")|]; run_app; exact H.
  - unfold OnboardingUtensils.handleSaveUtensil.
    destruct (negb _); [run_app; auto|].
    destruct (session w) as [u|] eqn:Hs;
      [|run_app; rewrite Hs; run_app; auto].
    destruct (hd None (faults w)) as [[e|msg]|] eqn:Hf.
    + run_app. rewrite Hs. run_app. rewrite Hf. run_app. auto.
    + run_app. rewrite Hs. run_app. rewrite Hf. run_app. auto.
    + run_app. rewrite Hs. run_app. rewrite Hf.
      cbn [exec write_response].
      pose proof (update_utensil_ids (Some u) (utensil_id editingUtensil)
                    {| ud_name := Js.trim (OnboardingUtensils.form_name fu);
                       ud_user_id := u |} (db w)) as H.
      cbv zeta in H.
      destruct (update_utensil _ _ _ _) as [[e|] d']; cbn [fst snd error];
        run_app; exact H.
Qed.

Lemma edit_forms_keep_rows_witness :
  In (flour_row 500)
    (ingredients
       (db (snd (OnboardingIngredients.handleSaveIngredient parseDigits
                   (flour_form "1" "g")
                   (Some {| ingredient_id := 3; ingredient_user := 1;
                            ingredient_name := "Sugar";
                            ingredient_quantity := Q2Qc (200 # 1);
                            ingredient_unit := "g" |})
                   {| db := kitchen 500 false; session := Some 1;
                      faults := []; trace := [] |})))).
Proof.
  refine (proj2 (proj2 (proj2 (proj1
            (edit_forms_keep_rows parseDigits (flour_form "1" "g")
               {| ingredient_id := 3; ingredient_user := 1;
                  ingredient_name := "Sugar";
                  ingredient_quantity := Q2Qc (200 # 1);
                  ingredient_unit := "g" |}
               {| OnboardingUtensils.form_name := "Pan" |}
               {| utensil_id := 7; utensil_user := 1;
                  utensil_name := "Pot" |}
               {| db := kitchen 500 false; session := Some 1;
                  faults := []; trace := [] |})))) (flour_row 500) _ _).
  - simpl. tauto.
  - simpl. lia.
Defined.

(** X13. The utensil form has no message of its own for a duplicate. When
    the signed-in user already has a utensil of the trimmed name, the
    insert is refused with the duplicate-key code, the store stays as it
    was, and the user sees the same 'Failed to save utensil' alert that any
    other reported error gives. *)
Theorem duplicate_utensil_generic_alert (f : OnboardingUtensils.FormData)
    (w : World) (u : UserId) :
  Js.truthy (Js.trim (OnboardingUtensils.form_name f)) = true ->
  session w = Some u ->
  let row := {| ud_name := Js.trim (OnboardingUtensils.form_name f);
                ud_user_id := u |} in
  let w' := snd (OnboardingUtensils.handleSaveUtensil f None w) in
  (next_fault w = None ->
   utensil_name_taken u (Js.trim (OnboardingUtensils.form_name f)) None
     (utensils (db w)) = true ->
   db w' = db w
   /\ trace w'
      = (trace w
         ++ [SetState "loading" "true";
             Called (UtensilsInsert row) (Some unique_violation);
             ConsoleError "Supabase error:";
             ConsoleError "Failed to save utensil:";
             Alert "Error" "Failed to save utensil";
             SetState "loading" "false"])%list)
  /\ (forall e, next_fault w = Some (Fails e) ->
      db w' = db w
      /\ trace w'
         = (trace w
            ++ [SetState "loading" "true";
                Called (UtensilsInsert row) (Some e);
                ConsoleError "Supabase error:";
                ConsoleError "Failed to save utensil:";
                Alert "Error" "Failed to save utensil";
                SetState "loading" "false"])%list).
Proof.
  intros Hn Hs. cbv zeta. unfold OnboardingUtensils.handleSaveUtensil.
  rewrite Hn. cbn [negb]. unfold next_fault. split.
  - intros Hf Hdup. run_app. rewrite Hs. run_app. rewrite Hf.
    cbn [exec write_response]. unfold insert_utensil.
    cbn [ud_user_id ud_name owns]. rewrite Z.eqb_refl. cbn [negb].
    rewrite Hdup. cbn [fst snd error]. run_app.
    split; [reflexivity|trace_eq].
  - intros e Hf. run_app. rewrite Hs. run_app. rewrite Hf.
    cbn [error]. run_app. split; [reflexivity|trace_eq].
Qed.

Lemma duplicate_utensil_generic_alert_witness :
  db (snd (OnboardingUtensils.handleSaveUtensil
             {| OnboardingUtensils.form_name := " Pan " |} None
             (snd (OnboardingUtensils.handleSaveUtensil
                     {| OnboardingUtensils.form_name := "Pan" |} None
                     empty_kitchen))))
  = db (snd (OnboardingUtensils.handleSaveUtensil
               {| OnboardingUtensils.form_name := "Pan" |} None
               empty_kitchen)).
Proof.
  refine (proj1 (proj1
            (duplicate_utensil_generic_alert
               {| OnboardingUtensils.form_name := " Pan " |}
               (snd (OnboardingUtensils.handleSaveUtensil
                       {| OnboardingUtensils.form_name := "Pan" |} None
                       empty_kitchen)) 1 _ _) _ _));
    reflexivity.
Defined.

(** *** The lists on the screens *)

Section Lists.

Lemma filter_delete_visible {A : Type} (key : A -> Z) (own : A -> bool)
    (id : Z) (l : list A) :
  filter (fun x => negb (key x =? id)) (filter own l)
  = filter own (filter (fun x => negb ((key x =? id) && own x)) l).
Proof.
  induction l as [|a l IH]; [reflexivity|]. cbn [filter].
  destruct (own a) eqn:Ho; destruct (key a =? id) eqn:Hk; cbn [filter negb andb];
    rewrite ?Ho, ?Hk; cbn [negb]; rewrite IH; reflexivity.
Qed.

End Lists.

(** X14. Removing a row from the list on the screen agrees with the store.
    When the list shown is what the store holds for the caller and the
    delete handler runs to its end, the list it leaves is again what the
    store holds for the caller, whether the request went through or was
    answered with an error. This holds on the ingredients screen, on the
    utensils screen and on the dashboard. *)
Theorem delete_agrees_with_reload (id : Z) (w : World) :
  (forall l,
      fst (ScreenLists.deleteIngredient
             (ScreenLists.visible_ingredients (session w) (db w)) id w)
      = Ok l ->
      l = ScreenLists.visible_ingredients (session w)
            (db (snd (ScreenLists.deleteIngredient
                        (ScreenLists.visible_ingredients (session w) (db w))
                        id w))))
  /\ (forall l,
         fst (ScreenLists.deleteUtensil
                (ScreenLists.visible_utensils (session w) (db w)) id w)
         = Ok l ->
         l = ScreenLists.visible_utensils (session w)
               (db (snd (ScreenLists.deleteUtensil
                           (ScreenLists.visible_utensils (session w) (db w))
                           id w))))
  /\ (exists l,
         fst (ScreenLists.deleteRecipe
                (ScreenLists.visible_recipes (session w) (db w)) id w)
         = Ok l
         /\ l = ScreenLists.visible_recipes (session w)
                  (db (snd (ScreenLists.deleteRecipe
                              (ScreenLists.visible_recipes (session w)
                                 (db w)) id w)))).
Proof.
  unfold ScreenLists.deleteIngredient, ScreenLists.deleteUtensil,
    ScreenLists.deleteRecipe, ScreenLists.visible_ingredients,
    ScreenLists.visible_utensils, ScreenLists.visible_recipes.
  destruct (hd None (faults w)) as [[e|msg]|] eqn:Hf.
  - split; [|split].
    + intros l. run_app. rewrite Hf. cbn [error]. run_app.
      now intros [= <-].
    + intros l. run_app. rewrite Hf. cbn [error]. run_app.
      now intros [= <-].
    + run_app. rewrite Hf. cbn [error]. run_app. eexists.
      split; reflexivity.
  - split; [|split].
    + intros l. run_app. rewrite Hf. discriminate.
    + intros l. run_app. rewrite Hf. discriminate.
    + run_app. rewrite Hf. run_app. eexists. split; reflexivity.
  - split; [|split].
    + intros l. run_app. rewrite Hf.
      cbn [exec write_response delete_ingredient fst snd error].
      run_app. intros [= <-]. cbn [ingredients with_ingredients].
      apply filter_delete_visible.
    + intros l. run_app. rewrite Hf.
      cbn [exec write_response delete_utensil fst snd error].
      run_app. intros [= <-]. cbn [utensils with_utensils].
      apply filter_delete_visible.
    + run_app. rewrite Hf.
      cbn [exec write_response delete_recipe fst snd error].
      run_app. eexists. split; [reflexivity|].
      cbn [recipes with_recipes].
      apply filter_delete_visible.
Qed.

Lemma delete_agrees_with_reload_witness :
  exists l,
    fst (ScreenLists.deleteRecipe
           (ScreenLists.visible_recipes (Some 1) (kitchen 500 false)) 10
           {| db := kitchen 500 false; session := Some 1; faults := [];
              trace := [] |})
    = Ok l
    /\ l = [].
Proof.
  destruct (delete_agrees_with_reload 10
              {| db := kitchen 500 false; session := Some 1; faults := [];
                 trace := [] |}) as (Hi & _ & l & H1 & H2).
  exists l. split; [exact H1|]. rewrite H2. reflexivity.
Defined.

(** X15. A load that fails is silent on the inventory screens and loud on
    the dashboard. The ingredient and utensil loaders never alert: signed
    out or after a rejected request they clear the list, after a reported
    error they keep it. The dashboard loader alerts exactly when nobody is
    signed in or its request fails, and then keeps the list it had. When
    the request goes through for a signed-in user, each loader shows the
    rows the store holds for that user. *)
Theorem load_failures (ingredients0 : list Ingredient)
    (utensils0 : list Utensil) (recipes0 : list Recipe) (w : World) :
  let ri := ScreenLists.loadIngredients ingredients0 w in
  let ru := ScreenLists.loadUtensils utensils0 w in
  let rr := ScreenLists.fetchRecipes recipes0 w in
  (forall e, In e (trace (snd ri)) -> is_alert e = true -> In e (trace w))
  /\ (forall e, In e (trace (snd ru)) -> is_alert e = true ->
                In e (trace w))
  /\ (session w = None -> fst ri = Ok [] /\ fst ru = Ok [])
  /\ (forall u e, session w = Some u -> next_fault w = Some (Fails e) ->
        fst ri = Ok ingredients0 /\ fst ru = Ok utensils0)
  /\ (forall u msg, session w = Some u ->
        next_fault w = Some (Throws msg) ->
        fst ri = Ok [] /\ fst ru = Ok [])
  /\ (forall u, session w = Some u -> next_fault w = None ->
        fst ri = Ok (ScreenLists.visible_ingredients (Some u) (db w))
        /\ fst ru = Ok (ScreenLists.visible_utensils (Some u) (db w))
        /\ fst rr = Ok (ScreenLists.visible_recipes (Some u) (db w))
        /\ trace (snd rr)
           = (trace w ++ [SetState "loading" "true";
                          SetState "loading" "false"])%list)
  /\ (session w = None \/ next_fault w <> None ->
      fst rr = Ok recipes0
      /\ exists new,
           appended (trace w) (trace (snd rr)) new
           /\ In (Alert "Error" "Failed to load recipes. Please try again.")
                new).
Proof.
  unfold ScreenLists.loadIngredients, ScreenLists.loadUtensils,
    ScreenLists.fetchRecipes, ScreenLists.select_rows, appended, next_fault,
    later_faults.
  destruct (session w) as [u|] eqn:Hs;
    [destruct (hd None (faults w)) as [[e|msg]|] eqn:Hf|].
  all: run_app; rewrite ?Hs; run_app; rewrite ?Hf; run_app;
    cbn [fst snd trace].
  all: split; [|split; [|split; [|split; [|split; [|split]]]]].
  all: try solve [intros ev Hin _; exact Hin].
  all: try solve [intros ev Hin Ha;
                  apply in_app_or in Hin as [Hin|[<-|[]]];
                  [exact Hin|discriminate]].
  all: try solve [intros; discriminate].
  all: try solve [intros; congruence].
  all: try solve [intros; split; reflexivity].
  all: try solve [intros; split; [reflexivity|];
                  eexists; split; [trace_eq|]; simpl; tauto].
  all: try solve [intros [?|?]; congruence].
  intros u' [= <-] _. split; [reflexivity|]. split; [reflexivity|].
  split; [reflexivity|]. trace_eq.
Qed.

Lemma load_failures_witness :
  fst (ScreenLists.fetchRecipes [pancakes false] Program.initial)
  = Ok [pancakes false].
Proof.
  destruct (load_failures [] [] [pancakes false] Program.initial)
    as (_ & _ & _ & _ & _ & _ & H).
  exact (proj1 (H (or_introl eq_refl))).
Defined.

(** *** A saved recipe on the dashboard *)

Section SavedRecipes.

Lemma total_checked : forallb total_agrees minutes_checked = true.
Proof. vm_compute. reflexivity. Qed.

Lemma total_agrees_in_range (t : Z) :
  1 <= t <= minutes_bound -> total_agrees t = true.
Proof.
  intros Ht.
  apply (proj1 (forallb_forall total_agrees minutes_checked) total_checked).
  unfold minutes_checked.
  replace t with (Z.of_nat (Z.to_nat t)) by lia.
  apply in_map, in_seq. unfold minutes_bound in *. lia.
Qed.

(** The row a save by a signed-in user puts in front of the recipe table. *)
Lemma create_save_stores (recipe : Ai.GeneratedRecipe) (w : World)
    (u : UserId) (p c s : option Z) :
  session w = Some u ->
  next_fault w = None ->
  integer_column (SaveRecipe.prepTime recipe) = Some p ->
  integer_column (SaveRecipe.cookTime recipe) = Some c ->
  integer_column (Ai.g_servings recipe) = Some s ->
  let w' := snd (CreateRecipeScreen.handleSaveRecipe recipe w) in
  db w'
  = bump (with_recipes
            ({| recipe_id := next_id (db w);
                recipe_user := u;
                title := Ai.g_title recipe;
                description := Ai.g_description recipe;
                recipe_ingredients :=
                  Ai.jsonIngredients (Ai.g_ingredients recipe);
                instructions := Ai.g_instructions recipe;
                prep_time_minutes := p;
                cook_time_minutes := c;
                servings := s;
                is_used := false |} :: recipes (db w)) (db w))
  /\ session w' = Some u
  /\ faults w' = later_faults w
  /\ trace w'
     = (trace w
        ++ [SetState "saving" (Ai.g_title recipe);
            Called (RecipesInsert (SaveRecipe.recipeRow u recipe)) None;
            Alert "Success" "Recipe saved successfully!";
            SetState "saving" "null"])%list.
Proof.
  intros Hs Hf Hp Hc Hsv. unfold next_fault in Hf. cbv zeta.
  unfold CreateRecipeScreen.handleSaveRecipe.
  run_app. rewrite Hs. run_app. rewrite Hf.
  cbn [exec write_response]. unfold insert_recipe.
  cbn [SaveRecipe.recipeRow rd_user_id rd_prep_time_minutes
         rd_cook_time_minutes rd_servings rd_title rd_description
         rd_ingredients rd_instructions rd_is_used owns].
  rewrite Z.eqb_refl, Hp, Hc, Hsv. cbn [negb fst snd error]. run_app.
  split; [reflexivity|]. split; [reflexivity|]. split; [reflexivity|].
  trace_eq.
Qed.

End SavedRecipes.

(** X16. The total time the dashboard shows for a recipe saved from a
    generated time of [t] minutes, for 1 <= t <= 10000, is never more than
    [t] and at most one minute less; it is one minute less for every [t]
    that is not a multiple of ten. *)
Theorem saved_total_time (recipe : Ai.GeneratedRecipe) (t : Z) (w : World)
    (u : UserId) (s : option Z) :
  1 <= t <= minutes_bound ->
  Js.parseInt_Z (Ai.g_time recipe) = Some t ->
  integer_column (Ai.g_servings recipe) = Some s ->
  session w = Some u ->
  next_fault w = None ->
  exists row,
    recipes (db (snd (CreateRecipeScreen.handleSaveRecipe recipe w)))
    = row :: recipes (db w)
    /\ recipe_id row = next_id (db w)
    /\ t - 1 <= ScreenLists.totalTime row <= t
    /\ (t mod 10 <> 0 -> ScreenLists.totalTime row = t - 1).
Proof.
  intros Ht Hparse Hsv Hs Hf.
  pose proof (total_agrees_in_range t Ht) as Hag.
  unfold total_agrees in Hag. apply andb_true_iff in Hag as [Htr Hag].
  assert (Htime : SaveRecipe.timeInMinutes recipe = Js.of_Z t).
  { unfold SaveRecipe.timeInMinutes, Js.parseInt. rewrite Hparse.
    unfold Js.orElse. now rewrite Htr. }
  unfold stored_prep, stored_cook in Hag. rewrite <- Htime in Hag.
  fold (SaveRecipe.prepTime recipe) in Hag.
  fold (SaveRecipe.cookTime recipe) in Hag.
  destruct (integer_column (SaveRecipe.prepTime recipe)) as [[p|]|] eqn:Hp;
    try discriminate.
  destruct (integer_column (SaveRecipe.cookTime recipe)) as [[c|]|] eqn:Hc;
    try discriminate.
  destruct (create_save_stores recipe w u (Some p) (Some c) s Hs Hf Hp Hc Hsv)
    as (Hdb & _).
  rewrite Hdb. eexists. split; [reflexivity|]. split; [reflexivity|].
  unfold ScreenLists.totalTime. cbn [prep_time_minutes cook_time_minutes].
  destruct (t mod 10 =? 0) eqn:Hm.
  - apply andb_true_iff in Hag as [H1 H2].
    apply Z.leb_le in H1, H2. apply Z.eqb_eq in Hm.
    split; [lia|]. intros Hne. contradiction.
  - apply Z.eqb_eq in Hag. split; [lia|]. intros _. exact Hag.
Qed.

Lemma saved_total_time_witness :
  exists row,
    recipes
      (db (snd (CreateRecipeScreen.handleSaveRecipe
                  {| Ai.g_title := "Stew"; Ai.g_description := "Slow.";
                     Ai.g_difficulty := "Easy"; Ai.g_type := "Dinner";
                     Ai.g_time := "45 minutes"; Ai.g_ingredients := [];
                     Ai.g_instructions := []; Ai.g_servings := Js.of_Z 2 |}
                  empty_kitchen)))
    = [row]
    /\ ScreenLists.totalTime row = 44.
Proof.
  destruct (saved_total_time
              {| Ai.g_title := "Stew"; Ai.g_description := "Slow.";
                 Ai.g_difficulty := "Easy"; Ai.g_type := "Dinner";
                 Ai.g_time := "45 minutes"; Ai.g_ingredients := [];
                 Ai.g_instructions := []; Ai.g_servings := Js.of_Z 2 |}
              45 empty_kitchen 1 (Some 2))
    as (row & H1 & _ & _ & H2).
  - unfold minutes_bound. lia.
  - reflexivity.
  - reflexivity.
  - reflexivity.
  - reflexivity.
  - exists row. split; [exact H1|]. apply H2. vm_compute. discriminate.
Defined.

(** *** Recipes along a run *)

Section RecipeWrites.

Let recipes_kept (id : Z) (d d' : DB) : Prop :=
  recipes_fresh d' /\ next_id d <= next_id d'
  /\ (id < next_id d -> used_if_present id d -> used_if_present id d').

Lemma same_recipes (id : Z) (d d' : DB) :
  recipes d' = recipes d -> next_id d <= next_id d' ->
  recipes_fresh d -> recipes_kept id d d'.
Proof.
  unfold recipes_kept, recipes_fresh, used_if_present.
  intros Hr Hn (Hnd & Hb). rewrite Hr.
  repeat split; auto. intros r Hin. specialize (Hb r Hin). lia.
Qed.

Lemma insert_recipe_kept (id : Z) (caller : option UserId) (data : RecipeData)
    (d : DB) :
  recipes_fresh d -> recipes_kept id d (snd (insert_recipe caller data d)).
Proof.
  intros H. unfold insert_recipe.
  destruct (negb _); [apply same_recipes; auto; cbn; lia|].
  destruct (integer_column _) as [?|]; [|apply same_recipes; auto; cbn; lia].
  destruct (integer_column _) as [?|]; [|apply same_recipes; auto; cbn; lia].
  destruct (integer_column _) as [?|]; [|apply same_recipes; auto; cbn; lia].
  destruct H as (Hnd & Hb).
  unfold recipes_kept, recipes_fresh, used_if_present.
  cbn [snd recipes with_recipes bump next_id map recipe_id].
  split; [split|split].
  - constructor; [|exact Hnd].
    intros Hin. apply in_map_iff in Hin as (x & Hx & Hin).
    specialize (Hb x Hin). lia.
  - intros r [<-|Hin]; [cbn [recipe_id]; lia|]. specialize (Hb r Hin). lia.
  - lia.
  - intros Hid Hu r [<-|Hin] Hr; [cbn [recipe_id] in Hr; lia|]. now apply Hu.
Qed.

Lemma delete_recipe_kept (id : Z) (caller : option UserId) (i : Z) (d : DB) :
  recipes_fresh d -> recipes_kept id d (snd (delete_recipe caller i d)).
Proof.
  intros (Hnd & Hb).
  unfold recipes_kept, recipes_fresh, used_if_present, delete_recipe.
  cbn [snd recipes with_recipes next_id].
  split; [split|split].
  - now apply NoDup_map_filter.
  - intros r Hin. apply filter_In in Hin. now apply Hb.
  - lia.
  - intros _ Hu r Hin. apply filter_In in Hin. now apply Hu.
Qed.

Lemma cook_kept (id : Z) (caller : option UserId) (i : Z) (d : DB) :
  recipes_fresh d ->
  recipes_kept id d (snd (select_recipe_and_subtract_ingredients caller i d)).
Proof.
  intros H. unfold select_recipe_and_subtract_ingredients.
  destruct caller as [u|]; [|apply same_recipes; auto; cbn; lia].
  destruct (find _ (recipes d)) as [r|]; [|apply same_recipes; auto; cbn; lia].
  destruct (is_used r); [apply same_recipes; auto; cbn; lia|].
  destruct (first_shortfall _ _ _); [apply same_recipes; auto; cbn; lia|].
  destruct H as (Hnd & Hb).
  unfold recipes_kept, recipes_fresh, used_if_present, mark_used.
  cbn [snd recipes with_recipes with_ingredients next_id].
  split; [split|split].
  - rewrite map_map_same; [exact Hnd|].
    intros x. destruct (_ && _)%bool; reflexivity.
  - intros x Hin. apply in_map_iff in Hin as (y & <- & Hy).
    destruct (_ && _)%bool; cbn [recipe_id set_is_used]; now apply Hb.
  - lia.
  - intros _ Hu x Hin Hx. apply in_map_iff in Hin as (y & <- & Hy).
    destruct (_ && _)%bool; [reflexivity|]. now apply Hu.
Qed.

Lemma exec_recipes_kept (id : Z) (caller : option UserId) (r : Request)
    (d : DB) :
  recipes_fresh d -> recipes_kept id d (snd (exec caller r d)).
Proof.
  intros H. destruct r; cbn [exec].
  - destruct (select_profile _ _ _); apply same_recipes; auto; cbn; lia.
  - apply same_recipes; auto; cbn; lia.
  - cbn. unfold insert_ingredient. destruct (negb _); [|destruct
      (numeric_column _); [destruct (ingredient_name_taken _ _ _ _)|]];
      apply same_recipes; auto; cbn; lia.
  - cbn. unfold update_ingredient. destruct (existsb _ _); [destruct
      (negb _); [|destruct (numeric_column _);
                   [destruct (ingredient_name_taken _ _ _ _)|]]|];
      apply same_recipes; auto; cbn; lia.
  - apply same_recipes; auto; cbn; lia.
  - cbn. unfold upsert_ingredient. destruct caller; [destruct
      (numeric_column _); [destruct (ingredient_name_taken _ _ _ _)|]|];
      apply same_recipes; auto; cbn; lia.
  - cbn. unfold insert_utensil. destruct (negb _);
      [|destruct (utensil_name_taken _ _ _ _)];
      apply same_recipes; auto; cbn; lia.
  - cbn. unfold update_utensil. destruct (existsb _ _); [destruct
      (negb _); [|destruct (utensil_name_taken _ _ _ _)]|];
      apply same_recipes; auto; cbn; lia.
  - apply same_recipes; auto; cbn; lia.
  - cbn. unfold upsert_preferences. destruct (negb _); [|destruct (negb _)];
      apply same_recipes; auto; cbn; lia.
  - destruct (select_preferences _ _ _); apply same_recipes; auto; cbn; lia.
  - now apply insert_recipe_kept.
  - now apply delete_recipe_kept.
  - pose proof (cook_kept id caller recipe_id_to_use d H) as Hc.
    destruct (select_recipe_and_subtract_ingredients caller recipe_id_to_use
                d). exact Hc.
Qed.

Lemma sign_up_recipes_kept (id : Z) (email password name : string) (d : DB) :
  recipes_fresh d ->
  recipes_kept id d (snd (sign_up email password name d)).
Proof.
  intros H. unfold sign_up.
  destruct (existsb _ _); apply same_recipes; auto; cbn; lia.
Qed.

(** Along every run the recipe ids stay unique and below the next id, and
    a recipe that is marked used stays so while it exists. *)
Lemma run_recipes_kept (parseFloat : string -> Js.Number) (id : Z)
    (actions : list Program.Action) (w : World) :
  recipes_fresh (db w) ->
  recipes_fresh (db (Program.run parseFloat actions w))
  /\ (id < next_id (db w) -> used_if_present id (db w) ->
      used_if_present id (db (Program.run parseFloat actions w))).
Proof.
  intros Hfresh.
  pose proof (run_preserves
                (fun d _ => recipes_fresh d
                            /\ (id < next_id (db w) ->
                                used_if_present id (db w) ->
                                id < next_id d /\ used_if_present id d))
                (fun _ => True)) as H.
  destruct (H (fun _ _ => I) (fun _ _ _ _ _ Hq => Hq)
              (fun _ _ _ _ Hq => Hq)) with (parseFloat := parseFloat)
    (actions := actions) (w := w) as (H1 & H2).
  - intros caller r d _ _ (Hf & Hu).
    destruct (exec_recipes_kept id caller r d Hf) as (Hf' & Hn & Hk).
    split; [exact Hf'|]. intros Hid Hused.
    destruct (Hu Hid Hused) as (Hlt & Hud). split; [lia|]. apply Hk; auto.
  - intros email password name d _ (Hf & Hu).
    destruct (sign_up_recipes_kept id email password name d Hf)
      as (Hf' & Hn & Hk).
    split; [exact Hf'|]. intros Hid Hused.
    destruct (Hu Hid Hused) as (Hlt & Hud). split; [lia|]. apply Hk; auto.
  - split; [exact Hfresh|]. auto.
  - split; [exact H1|]. intros Hid Hused. now apply H2.
Qed.

Lemma empty_fresh : recipes_fresh Store.empty.
Proof. split; [constructor|intros r []]. Qed.

Lemma filter_all {A : Type} (f : A -> bool) (l : list A) :
  (forall x, In x l -> f x = true) -> filter f l = l.
Proof.
  induction l as [|a l IH]; intros H; [reflexivity|]. cbn [filter].
  rewrite (H a (or_introl eq_refl)), IH; [reflexivity|].
  intros x Hx. apply H. now right.
Qed.

End RecipeWrites.



(** X18. Saving a recipe and deleting it again restores the recipe table.
    In a world reached from the initial one, with a user signed in and no
    fault, a save from the create-recipe screen followed by a delete of
    the id the save was given leaves the recipes exactly as they were; only
    the next id has moved on. *)
Theorem save_then_delete_restores (parseFloat : string -> Js.Number)
    (actions : list Program.Action) (recipe : Ai.GeneratedRecipe)
    (u : UserId) (p c s : option Z) :
  let w := Program.run parseFloat actions Program.initial in
  session w = Some u ->
  faults w = [] ->
  integer_column (SaveRecipe.prepTime recipe) = Some p ->
  integer_column (SaveRecipe.cookTime recipe) = Some c ->
  integer_column (Ai.g_servings recipe) = Some s ->
  let w1 := snd (CreateRecipeScreen.handleSaveRecipe recipe w) in
  let w2 := snd (DashboardScreen.onPressDelete (next_id (db w)) w1) in
  List.length (recipes (db w1)) = S (List.length (recipes (db w)))
  /\ recipes (db w2) = recipes (db w)
  /\ ingredients (db w2) = ingredients (db w)
  /\ next_id (db w2) = next_id (db w) + 1.
Proof.
  intros w Hs Hf Hp Hc Hsv.
  assert (Hfresh : recipes_fresh (db w)).
  { apply (run_recipes_kept parseFloat 0 actions Program.initial).
    exact empty_fresh. }
  assert (Hnf : next_fault w = None) by (unfold next_fault; now rewrite Hf).
  destruct (create_save_stores recipe w u p c s Hs Hnf Hp Hc Hsv)
    as (Hdb & Hs1 & Hf1 & Ht1).
  cbv zeta in *.
  remember (snd (CreateRecipeScreen.handleSaveRecipe recipe w)) as w1 eqn:E.
  clear E. unfold later_faults in Hf1. rewrite Hf in Hf1. cbn in Hf1.
  split; [rewrite Hdb; reflexivity|].
  unfold DashboardScreen.onPressDelete. run_app. rewrite Hf1. cbn [hd tl].
  cbn [exec write_response delete_recipe fst snd error]. run_app.
  rewrite Hdb, Hs1.
  cbn [recipes with_recipes bump ingredients next_id filter recipe_id
         recipe_user owns].
  rewrite !Z.eqb_refl. cbn [andb negb].
  split; [|split; reflexivity].
  apply filter_all. intros r Hin. destruct Hfresh as (_ & Hb).
  specialize (Hb r Hin).
  assert (Hne : (recipe_id r =? next_id (db w)) = false)
    by (apply Z.eqb_neq; lia).
  now rewrite Hne.
Qed.

Lemma save_then_delete_restores_witness :
  recipes
    (db (snd (DashboardScreen.onPressDelete 1
                (snd (CreateRecipeScreen.handleSaveRecipe
                        {| Ai.g_title := "Stew"; Ai.g_description := "Slow.";
                           Ai.g_difficulty := "Easy"; Ai.g_type := "Dinner";
                           Ai.g_time := "45 minutes"; Ai.g_ingredients := [];
                           Ai.g_instructions := [];
                           Ai.g_servings := Js.of_Z 2 |}
                        empty_kitchen)))))
  = [].
Proof.
  refine (proj1 (proj2
            (save_then_delete_restores parseDigits
               [Program.DoRegister "Ana" "ana@example.com" "secret1"
                  "secret1" true;
                Program.DoLogin "ana@example.com" "secret1";
                Program.DoDeleteRecipe 1 true]
               {| Ai.g_title := "Stew"; Ai.g_description := "Slow.";
                  Ai.g_difficulty := "Easy"; Ai.g_type := "Dinner";
                  Ai.g_time := "45 minutes"; Ai.g_ingredients := [];
                  Ai.g_instructions := []; Ai.g_servings := Js.of_Z 2 |}
               1 (Some 13) (Some 31) (Some 2) _ _ _ _ _)));
    reflexivity.
Defined.

(** *** Utensils and preferences along a run *)

Section UtensilWrites.

Lemma utensil_name_free (u : UserId) (n : string) (except : option Z)
    (l : list Utensil) :
  utensil_name_taken u n except l = false ->
  forall row, In row l -> utensil_key row = (u, n) ->
              except = Some (utensil_id row).
Proof.
  unfold utensil_name_taken. intros H row Hin Hkey.
  assert (Hrow := existsb_false_In _ _ H row Hin). cbv beta in Hrow.
  unfold utensil_key in Hkey. inversion Hkey as [[Hu Hn]].
  rewrite Hu, Hn, Z.eqb_refl, (String.eqb_refl n) in Hrow. simpl in Hrow.
  destruct except as [i|]; [|discriminate].
  apply negb_false_iff, Z.eqb_eq in Hrow. now subst.
Qed.

Lemma utensils_same (d d' : DB) :
  utensils d' = utensils d -> next_id d <= next_id d' ->
  utensils_unique d -> utensils_unique d'.
Proof.
  unfold utensils_unique. intros -> Hn (Hk & Hi & Hb).
  repeat split; auto. intros row Hrow. specialize (Hb row Hrow). lia.
Qed.

Lemma insert_utensil_unique (caller : option UserId) (data : UtensilData)
    (d : DB) :
  utensils_unique d -> utensils_unique (snd (insert_utensil caller data d)).
Proof.
  intros H. unfold insert_utensil.
  destruct (negb (owns caller (ud_user_id data))); [exact H|].
  destruct (utensil_name_taken _ _ None (utensils d)) eqn:E; [exact H|].
  destruct H as (Hkeys & Hids & Hb). unfold utensils_unique.
  cbn [snd utensils with_utensils bump next_id map utensil_id utensil_key
         utensil_user utensil_name].
  split; [|split].
  - constructor; [|exact Hkeys].
    intros Hin. apply in_map_iff in Hin as (row & Hkey & Hrow).
    discriminate (utensil_name_free _ _ _ _ E row Hrow Hkey).
  - constructor; [|exact Hids].
    intros Hin. apply in_map_iff in Hin as (x & Hx & Hin).
    specialize (Hb x Hin). lia.
  - intros x [<-|Hx]; [cbn [utensil_id]; lia|]. specialize (Hb x Hx). lia.
Qed.

Lemma delete_utensil_unique (caller : option UserId) (id : Z) (d : DB) :
  utensils_unique d -> utensils_unique (snd (delete_utensil caller id d)).
Proof.
  unfold utensils_unique, delete_utensil. intros (Hk & Hi & Hb).
  cbn [snd utensils with_utensils next_id].
  split; [|split]; try now apply NoDup_map_filter.
  intros row Hrow. apply filter_In in Hrow. now apply Hb.
Qed.

Lemma update_utensil_keys (caller : option UserId) (id : Z) (u : UserId)
    (n : string) (mk : Utensil -> Utensil) (l : list Utensil) :
  (forall row, utensil_key (mk row) = (u, n)) ->
  NoDup (map utensil_id l) ->
  NoDup (map utensil_key l) ->
  utensil_name_taken u n (Some id) l = false ->
  NoDup (map utensil_key
           (map (fun row => if (utensil_id row =? id)
                               && owns caller (utensil_user row)
                            then mk row else row) l)).
Proof.
  intros Hmk Hids Hkeys Hfree.
  set (g := fun row => if (utensil_id row =? id)
                          && owns caller (utensil_user row)
                       then mk row else row).
  assert (Hkey : forall row, In row l ->
            utensil_key (g row) = (u, n) -> utensil_id row = id).
  { intros row Hrow Hk. unfold g in Hk.
    destruct (utensil_id row =? id) eqn:Ei; [now apply Z.eqb_eq|].
    cbn [andb] in Hk.
    pose proof (utensil_name_free _ _ _ _ Hfree row Hrow Hk) as Hx.
    inversion Hx. now subst. }
  induction l as [|a l IH]; cbn [map]; [constructor|].
  inversion Hids as [|? ? Hida Hidl]; subst.
  inversion Hkeys as [|? ? Hka Hkl]; subst.
  assert (Hfree' : utensil_name_taken u n (Some id) l = false).
  { unfold utensil_name_taken in *. cbn [existsb] in Hfree.
    now apply orb_false_iff in Hfree. }
  constructor.
  - intros Hin. apply in_map_iff in Hin as (y & Hy & Hin).
    apply in_map_iff in Hin as (x & <- & Hx). fold (g x) in Hy.
    fold (g a) in Hy.
    assert (Hne : utensil_id x <> utensil_id a).
    { intros E. apply Hida. rewrite <- E. now apply in_map. }
    destruct ((utensil_id a =? id) && owns caller (utensil_user a))%bool
      eqn:Ta; destruct ((utensil_id x =? id)
                        && owns caller (utensil_user x))%bool eqn:Tx.
    + apply andb_true_iff in Ta as [Ta _], Tx as [Tx _].
      apply Z.eqb_eq in Ta, Tx. congruence.
    + unfold g in Hy. rewrite Ta, Tx in Hy. rewrite Hmk in Hy.
      assert (Hgx : utensil_key (g x) = (u, n))
        by (unfold g; now rewrite Tx).
      pose proof (Hkey x (or_intror Hx) Hgx) as Hix.
      apply andb_true_iff in Ta as [Ta _]. apply Z.eqb_eq in Ta. congruence.
    + unfold g in Hy. rewrite Ta, Tx in Hy. rewrite Hmk in Hy.
      assert (Hga : utensil_key (g a) = (u, n))
        by (unfold g; now rewrite Ta).
      pose proof (Hkey a (or_introl eq_refl) Hga) as Hia.
      apply andb_true_iff in Tx as [Tx _]. apply Z.eqb_eq in Tx. congruence.
    + unfold g in Hy. rewrite Ta, Tx in Hy.
      apply Hka. rewrite <- Hy. now apply in_map.
  - apply IH; auto. intros row Hrow. apply Hkey. now right.
Qed.

Lemma update_utensil_unique (caller : option UserId) (id : Z)
    (data : UtensilData) (d : DB) :
  utensils_unique d ->
  utensils_unique (snd (update_utensil caller id data d)).
Proof.
  intros H. unfold update_utensil.
  destruct (existsb _ (utensils d)); [|exact H].
  destruct (negb (owns caller (ud_user_id data))); [exact H|].
  destruct (utensil_name_taken _ _ (Some id) (utensils d)) eqn:E;
    [exact H|].
  destruct H as (Hk & Hi & Hb). unfold utensils_unique.
  cbn [snd utensils with_utensils next_id].
  split; [|split].
  - apply (update_utensil_keys caller id (ud_user_id data) (ud_name data));
      auto.
  - rewrite map_map_same; [assumption|].
    intros row. destruct (_ && _)%bool; reflexivity.
  - intros row Hrow. apply in_map_iff in Hrow as (x & <- & Hx).
    destruct (_ && _)%bool; cbn [utensil_id]; now apply Hb.
Qed.

Lemma exec_utensils_unique (caller : option UserId) (r : Request) (d : DB) :
  utensils_unique d -> utensils_unique (snd (exec caller r d)).
Proof.
  intros H. destruct r; cbn [exec].
  - destruct (select_profile _ _ _); exact H.
  - exact H.
  - cbn. unfold insert_ingredient. destruct (negb _); [|destruct
      (numeric_column _); [destruct (ingredient_name_taken _ _ _ _)|]];
      apply (utensils_same d); auto; cbn; lia.
  - cbn. unfold update_ingredient. destruct (existsb _ _); [destruct
      (negb _); [|destruct (numeric_column _);
                   [destruct (ingredient_name_taken _ _ _ _)|]]|];
      apply (utensils_same d); auto; cbn; lia.
  - exact H.
  - cbn. unfold upsert_ingredient. destruct caller; [destruct
      (numeric_column _); [destruct (ingredient_name_taken _ _ _ _)|]|];
      apply (utensils_same d); auto; cbn; lia.
  - now apply insert_utensil_unique.
  - now apply update_utensil_unique.
  - now apply delete_utensil_unique.
  - cbn. unfold upsert_preferences. destruct (negb _); [|destruct (negb _)];
      exact H.
  - destruct (select_preferences _ _ _); exact H.
  - cbn. unfold insert_recipe. destruct (negb _); [exact H|].
    destruct (integer_column _) as [?|]; [|exact H].
    destruct (integer_column _) as [?|]; [|exact H].
    destruct (integer_column _) as [?|]; [|exact H].
    apply (utensils_same d); auto; cbn; lia.
  - exact H.
  - unfold select_recipe_and_subtract_ingredients.
    destruct caller; [|exact H]. destruct (find _ _) as [x|]; [|exact H].
    destruct (is_used x); [exact H|].
    destruct (first_shortfall _ _ _); exact H.
Qed.

Lemma exec_preferences_single (caller : option UserId) (r : Request)
    (d : DB) :
  preferences_single d -> preferences_single (snd (exec caller r d)).
Proof.
  unfold preferences_single. intros H. destruct r; cbn [exec].
  - destruct (select_profile _ _ _); exact H.
  - exact H.
  - cbn. unfold insert_ingredient. destruct (negb _); [|destruct
      (numeric_column _); [destruct (ingredient_name_taken _ _ _ _)|]];
      exact H.
  - cbn. unfold update_ingredient. destruct (existsb _ _); [destruct
      (negb _); [|destruct (numeric_column _);
                   [destruct (ingredient_name_taken _ _ _ _)|]]|];
      exact H.
  - exact H.
  - cbn. unfold upsert_ingredient. destruct caller; [destruct
      (numeric_column _); [destruct (ingredient_name_taken _ _ _ _)|]|];
      exact H.
  - cbn. unfold insert_utensil. destruct (negb _);
      [|destruct (utensil_name_taken _ _ _ _)]; exact H.
  - cbn. unfold update_utensil. destruct (existsb _ _); [destruct
      (negb _); [|destruct (utensil_name_taken _ _ _ _)]|]; exact H.
  - exact H.
  - cbn. unfold upsert_preferences. destruct (negb _); [exact H|].
    destruct (negb _); [exact H|].
    cbn [snd user_preferences with_user_preferences map].
    constructor; [|now apply NoDup_map_filter].
    intros Hin. apply in_map_iff in Hin as (x & Hx & Hin).
    apply filter_In in Hin as [_ Hin]. rewrite Hx, Z.eqb_refl in Hin.
    discriminate.
  - destruct (select_preferences _ _ _); exact H.
  - cbn. unfold insert_recipe. destruct (negb _); [exact H|].
    destruct (integer_column _) as [?|]; [|exact H].
    destruct (integer_column _) as [?|]; [|exact H].
    destruct (integer_column _) as [?|]; exact H.
  - exact H.
  - unfold select_recipe_and_subtract_ingredients.
    destruct caller; [|exact H]. destruct (find _ _) as [x|]; [|exact H].
    destruct (is_used x); [exact H|].
    destruct (first_shortfall _ _ _); exact H.
Qed.

End UtensilWrites.

(** X19. Three more tables stay well-formed along every run from the
    initial state: no user has two utensil rows with the same name, no
    user has two preference rows, and no two recipes share an id. *)
Theorem reachable_tables_unique (parseFloat : string -> Js.Number)
    (actions : list Program.Action) :
  let d := db (Program.run parseFloat actions Program.initial) in
  (forall row1 row2,
      In row1 (utensils d) -> In row2 (utensils d) ->
      utensil_user row1 = utensil_user row2 ->
      utensil_name row1 = utensil_name row2 -> row1 = row2)
  /\ (forall p1 p2,
         In p1 (user_preferences d) -> In p2 (user_preferences d) ->
         pref_id p1 = pref_id p2 -> p1 = p2)
  /\ (forall r1 r2,
         In r1 (recipes d) -> In r2 (recipes d) ->
         recipe_id r1 = recipe_id r2 -> r1 = r2).
Proof.
  cbv zeta.
  pose proof (run_preserves
                (fun d _ => utensils_unique d /\ preferences_single d)
                (fun _ => True) (fun _ _ => I) (fun _ _ _ _ _ Hq => Hq)
                (fun _ _ _ _ Hq => Hq)) as H.
  destruct (H (fun caller r d _ _ Hq =>
                 conj (exec_utensils_unique caller r d (proj1 Hq))
                      (exec_preferences_single caller r d (proj2 Hq))))
    with (parseFloat := parseFloat) (actions := actions)
         (w := Program.initial) as ((Hk & _ & _) & Hp).
  - intros email password name d _ (Hu & Hp). unfold sign_up.
    destruct (existsb _ _); [now split|]. split; [|exact Hp].
    apply (utensils_same d); auto; cbn; lia.
  - split; [|constructor].
    split; [constructor|split; [constructor|intros row []]].
  - destruct (run_recipes_kept parseFloat 0 actions Program.initial
                empty_fresh) as ((Hr & _) & _).
    split; [|split].
    + intros row1 row2 H1 H2 Hu Hn.
      apply (NoDup_map_eq utensil_key _ row1 row2 Hk H1 H2).
      unfold utensil_key. now rewrite Hu, Hn.
    + intros p1 p2 H1 H2 He.
      exact (NoDup_map_eq pref_id _ p1 p2 Hp H1 H2 He).
    + intros r1 r2 H1 H2 He.
      exact (NoDup_map_eq recipe_id _ r1 r2 Hr H1 H2 He).
Qed.

Lemma reachable_tables_unique_witness :
  {| utensil_id := 2; utensil_user := 1; utensil_name := "Pan" |}
  = {| utensil_id := 2; utensil_user := 1; utensil_name := "Pan" |}.
Proof.
  refine (proj1 (reachable_tables_unique parseDigits
                   [Program.DoRegister "Ana" "ana@example.com" "secret1"
                      "secret1" true;
                    Program.DoLogin "ana@example.com" "secret1";
                    Program.DoSaveUtensil
                      {| OnboardingUtensils.form_name := "Pan" |} None;
                    Program.DoSaveUtensil
                      {| OnboardingUtensils.form_name := " Pan" |} None])
            _ _ _ _ _ _).
  - vm_compute. tauto.
  - vm_compute. tauto.
  - reflexivity.
  - reflexivity.
Defined.

(** *** Preferences on the create-recipe screen *)

Section CreatePreferences.

Lemma stringOrNull_idem (s : option string) :
  CreateRecipeScreen.stringOrNull (CreateRecipeScreen.stringOrNull s)
  = CreateRecipeScreen.stringOrNull s.
Proof.
  destruct s as [v|]; [|reflexivity]. simpl.
  destruct (Js.truthy v) eqn:E; simpl; now rewrite ?E.
Qed.

Lemma integerOrNull_idem (n : option Z) :
  CreateRecipeScreen.integerOrNull (CreateRecipeScreen.integerOrNull n)
  = CreateRecipeScreen.integerOrNull n.
Proof. destruct n as [[|v|v]|]; reflexivity. Qed.

Lemma integerOr_integerOrNull (n : option Z) (d : Z) :
  OnboardingTastes.integerOr (CreateRecipeScreen.integerOrNull n) d
  = OnboardingTastes.integerOr n d.
Proof. destruct n as [[|v|v]|]; reflexivity. Qed.

Lemma difficulty_stringOrNull (s : option string) :
  difficulty_column s = true ->
  difficulty_column (CreateRecipeScreen.stringOrNull s) = true.
Proof.
  destruct s as [v|]; [|reflexivity]. simpl.
  destruct (Js.truthy v); [auto|reflexivity].
Qed.

Lemma dietsOfColumn_stringOrNull (s : option string) :
  OnboardingTastes.dietsOfColumn
    (CreateRecipeScreen.stringOrNull
       (Some match s with Some d => d | None => EmptyString end))
  = OnboardingTastes.dietsOfColumn s.
Proof.
  destruct s as [[|c v]|]; reflexivity.
Qed.

Lemma difficulty_text_stringOrNull (s : option string) :
  match CreateRecipeScreen.stringOrNull s with
  | Some d => d
  | None => EmptyString
  end
  = match s with Some d => d | None => EmptyString end.
Proof. destruct s as [[|c v]|]; reflexivity. Qed.

Lemma select_preferences_id (u : UserId) (d : DB) (row : UserPreferences) :
  select_preferences (Some u) u d = Some row -> pref_id row = u.
Proof.
  unfold select_preferences. intros H. apply find_some in H as [_ H].
  apply andb_true_iff in H as [H _]. now apply Z.eqb_eq.
Qed.

End CreatePreferences.



(** *** The two cook clients *)

(** X21. The cook function of the documentation and the cook button of
    the saved-recipe screen send the same request: whatever the store and
    the network do, both leave the same store behind, and one reports
    success exactly when the other does. *)
Theorem cook_clients_agree (recipe : Recipe) (w : World) :
  let wd := snd (Docs.cookRecipe (recipe_id recipe) w) in
  let ws := snd (SavedRecipeDetailScreen.onPressCook recipe w) in
  db wd = db ws
  /\ exists newd news,
       appended (trace w) (trace wd) newd
       /\ appended (trace w) (trace ws) news
       /\ (In (Alert EmptyString "Enjoy your meal! Ingredients updated.")
             newd
           <-> In (RouterReplace "/dashboard") news).
Proof.
  unfold Docs.cookRecipe, SavedRecipeDetailScreen.onPressCook,
    SavedRecipeDetailScreen.onCookResponse, appended.
  destruct (hd None (faults w)) as [[e|msg]|] eqn:Hf.
  - run_app. rewrite Hf. cbn [error]. run_app. split; [reflexivity|].
    do 2 eexists. split; [trace_eq|]. split; [trace_eq|].
    cbn [In]. split; intros H;
      repeat (destruct H as [H|H]; try discriminate H); contradiction.
  - run_app. rewrite Hf. run_app. split; [reflexivity|].
    exists []. eexists. split; [now rewrite app_nil_r|].
    split; [trace_eq|].
    cbn [In]. split; intros H;
      repeat (destruct H as [H|H]; try discriminate H); contradiction.
  - run_app. rewrite Hf. cbn [exec].
    destruct (select_recipe_and_subtract_ingredients (session w)
                (recipe_id recipe) (db w)) as [o d'].
    cbn [error data fst snd].
    destruct o; cbn [cook_message].
    + cbn. run_app. split; [reflexivity|].
      do 2 eexists. split; [trace_eq|]. split; [trace_eq|].
      cbn [In]. tauto.
    + change (Js.startsWith ("Error: Insufficient ingredient - " ++ name)
                "Success") with false.
      cbn. run_app. split; [reflexivity|].
      do 2 eexists. split; [trace_eq|]. split; [trace_eq|].
      cbn [In]. split; intros H;
        repeat (destruct H as [H|H]; try discriminate H); contradiction.
    + cbn. run_app. split; [reflexivity|].
      do 2 eexists. split; [trace_eq|]. split; [trace_eq|].
      cbn [In]. split; intros H;
        repeat (destruct H as [H|H]; try discriminate H); contradiction.
    + cbn. run_app. split; [reflexivity|].
      do 2 eexists. split; [trace_eq|]. split; [trace_eq|].
      cbn [In]. split; intros H;
        repeat (destruct H as [H|H]; try discriminate H); contradiction.
Qed.

Lemma cook_clients_agree_witness :
  db (snd (Docs.cookRecipe 10
             {| db := kitchen 500 false; session := Some 1; faults := [];
                trace := [] |}))
  = db (snd (SavedRecipeDetailScreen.onPressCook (pancakes false)
               {| db := kitchen 500 false; session := Some 1; faults := [];
                  trace := [] |})).
Proof.
  exact (proj1 (cook_clients_agree (pancakes false)
                  {| db := kitchen 500 false; session := Some 1;
                     faults := []; trace := [] |})).
Defined.

(** *** Who is signed in *)

Section SessionKept.

Variable s : option UserId.

Let signed (w : World) : Prop := session w = s.

Lemma signed_ret {A} (a : A) : preserves signed (ret a).
Proof. intros w H. exact H. Qed.

Lemma signed_throw {A} (e : Exn) : preserves signed (@throw A e).
Proof. intros w H. exact H. Qed.

Lemma signed_bind {A B} (m : App A) (k : A -> App B) :
  preserves signed m -> (forall a, preserves signed (k a)) ->
  preserves signed (bind m k).
Proof.
  intros Hm Hk w H. unfold bind. specialize (Hm w H).
  destruct (m w) as [[a|e] w']; cbn [snd] in *; [now apply Hk|assumption].
Qed.

Lemma signed_try {A} (body : App A) (handler : Exn -> App A)
    (fin : App unit) :
  preserves signed body -> (forall e, preserves signed (handler e)) ->
  preserves signed fin ->
  preserves signed (try_catch_finally body handler fin).
Proof.
  intros Hb Hh Hfin w H. unfold try_catch_finally. specialize (Hb w H).
  destruct (body w) as [[a|e] w1]; cbn [snd] in *.
  - now apply Hfin.
  - specialize (Hh e w1 Hb). destruct (handler e w1) as [r2 w2].
    cbn [snd] in *. now apply Hfin.
Qed.

Lemma signed_log (e : Event) : preserves signed (log e).
Proof. intros w H. exact H. Qed.

Lemma signed_call (r : Request) : preserves signed (call r).
Proof.
  intros w H. unfold call.
  destruct (next_fault w) as [[e|msg]|]; try exact H.
  destruct (exec (session w) r (db w)). exact H.
Qed.

Lemma signed_getUser : preserves signed getUser.
Proof. intros w H. exact H. Qed.

Lemma signed_signUp (email password name : string) :
  preserves signed (signUp email password name).
Proof.
  intros w H. unfold signUp.
  destruct (next_fault w) as [[e|msg]|]; try exact H.
  destruct (sign_up email password name (db w)). exact H.
Qed.

Ltac keep_session :=
  cbv zeta;
  unfold alert, console_error, router_push, router_replace, set_state,
    throw_error, Program.when;
  repeat first
    [ apply signed_ret
    | apply signed_throw
    | apply signed_getUser
    | apply signed_signUp
    | apply signed_log
    | apply signed_call
    | apply signed_bind; [|intros ?]
    | apply signed_try; [|intros ?|]
    | match goal with
      | |- preserves _ (match ?x with _ => _ end) => destruct x
      | |- preserves _ (if ?b then _ else _) => destruct b
      end ].

(** Every handler but the three that sign in or out leaves the session as
    it is. *)
Lemma handlers_keep_session (parseFloat : string -> Js.Number)
    (a : Program.Action) :
  match a with
  | Program.DoLogin _ _ | Program.DoLogout
  | Program.DoRegister _ _ _ _ true => True
  | _ => preserves signed (Program.handler parseFloat a)
  end.
Proof.
  destruct a; unfold Program.handler; try exact I.
  - intros w H. exact H.
  - destruct goToLogin; [exact I|].
    unfold Register.handleRegister. keep_session.
  - unfold OnboardingIngredients.handleSaveIngredient. keep_session.
  - unfold OnboardingIngredients.handleDeleteIngredient,
      OnboardingIngredients.onPressDelete. keep_session.
  - unfold OnboardingUtensils.handleSaveUtensil. keep_session.
  - unfold OnboardingUtensils.handleDeleteUtensil,
      OnboardingUtensils.onPressDelete. keep_session.
  - unfold OnboardingTastes.loadPreferences. keep_session.
  - unfold OnboardingTastes.handleComplete. keep_session.
  - unfold CreateRecipeScreen.handleSavePreferences. keep_session.
  - unfold CreateRecipeScreen.handleSaveRecipe, CreateRecipeScreen.onPressOK.
    keep_session.
  - unfold RecipesScreen.handleSaveRecipe, RecipesScreen.onPressOK. keep_session.
  - unfold RecipeDetailScreen.handleSaveRecipe, RecipeDetailScreen.onPressOK.
    keep_session.
  - unfold DashboardScreen.handleDeleteRecipe, DashboardScreen.onPressDelete.
    keep_session.
  - unfold SavedRecipeDetailScreen.handleCookRecipe,
      SavedRecipeDetailScreen.onPressCook,
      SavedRecipeDetailScreen.onCookResponse. keep_session.
  - unfold Docs.addOrUpdateIngredient. keep_session.
  - unfold Docs.cookRecipe. keep_session.
Qed.

End SessionKept.

(** X22. Only signing in and out changes who is signed in. Every action
    other than a login, a logout and the 'Go to Login' button of the
    register screen leaves the session as it was, whatever the store and
    the network do; in particular registering does not sign the new user
    in. *)
Theorem session_changes_only_by_auth (parseFloat : string -> Js.Number)
    (a : Program.Action) (w : World) :
  session (Program.step parseFloat a w) <> session w ->
  (exists username password, a = Program.DoLogin username password)
  \/ a = Program.DoLogout
  \/ exists name email password confirmPassword,
       a = Program.DoRegister name email password confirmPassword true.
Proof.
  intros Hne.
  pose proof (handlers_keep_session (session w) parseFloat a) as H.
  destruct a; try (exfalso; apply Hne; exact (H w eq_refl)).
  - left. now exists username, password.
  - destruct goToLogin; [|exfalso; apply Hne; exact (H w eq_refl)].
    right. right. now exists name, email, password, confirmPassword.
  - right. now left.
Qed.

Lemma session_changes_only_by_auth_witness :
  (exists username password,
      Program.DoLogin "ana@example.com" "secret1"
      = Program.DoLogin username password)
  \/ Program.DoLogin "ana@example.com" "secret1" = Program.DoLogout
  \/ exists name email password confirmPassword,
       Program.DoLogin "ana@example.com" "secret1"
       = Program.DoRegister name email password confirmPassword true.
Proof.
  apply (session_changes_only_by_auth parseDigits
           (Program.DoLogin "ana@example.com" "secret1") ana_world).
  vm_compute. discriminate.
Defined.

(** X23. Removing a custom entry. After the remove button the name is no
    longer in the list and every other name is where it was; and removing
    a custom diet that has just been added, when it was not in the list
    before, restores the state. The custom cuisines behave the same way. *)
Theorem remove_custom_entry (d text : string)
    (p : OnboardingTastes.Preferences) :
  (~ In d (OnboardingTastes.diets (OnboardingTastes.removeCustomDiet d p))
   /\ (forall x, x <> d ->
         (In x (OnboardingTastes.diets
                  (OnboardingTastes.removeCustomDiet d p))
          <-> In x (OnboardingTastes.diets p)))
   /\ (Js.truthy (Js.trim text) = true ->
       ~ In (Js.trim text) (OnboardingTastes.diets p) ->
       OnboardingTastes.removeCustomDiet (Js.trim text)
         (OnboardingTastes.addCustomDiet text p) = p))
  /\ (~ In d (OnboardingTastes.st_tastes
                (OnboardingTastesControls.removeCustomCuisine d p))
      /\ (forall x, x <> d ->
            (In x (OnboardingTastes.st_tastes
                     (OnboardingTastesControls.removeCustomCuisine d p))
             <-> In x (OnboardingTastes.st_tastes p)))
      /\ (Js.truthy (Js.trim text) = true ->
          ~ In (Js.trim text) (OnboardingTastes.st_tastes p) ->
          OnboardingTastesControls.removeCustomCuisine (Js.trim text)
            (OnboardingTastesControls.addCustomCuisine text p) = p)).
Proof.
  unfold OnboardingTastes.removeCustomDiet, OnboardingTastes.addCustomDiet,
    OnboardingTastesControls.removeCustomCuisine,
    OnboardingTastesControls.addCustomCuisine.
  split; (split; [|split]).
  - cbn [OnboardingTastes.diets OnboardingTastes.with_diets].
    intros H. apply filter_In in H as [_ H].
    now rewrite (String.eqb_refl d) in H.
  - cbn [OnboardingTastes.diets OnboardingTastes.with_diets].
    intros x Hx. rewrite filter_In. apply String.eqb_neq in Hx.
    rewrite Hx. cbn [negb]. tauto.
  - intros Ht Hn.
    assert (Hi : Js.includes (OnboardingTastes.diets p) (Js.trim text)
                 = false).
    { destruct (Js.includes _ _) eqn:E; [|reflexivity].
      apply includes_In in E. contradiction. }
    rewrite Ht, Hi. cbn [negb andb OnboardingTastes.diets
                           OnboardingTastes.with_diets].
    rewrite (filter_snoc_absent _ _ Hn). now destruct p.
  - cbn [OnboardingTastes.st_tastes OnboardingTastesControls.with_tastes].
    intros H. apply filter_In in H as [_ H].
    now rewrite (String.eqb_refl d) in H.
  - cbn [OnboardingTastes.st_tastes OnboardingTastesControls.with_tastes].
    intros x Hx. rewrite filter_In. apply String.eqb_neq in Hx.
    rewrite Hx. cbn [negb]. tauto.
  - intros Ht Hn.
    assert (Hi : Js.includes (OnboardingTastes.st_tastes p) (Js.trim text)
                 = false).
    { destruct (Js.includes _ _) eqn:E; [|reflexivity].
      apply includes_In in E. contradiction. }
    rewrite Ht, Hi. cbn [negb andb OnboardingTastes.st_tastes
                           OnboardingTastesControls.with_tastes].
    rewrite (filter_snoc_absent _ _ Hn). now destruct p.
Qed.

Lemma remove_custom_entry_witness :
  OnboardingTastes.removeCustomDiet "Halal"
    (OnboardingTastes.addCustomDiet " Halal "
       OnboardingTastes.initialPreferences)
  = OnboardingTastes.initialPreferences.
Proof.
  refine (proj2 (proj2 (proj1
            (remove_custom_entry "Halal" " Halal "
               OnboardingTastes.initialPreferences))) _ _).
  - reflexivity.
  - simpl. tauto.
Defined.

(** *** Whose rows the requests name *)

Section RequestsFor.

Variable s : option UserId.

Lemma sends_ret {A} (a : A) : sends_for s (ret a).
Proof.
  intros w H. split; [exact H|]. exists []. split.
  - unfold appended. cbn. now rewrite app_nil_r.
  - intros r err [].
Qed.

Lemma sends_throw {A} (e : Exn) : sends_for s (@throw A e).
Proof.
  intros w H. split; [exact H|]. exists []. split.
  - unfold appended. cbn. now rewrite app_nil_r.
  - intros r err [].
Qed.

Lemma sends_bind {A B} (m : App A) (k : A -> App B) :
  sends_for s m -> (forall a, sends_for s (k a)) -> sends_for s (bind m k).
Proof.
  intros Hm Hk w H. unfold bind.
  destruct (Hm w H) as (Hs & new & Ht & Hn).
  destruct (m w) as [[a|e] w']; cbn [snd] in *.
  - destruct (Hk a w' Hs) as (Hs' & new' & Ht' & Hn').
    split; [exact Hs'|]. exists (new ++ new')%list. split.
    + unfold appended in *. now rewrite Ht', Ht, app_assoc.
    + intros r err Hin. apply in_app_or in Hin as [Hin|Hin]; eauto.
  - split; [exact Hs|]. now exists new.
Qed.

Lemma sends_try {A} (body : App A) (handler : Exn -> App A)
    (fin : App unit) :
  sends_for s body -> (forall e, sends_for s (handler e)) ->
  sends_for s fin ->
  sends_for s (try_catch_finally body handler fin).
Proof.
  intros Hb Hh Hfin w H. unfold try_catch_finally.
  destruct (Hb w H) as (Hs & new & Ht & Hn).
  destruct (body w) as [[a|e] w1]; cbn [snd] in *.
  - destruct (Hfin w1 Hs) as (Hs' & new' & Ht' & Hn').
    split; [exact Hs'|]. exists (new ++ new')%list. split.
    + unfold appended in *. now rewrite Ht', Ht, app_assoc.
    + intros r err Hin. apply in_app_or in Hin as [Hin|Hin]; eauto.
  - destruct (Hh e w1 Hs) as (Hs2 & new2 & Ht2 & Hn2).
    destruct (handler e w1) as [r2 w2]. cbn [snd] in *.
    destruct (Hfin w2 Hs2) as (Hs' & new' & Ht' & Hn').
    split; [exact Hs'|]. exists (new ++ new2 ++ new')%list. split.
    + unfold appended in *. now rewrite Ht', Ht2, Ht, !app_assoc.
    + intros r err Hin. apply in_app_or in Hin as [Hin|Hin]; eauto.
      apply in_app_or in Hin as [Hin|Hin]; eauto.
Qed.

Lemma sends_log (e : Event) :
  match e with Called _ _ => False | _ => True end -> sends_for s (log e).
Proof.
  intros He w H. split; [exact H|]. exists [e]. split; [reflexivity|].
  intros r err [->|[]]. destruct He.
Qed.

Lemma sends_call (r : Request) : request_for s r -> sends_for s (call r).
Proof.
  intros Hr w H. unfold call, appended.
  destruct (next_fault w) as [[e|msg]|].
  - split; [exact H|]. eexists. split; [reflexivity|].
    intros r' err' [[= <- <-]|[]]. exact Hr.
  - split; [exact H|]. exists []. split; [cbn; now rewrite app_nil_r|].
    intros r' err' [].
  - destruct (exec (session w) r (db w)) as [resp d'].
    split; [exact H|]. eexists. split; [reflexivity|].
    intros r' err' [[= <- <-]|[]]. exact Hr.
Qed.

Lemma sends_getUser {B} (k : option UserId -> App B) :
  sends_for s (k s) -> sends_for s (bind getUser k).
Proof.
  intros Hk w H. unfold bind, getUser. rewrite H. now apply Hk.
Qed.

Lemma sends_signUp (email password name : string) :
  sends_for s (signUp email password name).
Proof.
  intros w H. unfold signUp, appended.
  destruct (next_fault w) as [[e|msg]|].
  - split; [exact H|]. eexists. split; [reflexivity|].
    intros r' err' [Heq|[]]. discriminate Heq.
  - split; [exact H|]. exists []. split; [cbn; now rewrite app_nil_r|].
    intros r' err' [].
  - destruct (sign_up email password name (db w)) as [err d'].
    split; [exact H|]. eexists. split; [reflexivity|].
    intros r' err' [Heq|[]]. discriminate Heq.
Qed.

End RequestsFor.

Ltac sends :=
  cbv zeta;
  unfold alert, console_error, router_push, router_replace, set_state,
    throw_error, Program.when;
  repeat first
    [ apply sends_ret
    | apply sends_throw
    | apply sends_getUser
    | apply sends_signUp
    | apply sends_log; exact I
    | apply sends_call; cbn; first [reflexivity | exact I]
    | apply sends_bind; [|intros ?]
    | apply sends_try; [|intros ?|]
    | match goal with
      | |- sends_for _ (match ?x with _ => _ end) => destruct x
      | |- sends_for _ (if ?b then _ else _) => destruct b
      end ].

Section HandlersSend.

(** Every handler that does not sign in or out sends only requests for the
    signed-in user. *)
Lemma handlers_send_for (s : option UserId)
    (parseFloat : string -> Js.Number) (a : Program.Action) :
  match a with
  | Program.DoLogin _ _ | Program.DoLogout
  | Program.DoRegister _ _ _ _ true => True
  | _ => sends_for s (Program.handler parseFloat a)
  end.
Proof.
  destruct a; unfold Program.handler; try exact I.
  - intros w H. split; [exact H|]. exists [].
    split; [unfold appended; cbn; now rewrite app_nil_r|intros r err []].
  - destruct goToLogin; [exact I|].
    unfold Register.handleRegister. sends.
  - unfold OnboardingIngredients.handleSaveIngredient. sends.
  - unfold OnboardingIngredients.handleDeleteIngredient,
      OnboardingIngredients.onPressDelete. sends.
  - unfold OnboardingUtensils.handleSaveUtensil. sends.
  - unfold OnboardingUtensils.handleDeleteUtensil,
      OnboardingUtensils.onPressDelete. sends.
  - unfold OnboardingTastes.loadPreferences. sends.
  - unfold OnboardingTastes.handleComplete. sends.
  - unfold CreateRecipeScreen.handleSavePreferences. sends.
  - unfold CreateRecipeScreen.handleSaveRecipe, CreateRecipeScreen.onPressOK.
    sends.
  - unfold RecipesScreen.handleSaveRecipe, RecipesScreen.onPressOK. sends.
  - unfold RecipeDetailScreen.handleSaveRecipe, RecipeDetailScreen.onPressOK.
    sends.
  - unfold DashboardScreen.handleDeleteRecipe, DashboardScreen.onPressDelete.
    sends.
  - unfold SavedRecipeDetailScreen.handleCookRecipe,
      SavedRecipeDetailScreen.onPressCook,
      SavedRecipeDetailScreen.onCookResponse. sends.
  - unfold Docs.addOrUpdateIngredient. sends.
  - unfold Docs.cookRecipe. sends.
Qed.

End HandlersSend.

(** X24. Every request carries the signed-in user. Whatever the action,
    the store and the network, each request the step sends names no user
    but the one signed in: the inserted or updated row carries that user's
    id, and the profile and the preference record read or written are that
    user's. For a login this is the user the login has just signed in. *)
Theorem requests_name_session_user (parseFloat : string -> Js.Number)
    (a : Program.Action) (w : World) :
  exists new,
    appended (trace w) (trace (Program.step parseFloat a w)) new
    /\ forall r err,
         In (Called r err) new ->
         request_for
           (match a with
            | Program.DoLogin _ _ => session (Program.step parseFloat a w)
            | _ => session w
            end) r.
Proof.
  pose proof (handlers_send_for (session w) parseFloat a) as H.
  unfold Program.step.
  destruct a;
    try (destruct (H w eq_refl) as (_ & new & Ht & Hn); now exists new).
  - clear H. unfold Program.handler, Login.handleLogin, appended.
    destruct (negb (Js.truthy username) || negb (Js.truthy password))%bool.
    { run_app. eexists. split; [reflexivity|].
      intros r err [Heq|[]]. discriminate Heq. }
    destruct (hd None (faults w)) as [[e|msg]|] eqn:Hf.
    + run_app. rewrite Hf. cbn. eexists. split; [trace_eq|].
      intros r err Hin.
      repeat (destruct Hin as [Hin|Hin]; try discriminate Hin).
      destruct Hin.
    + run_app. rewrite Hf. cbn. eexists. split; [trace_eq|].
      intros r err Hin.
      repeat (destruct Hin as [Hin|Hin]; try discriminate Hin).
      destruct Hin.
    + destruct (sign_in username password (db w)) as [u|] eqn:Hi.
      * destruct (hd None (tl (faults w))) as [[e|msg]|] eqn:Hf2.
        -- run_app. rewrite Hf, Hi. run_app. rewrite Hf2. cbn.
           eexists. split; [trace_eq|]. intros r err Hin.
           repeat (destruct Hin as [Hin|Hin]; try discriminate Hin);
             [|destruct Hin].
           injection Hin as <- <-. reflexivity.
        -- run_app. rewrite Hf, Hi. run_app. rewrite Hf2. cbn.
           eexists. split; [trace_eq|]. intros r err Hin.
           repeat (destruct Hin as [Hin|Hin]; try discriminate Hin).
           destruct Hin.
        -- run_app. rewrite Hf, Hi. run_app. rewrite Hf2. cbn [exec].
           destruct (select_profile (Some u) u (db w)) as [pr|]; cbn;
             [destruct (onboarding_complete pr); cbn|].
           all: eexists; (split; [trace_eq|]); intros r err Hin.
           all: repeat (destruct Hin as [Hin|Hin]; try discriminate Hin);
             [|destruct Hin].
           all: injection Hin as <- <-; reflexivity.
      * run_app. rewrite Hf, Hi. cbn. eexists. split; [trace_eq|].
        intros r err Hin.
        repeat (destruct Hin as [Hin|Hin]; try discriminate Hin).
        destruct Hin.
  - destruct goToLogin;
      [|destruct (H w eq_refl) as (_ & new & Ht & Hn); now exists new].
    clear H. unfold Program.handler, Program.when.
    assert (Hr : sends_for (session w)
                   (Register.handleRegister name email password
                      confirmPassword)).
    { unfold Register.handleRegister. sends. }
    destruct (Hr w eq_refl) as (_ & new & Ht & Hn).
    unfold bind at 1.
    destruct (Register.handleRegister name email password confirmPassword w)
      as [[[]|e] w1]; cbn [snd] in *; [|now exists new].
    unfold Register.onPressGoToLogin, appended in *.
    destruct (hd None (faults w1)) as [[e|msg]|] eqn:Hf;
      run_app; rewrite Hf; run_app; rewrite Ht.
    + eexists. split; [trace_eq|]. intros r err Hin.
      apply in_app_or in Hin as [Hin|Hin]; [eauto|].
      repeat (destruct Hin as [Hin|Hin]; try discriminate Hin).
      destruct Hin.
    + now exists new.
    + eexists. split; [trace_eq|]. intros r err Hin.
      apply in_app_or in Hin as [Hin|Hin]; [eauto|].
      repeat (destruct Hin as [Hin|Hin]; try discriminate Hin).
      destruct Hin.
  - clear H. unfold Program.handler, Debug.handleLogout, appended.
    destruct (hd None (faults w)) as [[e|msg]|] eqn:Hf;
      run_app; rewrite Hf; run_app.
    + eexists. split; [trace_eq|]. intros r err Hin.
      repeat (destruct Hin as [Hin|Hin]; try discriminate Hin).
      destruct Hin.
    + exists []. split; [now rewrite app_nil_r|]. intros r err [].
    + eexists. split; [trace_eq|]. intros r err Hin.
      repeat (destruct Hin as [Hin|Hin]; try discriminate Hin).
      destruct Hin.
Qed.

Lemma requests_name_session_user_witness :
  request_for (Some 1)
    (IngredientsInsert
       {| d_name := "Flour"; d_quantity := parseDigits "3";
          d_unit := "kg"; d_user_id := 1 |}).
Proof.
  destruct (requests_name_session_user parseDigits
              (Program.DoSaveIngredient (flour_form "3" "kg") None)
              empty_kitchen) as (new & Ht & H).
  refine (H _ None _).
  unfold appended in Ht. vm_compute in Ht.
  apply app_inv_head with (l := []) in Ht. subst new. simpl. tauto.
Defined.

(** *** From the first saved recipe to the dashboard *)

Section FirstRecipe.

Lemma select_profile_marked (u : UserId) (d d' : DB) (p : Profile) :
  profiles d'
  = map (fun q => if (profile_id q =? u) && owns (Some u) (profile_id q)
                  then set_onboarding_complete true q else q) (profiles d) ->
  select_profile (Some u) u d = Some p ->
  select_profile (Some u) u d' = Some (set_onboarding_complete true p).
Proof.
  unfold select_profile. intros -> H.
  rewrite find_map_same.
  - rewrite H. cbn [option_map]. apply find_some in H as [_ H].
    cbv beta in H. now rewrite H.
  - intros q. cbv beta.
    destruct ((profile_id q =? u) && owns (Some u) (profile_id q))%bool
      eqn:E; [|exact E].
    cbn [set_onboarding_complete profile_id]. exact E.
Qed.

(** The save of the onboarding recipes screen, for a signed-in user and
    with no fault. *)
Lemma onboarding_save_stores (recipe : Ai.GeneratedRecipe) (w : World)
    (u : UserId) (p c s : option Z) :
  session w = Some u ->
  faults w = [] ->
  integer_column (SaveRecipe.prepTime recipe) = Some p ->
  integer_column (SaveRecipe.cookTime recipe) = Some c ->
  integer_column (Ai.g_servings recipe) = Some s ->
  let w' := snd (RecipesScreen.handleSaveRecipe recipe w) in
  auth_users (db w') = auth_users (db w)
  /\ profiles (db w')
     = map (fun q => if (profile_id q =? u) && owns (Some u) (profile_id q)
                     then set_onboarding_complete true q else q)
         (profiles (db w))
  /\ session w' = Some u
  /\ faults w' = [].
Proof.
  intros Hs Hf Hp Hc Hsv. cbv zeta.
  unfold RecipesScreen.handleSaveRecipe.
  run_app. rewrite Hs. run_app. rewrite Hf. cbn [hd tl].
  cbn [exec write_response]. unfold insert_recipe.
  cbn [SaveRecipe.recipeRow rd_user_id rd_prep_time_minutes
         rd_cook_time_minutes rd_servings rd_title rd_description
         rd_ingredients rd_instructions rd_is_used owns].
  rewrite Z.eqb_refl, Hp, Hc, Hsv. cbn [negb fst snd error]. run_app.
  cbn [exec write_response update_profile fst snd error]. run_app.
  repeat split; reflexivity.
Qed.

Lemma logout_clears (w : World) :
  faults w = [] ->
  let w' := snd (Debug.handleLogout w) in
  db w' = db w /\ session w' = None /\ faults w' = []
  /\ trace w' = (trace w ++ [AuthCalled "signOut" None; RouterPush "/"])%list.
Proof.
  intros Hf. cbv zeta. unfold Debug.handleLogout.
  run_app. rewrite Hf. cbn [hd tl]. run_app.
  repeat split; try reflexivity. trace_eq.
Qed.

Lemma login_routes (email password : string) (w : World) (u : UserId)
    (q : Profile) :
  faults w = [] ->
  Js.truthy email = true ->
  Js.truthy password = true ->
  sign_in email password (db w) = @Some UserId u ->
  select_profile (@Some UserId u) u (db w) = Some q ->
  let w' := snd (Login.handleLogin email password w) in
  session w' = Some u
  /\ trace w'
     = (trace w
        ++ [SetState "loading" "true";
            AuthCalled "signInWithPassword" None;
            Called (ProfilesSelect u) None;
            RouterPush (if onboarding_complete q then "/dashboard"
                        else "/onboarding/ingredients");
            SetState "loading" "false"])%list.
Proof.
  intros Hf He Hp Hin Hq. cbv zeta. unfold Login.handleLogin.
  rewrite He, Hp. cbn [negb orb].
  run_app. rewrite Hf. cbn [hd tl]. rewrite Hin. run_app. cbn [exec].
  rewrite Hq. cbn [data error]. destruct (onboarding_complete q); run_app;
    (split; [reflexivity|trace_eq]).
Qed.

Lemma sign_in_same (email password : string) (d d' : DB) :
  auth_users d' = auth_users d ->
  sign_in email password d' = sign_in email password d.
Proof. unfold sign_in. now intros ->. Qed.

Lemma select_profile_same (caller : option UserId) (id : UserId) (d d' : DB) :
  profiles d' = profiles d ->
  select_profile caller id d' = select_profile caller id d.
Proof. unfold select_profile. now intros ->. Qed.

End FirstRecipe.

(** X25. The first saved recipe opens the dashboard. A signed-in user with
    a profile who saves a generated recipe on the recipes screen of the
    onboarding, logs out and logs in again is sent to the dashboard, with
    no fault on the way. The same save made on the create-recipe screen
    leaves the flag alone: a user whose flag was false is sent to the
    ingredients screen again. *)
Theorem first_recipe_opens_dashboard (recipe : Ai.GeneratedRecipe)
    (email password : string) (w : World) (u : UserId) (pr : Profile)
    (p c s : option Z) :
  session w = Some u ->
  faults w = [] ->
  Js.truthy email = true ->
  Js.truthy password = true ->
  sign_in email password (db w) = Some u ->
  select_profile (Some u) u (db w) = Some pr ->
  integer_column (SaveRecipe.prepTime recipe) = Some p ->
  integer_column (SaveRecipe.cookTime recipe) = Some c ->
  integer_column (Ai.g_servings recipe) = Some s ->
  let again (w1 : World) :=
    snd (Login.handleLogin email password (snd (Debug.handleLogout w1))) in
  let w3 := again (snd (RecipesScreen.handleSaveRecipe recipe w)) in
  let w3' := again (snd (CreateRecipeScreen.handleSaveRecipe recipe w)) in
  (exists before,
      trace w3 = (before ++ [RouterPush "/dashboard";
                             SetState "loading" "false"])%list)
  /\ session w3 = Some u
  /\ (onboarding_complete pr = false ->
      exists before,
        trace w3' = (before ++ [RouterPush "/onboarding/ingredients";
                                SetState "loading" "false"])%list).
Proof.
  intros Hs Hf He Hp Hin Hpr Hprep Hcook Hserv. cbv beta zeta.
  assert (Hnf : next_fault w = None) by (unfold next_fault; now rewrite Hf).
  assert (Hmarked :
            let w2 := snd (Debug.handleLogout
                             (snd (RecipesScreen.handleSaveRecipe recipe w)))
            in
            faults w2 = []
            /\ sign_in email password (db w2) = @Some UserId u
            /\ select_profile (@Some UserId u) u (db w2)
               = Some (set_onboarding_complete true pr)).
  { destruct (onboarding_save_stores recipe w u p c s Hs Hf Hprep Hcook Hserv)
      as (Ha & Hprof & _ & Hf1).
    remember (snd (RecipesScreen.handleSaveRecipe recipe w)) as w1 eqn:E.
    clear E. destruct (logout_clears w1 Hf1) as (Hd2 & _ & Hf2 & _).
    cbv zeta. rewrite Hd2. split; [exact Hf2|]. split.
    - rewrite (sign_in_same email password (db w) (db w1) Ha). exact Hin.
    - exact (select_profile_marked u (db w) (db w1) pr Hprof Hpr). }
  assert (Hkept :
            let w2 := snd (Debug.handleLogout
                             (snd (CreateRecipeScreen.handleSaveRecipe recipe
                                     w))) in
            faults w2 = []
            /\ sign_in email password (db w2) = @Some UserId u
            /\ select_profile (@Some UserId u) u (db w2) = Some pr).
  { destruct (create_save_stores recipe w u p c s Hs Hnf Hprep Hcook Hserv)
      as (Hdb & _ & Hf1 & _).
    unfold later_faults in Hf1. rewrite Hf in Hf1. cbn [tl] in Hf1.
    remember (snd (CreateRecipeScreen.handleSaveRecipe recipe w)) as w1
      eqn:E. clear E.
    destruct (logout_clears w1 Hf1) as (Hd2 & _ & Hf2 & _).
    cbv zeta. rewrite Hd2, Hdb. split; [exact Hf2|]. split.
    - rewrite <- Hin. now apply sign_in_same.
    - rewrite <- Hpr. now apply select_profile_same. }
  cbv zeta in Hmarked, Hkept.
  destruct Hmarked as (Hf2 & Hin2 & Hpr2).
  destruct Hkept as (Hf2' & Hin2' & Hpr2').
  split; [|split].
  - destruct (login_routes email password _ u _ Hf2 He Hp Hin2 Hpr2)
      as (_ & Ht).
    rewrite Ht. cbn [onboarding_complete set_onboarding_complete].
    eexists (_ ++ [_; _; _])%list. rewrite <- app_assoc. reflexivity.
  - exact (proj1 (login_routes email password _ u _ Hf2 He Hp Hin2 Hpr2)).
  - intros Hflag.
    destruct (login_routes email password _ u _ Hf2' He Hp Hin2' Hpr2')
      as (_ & Ht).
    rewrite Ht, Hflag.
    eexists (_ ++ [_; _; _])%list. rewrite <- app_assoc. reflexivity.
Qed.

Lemma first_recipe_opens_dashboard_witness :
  session
    (snd (Login.handleLogin "ana@example.com" "secret1"
            (snd (Debug.handleLogout
                    (snd (RecipesScreen.handleSaveRecipe
                            {| Ai.g_title := "Stew";
                               Ai.g_description := "Slow.";
                               Ai.g_difficulty := "Easy";
                               Ai.g_type := "Dinner";
                               Ai.g_time := "45 minutes";
                               Ai.g_ingredients := [];
                               Ai.g_instructions := [];
                               Ai.g_servings := Js.of_Z 2 |}
                            {| db := db ana_world; session := Some 1; faults := [];
                               trace := [] |}))))))
  = Some 1.
Proof.
  refine (proj1 (proj2
            (first_recipe_opens_dashboard
               {| Ai.g_title := "Stew"; Ai.g_description := "Slow.";
                  Ai.g_difficulty := "Easy"; Ai.g_type := "Dinner";
                  Ai.g_time := "45 minutes"; Ai.g_ingredients := [];
                  Ai.g_instructions := []; Ai.g_servings := Js.of_Z 2 |}
               "ana@example.com" "secret1" {| db := db ana_world; session := Some 1; faults := [];
                  trace := [] |} 1
               {| profile_id := 1; full_name := "Ana";
                  onboarding_complete := false |}
               (Some 13) (Some 31) (Some 2) _ _ _ _ _ _ _ _ _)));
    reflexivity.
Defined.
